(** * Variety, a MongoDB schema analyzer: a shallow embedding of variety.js

    The script is one closure run by the mongo shell.  Its pure helpers
    (the type classifier, the two flatteners and analysers, the two
    mergers, the schema converter and the index translator) are embedded
    as Rocq functions; objects mutated in place are threaded explicitly;
    the top-level script is a function from the shell's environment to a
    trace of its observable actions and the message of an uncaught
    [throw], if any. *)

From Stdlib Require Import String Ascii List ZArith QArith Lia Bool.
From Stdlib Require Import DecimalString DecimalZ DecimalNat FinFun.
Import ListNotations.
Open Scope string_scope.
Open Scope Z_scope.

Set Implicit Arguments.

(** ** Strings of the host language *)

Module Str.

Definition is_digit (c : ascii) : bool :=
  let n := nat_of_ascii c in (48 <=? n)%nat && (n <=? 57)%nat.

Definition dot : ascii := "."%char.

(** [s] has no ['.'] character. *)
Fixpoint dotfree (s : string) : bool :=
  match s with
  | EmptyString => true
  | String c s' => negb (Ascii.eqb c dot) && dotfree s'
  end.

(** [Number.prototype.toString] on an integral number. *)
Definition of_Z (z : Z) : string := NilEmpty.string_of_int (Z.to_int z).

(** The key the [for..in] loop gives for array position [i]. *)
Definition of_nat (i : nat) : string := NilEmpty.string_of_uint (Nat.to_uint i).

(** [Array.prototype.toString]: the elements joined by a comma. *)
Definition join (l : list string) : string := String.concat "," l.

(** [s] without the leading [p], when [s] starts with [p]. *)
Fixpoint strip_prefix (p s : string) : option string :=
  match p, s with
  | EmptyString, _ => Some s
  | String a p', String b s' => if Ascii.eqb a b then strip_prefix p' s' else None
  | String _ _, EmptyString => None
  end.

(** [s.slice(-1) === '.'] *)
Fixpoint ends_with_dot (s : string) : bool :=
  match s with
  | EmptyString => false
  | String c EmptyString => Ascii.eqb c dot
  | String _ s' => ends_with_dot s'
  end.

Definition upper (c : ascii) : ascii :=
  let n := nat_of_ascii c in
  if (97 <=? n)%nat && (n <=? 122)%nat then ascii_of_nat (n - 32) else c.

(** [s[0].toUpperCase() + s.slice(1)] *)
Definition capitalize (s : string) : string :=
  match s with
  | EmptyString => EmptyString
  | String c s' => String (upper c) s'
  end.

(** *** The ordinal patterns, read literally

    The sources of the script's patterns are text around one [\d+]:
    [\.E\d+E\.], [\.E\d+E] and [\.\d+], with [E] the array escape
    spliced in.  What follows is the pattern such a source stands for
    when [E] is literal text; what the engine makes of a source is
    asked of the host (see [Host]).  [digits_then post s] matches [\d+]
    followed by the literal [post] at the head of [s], greedily and
    with backtracking as the engine's matcher does, and returns what
    follows the match. *)
Fixpoint digits_then (post s : string) : option string :=
  match s with
  | EmptyString => None
  | String c s' =>
      if is_digit c then
        match digits_then post s' with
        | Some r => Some r
        | None => strip_prefix post s'
        end
      else None
  end.

(** A match of ['.' pre \d+ post] at the head of [s]. *)
Definition match_ordinal (pre post s : string) : option string :=
  match strip_prefix (String dot pre) s with
  | Some s1 => digits_then post s1
  | None => None
  end.

(** [s.replace(/\.pre\d+post/g, repl)]: leftmost matches, left to
    right, never overlapping.  [skip] counts the characters of the
    current match still to be dropped. *)
Fixpoint replace_from (pre post repl : string) (skip : nat) (s : string) : string :=
  match s with
  | EmptyString => EmptyString
  | String c s' =>
      match skip with
      | S n => replace_from pre post repl n s'
      | O =>
          match match_ordinal pre post s with
          | Some r => repl ++ replace_from pre post repl (String.length s' - String.length r) s'
          | None => String c (replace_from pre post repl O s')
          end
      end
  end.

Definition replace_ordinals (pre post repl s : string) : string :=
  replace_from pre post repl O s.

(** *** Patterns

    A pattern with the [g] flag is what [String.prototype.replace]
    makes of it: a function of the replacement and of the subject. *)
Definition pattern : Type := string -> string -> string.

(** [subject.replace(regex, replacement)] *)
Definition replace (subject : string) (regex : pattern) (replacement : string) : string :=
  regex replacement subject.

(** The characters to which the language of patterns gives a meaning of
    their own. *)
Definition syntax_character (c : ascii) : bool :=
  existsb (Ascii.eqb c)
    [ "\"%char; "^"%char; "$"%char; "."%char; "*"%char; "+"%char; "?"%char;
      "("%char; ")"%char; "["%char; "]"%char; "{"%char; "}"%char; "|"%char ].

(** [s] has none of them: spliced into the source of a pattern, it
    stands for itself. *)
Fixpoint syntax_free (s : string) : bool :=
  match s with
  | EmptyString => true
  | String c s' => negb (syntax_character c) && syntax_free s'
  end.

(** What the pattern [/suffix$/g] is for a literal [suffix] that is not
    empty: the one match is the end of a subject that ends with it. *)
Fixpoint replace_suffix (suffix repl s : string) : string :=
  if String.eqb s suffix then repl
  else match s with
       | EmptyString => EmptyString
       | String c s' => String c (replace_suffix suffix repl s')
       end.

End Str.

(** ** Plain objects of the host language

    An object used as a map from property names to values, in the order
    a [for..in] loop or [Object.keys] enumerates it: the names that are
    array indices first, in increasing numeric order, then the other
    names in the order they were first assigned. *)

Module JsObj.

Definition t (A : Type) : Type := list (string * A).

Fixpoint digits_value (s : string) (acc : N) : option N :=
  match s with
  | EmptyString => Some acc
  | String c s' =>
      if Str.is_digit c
      then digits_value s' (10 * acc + (N_of_ascii c - 48))%N
      else None
  end.

(** The canonical decimal names below [2^32 - 1] are array indices. *)
Definition array_index (k : string) : option N :=
  match k with
  | EmptyString => None
  | String c rest =>
      if Ascii.eqb c "0"%char && negb (String.eqb rest EmptyString) then None
      else match digits_value k 0%N with
           | Some n => if (n <? 4294967295)%N then Some n else None
           | None => None
           end
  end.

Section Ops.
Variable A : Type.

(** [o[k]], [None] standing for [undefined]. *)
Fixpoint get (k : string) (o : t A) : option A :=
  match o with
  | [] => None
  | (k', v) :: o' => if String.eqb k' k then Some v else get k o'
  end.

(** [o.hasOwnProperty(k)]; it is [k in o] as well, for a name under
    which objects inherit no member. *)
Definition has (k : string) (o : t A) : bool :=
  match get k o with Some _ => true | None => false end.

Definition keys (o : t A) : list string := map fst o.

Fixpoint update (k : string) (v : A) (o : t A) : t A :=
  match o with
  | [] => []
  | (k', v') :: o' =>
      if String.eqb k' k then (k', v) :: o' else (k', v') :: update k v o'
  end.

Fixpoint insert_index (n : N) (k : string) (v : A) (o : t A) : t A :=
  match o with
  | [] => [(k, v)]
  | (k', v') :: o' =>
      match array_index k' with
      | Some m => if (m <? n)%N then (k', v') :: insert_index n k v o'
                  else (k, v) :: o
      | None => (k, v) :: o
      end
  end.

(** [o[k] = v] *)
Definition set (k : string) (v : A) (o : t A) : t A :=
  if has k o then update k v o
  else match array_index k with
       | Some n => insert_index n k v o
       | None => (o ++ [(k, v)])%list
       end.

(** [Object.keys(o).toString()] *)
Definition keys_string (o : t A) : string := Str.join (keys o).

End Ops.

End JsObj.

#[warning="-notation-for-abbreviation"]
Notation jsobj := JsObj.t.

(** ** Document values *)

(** What the shell hands to the script for a BSON value.  A number
    carries a rational (the classifier looks at no more than its kind);
    every object that is none of the four wrappers the script tests for
    is a keyed record of its enumerable fields, in enumeration order.
    No field is named [__proto__]: the engine reads that name as the
    prototype of the object, which this embedding leaves out. *)
#[warning="-register-all"]
Inductive jsval : Type :=
| VUndefined
| VNull
| VBoolean (b : bool)
| VNumber (q : Q)
| VString (s : string)
| VArray (elems : list jsval)
| VObject (fields : list (string * jsval))
| VDate (millis : Z)
| VNumberLong (n : Z)
| VObjectId (hex : string)
| VBinData (subtype : Z) (base64 : string).

(** The [typeof] operator. *)
Definition typeof (thing : jsval) : string :=
  match thing with
  | VUndefined => "undefined"
  | VBoolean _ => "boolean"
  | VNumber _ => "number"
  | VString _ => "string"
  | _ => "object"
  end.

Definition isArray (thing : jsval) : bool :=
  match thing with VArray _ => true | _ => false end.

Definition isNull (thing : jsval) : bool :=
  match thing with VNull => true | _ => false end.

(** [thing instanceof C] for the four constructors the script names. *)
Inductive wrapper : Type := Date | NumberLong | ObjectId | BinData.

Definition instanceof (thing : jsval) (c : wrapper) : bool :=
  match thing, c with
  | VDate _, Date => true
  | VNumberLong _, NumberLong => true
  | VObjectId _, ObjectId => true
  | VBinData _ _, BinData => true
  | _, _ => false
  end.

Definition varietyTypeOf (thing : jsval) : string :=
  if String.eqb (typeof thing) "undefined" then "undefined"
  else if negb (String.eqb (typeof thing) "object") then
    Str.capitalize (typeof thing)
  else if isArray thing then "Array"
  else if isNull thing then "null"
  else if instanceof thing Date then "Date"
  else if instanceof thing NumberLong then "NumberLong"
  else if instanceof thing ObjectId then "ObjectId"
  else if instanceof thing BinData then "BinData"
  else "Object".

(** The induction principle that reaches the elements of arrays and the
    fields of records. *)
Section ValueInd.
Variable P : jsval -> Prop.
Hypothesis Hundef : P VUndefined.
Hypothesis Hnull : P VNull.
Hypothesis Hbool : forall b, P (VBoolean b).
Hypothesis Hnum : forall q, P (VNumber q).
Hypothesis Hstr : forall s, P (VString s).
Hypothesis Harr : forall elems, Forall P elems -> P (VArray elems).
Hypothesis Hobj : forall fields, Forall (fun kv => P (snd kv)) fields -> P (VObject fields).
Hypothesis Hdate : forall z, P (VDate z).
Hypothesis Hlong : forall z, P (VNumberLong z).
Hypothesis Hoid : forall s, P (VObjectId s).
Hypothesis Hbin : forall z s, P (VBinData z s).

Fixpoint jsval_rect' (v : jsval) : P v :=
  match v with
  | VUndefined => Hundef
  | VNull => Hnull
  | VBoolean b => Hbool b
  | VNumber q => Hnum q
  | VString s => Hstr s
  | VArray elems =>
      Harr ((fix go (l : list jsval) : Forall P l :=
               match l with
               | [] => Forall_nil _
               | x :: l' => Forall_cons x (jsval_rect' x) (go l')
               end) elems)
  | VObject fields =>
      Hobj ((fix go (l : list (string * jsval)) : Forall (fun kv => P (snd kv)) l :=
               match l with
               | [] => Forall_nil _
               | kv :: l' => Forall_cons kv (jsval_rect' (snd kv)) (go l')
               end) fields)
  | VDate z => Hdate z
  | VNumberLong z => Hlong z
  | VObjectId s => Hoid s
  | VBinData z s => Hbin z s
  end.
End ValueInd.

(** ** The host

    What the script has from the JavaScript engine of the shell. *)

(** The two errors of the engine that the script can meet. *)
Inductive HostError : Type :=
| TypeError
| SyntaxError.

(** How a call ends: it returns, or it throws an error that nothing in
    the script catches. *)
Inductive outcome (A : Type) : Type :=
| Returns (a : A)
| Throws (e : HostError).

Arguments Returns {A} a.
Arguments Throws {A} e.

Record Host : Type := {
  (** [new RegExp(source, 'g')]: the pattern, or [None] for the
      [SyntaxError] of a source that is no pattern *)
  RegExp : string -> option Str.pattern;
  (** the members every object inherits ([constructor], [toString],
      [hasOwnProperty], ...), which are functions of the engine:
      [inherited name] is [Some text] for such a member, [text] being
      what string concatenation makes of it *)
  inherited : string -> option string
}.

(** [document.hasOwnProperty(key)] calls what [document] has under the
    name [hasOwnProperty].  That is the method every object inherits,
    unless the document has a field of that name: a field holds no
    function, and the call throws a [TypeError]. *)
Definition shadowsHasOwnProperty (document : jsval) : bool :=
  match document with
  | VObject fields => JsObj.has "hasOwnProperty" fields
  | _ => false
  end.

(** ** Configuration *)

(** The named values the caller may have put in the evaluation scope;
    [None] is a name that is not defined there. *)
Record ConfigProvider : Type := {
  given_collection : option string;
  given_query : option jsval;
  given_limit : option Z;
  given_maxDepth : option Z;
  given_sort : option jsval;
  given_outputFormat : option string;
  given_persistResults : option bool;
  given_resultsDatabase : option string;
  given_resultsCollection : option string;
  given_resultsUser : option string;
  given_resultsPass : option string;
  given_logKeysContinuously : option bool;
  given_excludeSubkeys : option (list string);
  given_arrayEscape : option string
}.

Record Config : Type := {
  collection : option string;
  query : jsval;
  limit : Z;
  maxDepth : Z;
  sort : jsval;
  outputFormat : string;
  persistResults : bool;
  resultsDatabase : string;
  resultsCollection : string;
  resultsUser : option string;
  resultsPass : option string;
  logKeysContinuously : bool;
  excludeSubkeys : jsobj bool;
  arrayEscape : string
}.

(** The inner [read]: the caller's value when the name is defined. *)
Definition read {A : Type} (given : option A) (defaultValue : A) : A :=
  match given with Some v => v | None => defaultValue end.

(** The set-like object built from the list of excluded paths:
    [reduce(function (result, item) { result[item+'.'] = true; ... }, {})]. *)
Definition excludeSet (items : list string) : jsobj bool :=
  fold_left (fun result item => JsObj.set (item ++ ".") true result) items [].

(** [count] answers [db[config.collection].find(config.query).count()]
    for the collection and query read so far; [collection] is the
    global of that name, which the script has checked to be defined. *)
Definition readConfig (count : option string -> jsval -> Z) (collection : string)
    (configProvider : ConfigProvider) : Config :=
  let c := read (option_map Some (given_collection configProvider)) None in
  let q := read (given_query configProvider) (VObject []) in
  {| collection := c;
     query := q;
     limit := read (given_limit configProvider) (count c q);
     maxDepth := read (given_maxDepth configProvider) 99;
     sort := read (given_sort configProvider) (VObject [("_id", VNumber (-1 # 1))]);
     outputFormat := read (given_outputFormat configProvider) "ascii";
     persistResults := read (given_persistResults configProvider) true;
     resultsDatabase := read (given_resultsDatabase configProvider) "varietyResults";
     resultsCollection := read (given_resultsCollection configProvider) (collection ++ "Keys");
     resultsUser := read (option_map Some (given_resultsUser configProvider)) None;
     resultsPass := read (option_map Some (given_resultsPass configProvider)) None;
     logKeysContinuously := read (given_logKeysContinuously configProvider) false;
     excludeSubkeys := excludeSet (read (given_excludeSubkeys configProvider) []);
     arrayEscape := read (given_arrayEscape configProvider) "XX" |}.

(** ** The flat pipeline *)

Module Flat.

(** [isHash] of [serializeDoc]: [typeof null] is ['object'] too. *)
Definition isHash (v : jsval) : bool :=
  let isArray := isArray v in
  let isObject := String.eqb (typeof v) "object" in
  let specialObject :=
    instanceof v Date || instanceof v ObjectId || instanceof v BinData
    || instanceof v NumberLong in
  negb specialObject && (isArray || isObject).

Section WithConfig.
Variable host : Host.
Variable config : Config.
(** The [excludeSubkeys] argument of [serializeDoc]. *)
Variable excludeSubkeys : jsobj bool.

(** The sources of the patterns of [serializeDoc] and of
    [analyseDocument]: the escape is spliced in as it is. *)
Definition serializeSource : string :=
  "\." ++ arrayEscape config ++ "\d+" ++ arrayEscape config ++ "\.".

Definition analyseSource : string :=
  "\." ++ arrayEscape config ++ "\d+" ++ arrayEscape config.

(** The key under which an element of an array is recorded. *)
Definition escaped (i : nat) : string :=
  arrayEscape config ++ Str.of_nat i ++ arrayEscape config.

Section WithPattern.
(** The pattern [arrayRegex] of the enclosing function. *)
Variable arrayRegex : Str.pattern.

(** [parentKey.replace(arrayRegex, '.')] *)
Definition normalizeParent (parentKey : string) : string :=
  Str.replace parentKey arrayRegex ".".

(** The inner [serialize], with the [result] it assigns into passed
    along.  The loop over a record takes its fields in enumeration
    order; the loop over an array takes its positions, whose keys are
    wrapped in the escape.  The keys a [for..in] loop gives for a
    document are its own, so the test of [hasOwnProperty] lets every
    turn through, when the call returns. *)
Fixpoint serialize (document : jsval) (parentKey : string) (maxDepth : Z)
    (result : jsobj jsval) {struct document} : outcome (jsobj jsval) :=
  if JsObj.has (normalizeParent parentKey) excludeSubkeys then Returns result
  else
    match document with
    | VObject fields =>
        (fix loop (fs : list (string * jsval)) (result : jsobj jsval)
           : outcome (jsobj jsval) :=
           match fs with
           | [] => Returns result
           | (key, value) :: fs' =>
               if shadowsHasOwnProperty document then Throws TypeError
               else
                 let result := JsObj.set (parentKey ++ key) value result in
                 if isHash value && (1 <? maxDepth) then
                   match serialize value (parentKey ++ key ++ ".") (maxDepth - 1) result with
                   | Returns result => loop fs' result
                   | Throws e => Throws e
                   end
                 else loop fs' result
           end) fields result
    | VArray elems =>
        (fix loop (i : nat) (es : list jsval) (result : jsobj jsval)
           : outcome (jsobj jsval) :=
           match es with
           | [] => Returns result
           | value :: es' =>
               if shadowsHasOwnProperty document then Throws TypeError
               else
                 let key := escaped i in
                 let result := JsObj.set (parentKey ++ key) value result in
                 if isHash value && (1 <? maxDepth) then
                   match serialize value (parentKey ++ key ++ ".") (maxDepth - 1) result with
                   | Returns result => loop (S i) es' result
                   | Throws e => Throws e
                   end
                 else loop (S i) es' result
           end) O elems result
    | _ => Returns result
    end.

(** [key.replace(arrayRegex, '.' + config.arrayEscape)] *)
Definition normalizeKey (key : string) : string :=
  Str.replace key arrayRegex ("." ++ arrayEscape config).

(** One turn of the loop of [analyseDocument].  [typeof result[key]]
    reads a member that [result] inherits as it reads one of its own:
    under the name of an inherited member no object is made, and
    [result[key][type] = true] gives the property to that member, a
    function of the engine, and leaves [result] as it is. *)
Definition analyseKey (result : jsobj (jsobj bool)) (kv : string * jsval)
    : jsobj (jsobj bool) :=
  let value := snd kv in
  let key := normalizeKey (fst kv) in
  let result :=
    match JsObj.get key result with
    | Some _ => result
    | None =>
        match inherited host key with
        | Some _ => result
        | None => JsObj.set key [] result
        end
    end in
  let type := varietyTypeOf value in
  match JsObj.get key result with
  | Some types => JsObj.set key (JsObj.set type true types) result
  | None => result
  end.

End WithPattern.

Definition serializeDoc (doc : jsval) (maxDepth : Z) : outcome (jsobj jsval) :=
  match RegExp host serializeSource with
  | None => Throws SyntaxError
  | Some arrayRegex => serialize arrayRegex doc "" maxDepth []
  end.

(** The set of type names seen at a path in one document. *)
Definition analyseDocument (document : jsobj jsval) : outcome (jsobj (jsobj bool)) :=
  match RegExp host analyseSource with
  | None => Throws SyntaxError
  | Some arrayRegex => Returns (fold_left (analyseKey arrayRegex) document [])
  end.

End WithConfig.

Record Entry : Type := {
  types : jsobj Z;
  totalOccurrences : Z
}.

(** One document's types folded into the entry of a key already seen. *)
Definition bump (docTypes : jsobj bool) (existing : Entry) : Entry :=
  {| types :=
       fold_left
         (fun ts type =>
            match JsObj.get type ts with
            | Some n => JsObj.set type (n + 1) ts
            | None => JsObj.set type 1 ts
            end)
         (JsObj.keys docTypes) (types existing);
     totalOccurrences := totalOccurrences existing + 1 |}.

Definition fresh (docTypes : jsobj bool) : Entry :=
  {| types := fold_left (fun ts newType => JsObj.set newType 1 ts) (JsObj.keys docTypes) [];
     totalOccurrences := 1 |}.

(** [interimResults] is changed in place; here it is returned. *)
Definition mergeDocument (docResult : jsobj (jsobj bool)) (interimResults : jsobj Entry)
    : jsobj Entry :=
  fold_left
    (fun interimResults kv =>
       let key := fst kv in
       match JsObj.get key interimResults with
       | Some existing => JsObj.set key (bump (snd kv) existing) interimResults
       | None => JsObj.set key (fresh (snd kv)) interimResults
       end)
    docResult interimResults.

Definition reduceDocuments (host : Host) (config : Config) (accumulator : jsobj Entry)
    (object : jsval) : outcome (jsobj Entry) :=
  match serializeDoc host config (excludeSubkeys config) object (maxDepth config) with
  | Throws e => Throws e
  | Returns flat =>
      match analyseDocument host config flat with
      | Throws e => Throws e
      | Returns docResult => Returns (mergeDocument docResult accumulator)
      end
  end.

End Flat.

(** ** The shape-preserving pipeline *)

(** What a [for..in] loop over a value visits: the fields of a record,
    the positions of an array, nothing for the other values a document
    holds. *)
Definition forin (v : jsval) : list (string * jsval) :=
  match v with
  | VObject fields => fields
  | VArray elems => combine (map Str.of_nat (seq 0 (List.length elems))) elems
  | _ => []
  end.

Module Terark.

(** [serializeDocterark]: the document's own fields copied into a
    fresh object; [maxDepth] is passed on and not used.  The test of
    [hasOwnProperty] is the one of the flat flattener. *)
Definition serializeDocterark (doc : jsval) (maxDepth : Z) : outcome (jsobj jsval) :=
  (fix loop (fs : list (string * jsval)) (result : jsobj jsval) : outcome (jsobj jsval) :=
     match fs with
     | [] => Returns result
     | (key, value) :: fs' =>
         if shadowsHasOwnProperty doc then Throws TypeError
         else loop fs' (JsObj.set key value result)
     end) (forin doc) [].

(** What is stored under a type name: [true], or the nested tree of an
    [Object]. *)
#[warning="-register-all"]
Inductive shape : Type :=
| STrue
| STree (tree : list (string * list (string * shape))).

(** A tree: field name to type name to shape. *)
Definition tree : Type := jsobj (jsobj shape).

(** The inner [serializeAValue].  [pararesult[key] = {}] places (or
    replaces) the field; the object assigned there and the one put
    under its type name are new and reachable from nowhere else, so
    they are given as values. *)
Fixpoint serializeAValue (value : jsval) (maxDepth : Z) (pararesult : tree)
    {struct value} : tree :=
  match value with
  | VObject fields =>
      (fix loop (fs : list (string * jsval)) (pararesult : tree) : tree :=
         match fs with
         | [] => pararesult
         | (key, tempv) :: fs' =>
             let type := varietyTypeOf tempv in
             loop fs'
               (JsObj.set key
                  [(type,
                    if String.eqb type "Object" && (1 <? maxDepth)
                    then STree (serializeAValue tempv (maxDepth - 1) [])
                    else STrue)]
                  pararesult)
         end) fields pararesult
  | VArray elems =>
      (fix loop (i : nat) (es : list jsval) (pararesult : tree) : tree :=
         match es with
         | [] => pararesult
         | tempv :: es' =>
             let type := varietyTypeOf tempv in
             loop (S i) es'
               (JsObj.set (Str.of_nat i)
                  [(type,
                    if String.eqb type "Object" && (1 <? maxDepth)
                    then STree (serializeAValue tempv (maxDepth - 1) [])
                    else STrue)]
                  pararesult)
         end) O elems pararesult
  | _ => pararesult
  end.

(** What [analyseDocumentterark] stores under a type name of a
    top-level key: [true], or a reference to the one object
    [recurresult] of the call. *)
Inductive slot : Type :=
| Marked
| Shared.

(** The store of one call: [result], and the contents of the object
    [recurresult] that every [Shared] slot refers to. *)
Record Analysis : Type := {
  result : jsobj (jsobj slot);
  recurresult : tree
}.

(** [key.replace(/\.\d+/g, '.XX')] *)
Definition normalizeKey (key : string) : string :=
  Str.replace_ordinals "" "" ".XX" key.

(** [result[key][type] = v]: when [result] has no object of its own
    under [key], [result[key]] is a member it inherits, the property is
    given to that member, and [result] is as it was. *)
Definition assign (key type : string) (v : slot) (result : jsobj (jsobj slot))
    : jsobj (jsobj slot) :=
  match JsObj.get key result with
  | Some types => JsObj.set key (JsObj.set type v types) result
  | None => result
  end.

(** One turn of the loop over the document.  [typeof result[key]]
    reads a member that [result] inherits as it reads one of its own,
    so no object is made under the name of an inherited member. *)
Definition analyseField (host : Host) (maxDepth : Z) (st : Analysis) (kv : string * jsval)
    : Analysis :=
  let value := snd kv in
  let key := normalizeKey (fst kv) in
  let result :=
    match JsObj.get key (result st) with
    | Some _ => result st
    | None =>
        match inherited host key with
        | Some _ => result st
        | None => JsObj.set key [] (result st)
        end
    end in
  let type := varietyTypeOf value in
  if String.eqb type "Object" then
    {| result := assign key type Shared result;
       recurresult := serializeAValue value maxDepth (recurresult st) |}
  else
    {| result := assign key type Marked result;
       recurresult := recurresult st |}.

Definition analyseDocumentterark (host : Host) (document : jsobj jsval) (maxDepth : Z)
    : Analysis :=
  fold_left (analyseField host maxDepth) document {| result := []; recurresult := [] |}.

(** What a reader of the returned object finds behind a slot. *)
Definition deref (a : Analysis) (s : slot) : shape :=
  match s with
  | Marked => STrue
  | Shared => STree (recurresult a)
  end.

(** The returned object as its readers see it. *)
Definition view (a : Analysis) : jsobj (jsobj shape) :=
  map (fun kt => (fst kt, map (fun ts => (fst ts, deref a (snd ts))) (snd kt))) (result a).

Record Entry : Type := {
  types : jsobj Z;
  totalOccurrences : Z;
  value : option (jsobj shape)
}.

Definition bumpTypes (docTypes : list string) (ts : jsobj Z) : jsobj Z :=
  fold_left
    (fun ts type =>
       match JsObj.get type ts with
       | Some n => JsObj.set type (n + 1) ts
       | None => JsObj.set type 1 ts
       end)
    docTypes ts.

Definition newTypes (docTypes : list string) : jsobj Z :=
  fold_left (fun ts newType => JsObj.set newType 1 ts) docTypes [].

(** One turn of the loop of [mergeDocumentterark]. *)
Definition mergeKey (interimResultsstrc : jsobj Entry) (kv : string * jsobj shape)
    : jsobj Entry :=
  let key := fst kv in
  match JsObj.get key interimResultsstrc with
  | Some existing =>
      JsObj.set key
        {| types := bumpTypes (JsObj.keys (snd kv)) (types existing);
           totalOccurrences := totalOccurrences existing + 1;
           value := value existing |}
        interimResultsstrc
  | None =>
      let types := newTypes (JsObj.keys (snd kv)) in
      let value := snd kv in
      let temp := JsObj.keys_string value in
      if String.eqb temp "Object" then
        JsObj.set key {| types := types; totalOccurrences := 1; value := Some value |}
          interimResultsstrc
      else
        JsObj.set key {| types := types; totalOccurrences := 1; value := None |}
          interimResultsstrc
  end.

(** [interimResultsstrc] is changed in place; here it is returned. *)
Definition mergeDocumentterark (docResultstrc : jsobj (jsobj shape))
    (interimResultsstrc : jsobj Entry) : jsobj Entry :=
  fold_left mergeKey docResultstrc interimResultsstrc.

Definition reduceDocumentsterark (host : Host) (config : Config)
    (accumulatorterark : jsobj Entry) (object : jsval) : outcome (jsobj Entry) :=
  match serializeDocterark object (maxDepth config) with
  | Throws e => Throws e
  | Returns flat =>
      let docResultterark := analyseDocumentterark host flat (maxDepth config) in
      Returns (mergeDocumentterark (view docResultterark) accumulatorterark)
  end.

End Terark.

(** ** The schema converter *)

Module Schema.
Import Terark.

(** A column object: the properties a converter can give it. *)
#[warning="-register-all"]
Inductive column : Type :=
  Column {
    col_type : option string;
    col_mongoType : option string;
    col_length : option Z;
    col_nested : option (list (string * column))
  }.

(** An element of the nested schema set: [{'columns': ...}]. *)
Record NestedSchema : Type := { columns : jsobj column }.

(** The two tables; a name they do not hold gives [undefined]. *)
Definition getKeyType (type : string) : option string :=
  JsObj.get type
    [ ("ObjectId", "Fixed"); ("Boolean", "Uint08"); ("Number", "Sint32");
      ("NumberLong", "Sint64"); ("Double", "Float64"); ("Date", "Sint64");
      ("Timestamp", "Sint64"); ("BinData", "CarBin"); ("Array", "CarBin");
      ("Object", "CarBin"); ("Regex", "TwoStrZero"); ("String", "StrZero");
      ("undefined", "Binary"); ("Null", ""); ("DBPointer", "StrZero");
      ("JavaScript", "StrZero"); ("Symbol", "StrZero"); ("JSWithScope", "StrZero");
      ("MinKey", ""); ("MaxKey", "") ].

Definition getMongoType (type : string) : option string :=
  JsObj.get type
    [ ("ObjectId", "oid"); ("Boolean", "bool"); ("Number", "int");
      ("NumberLong", "long"); ("Double", "double"); ("Date", "date");
      ("Timestamp", "timestamp"); ("BinData", "bindata"); ("Array", "array");
      ("Object", "object"); ("Regex", "regex"); ("String", "string");
      ("DBPointer", "string"); ("JavaScript", "string"); ("Symbol", "string");
      ("JSWithScope", "string") ].

(** The terminal column [{"type": "CarBin"}]. *)
Definition carbin : column :=
  {| col_type := Some "CarBin"; col_mongoType := None; col_length := None;
     col_nested := None |}.

(** [serializeCValue(value, pararesult)] assigns a new object to
    [pararesult["nested"]] and fills it; the function here returns
    that object.  A loop over [true] has no turn.  The inner [find]
    is [tempv['Object']] (see [serializeCValue_node]). *)
Fixpoint serializeCValue (value : shape) : jsobj column :=
  match value with
  | STrue => []
  | STree t =>
      (fix loop (es : list (string * list (string * shape))) (nested : jsobj column)
         : jsobj column :=
         match es with
         | [] => nested
         | (key, tempv) :: es' =>
             let type := JsObj.keys_string tempv in
             loop es'
               (JsObj.set key
                  {| col_type := getKeyType type;
                     col_mongoType := getMongoType type;
                     col_length := None;
                     col_nested :=
                       if String.eqb type "Object" then
                         Some ((fix find (tm : list (string * shape)) : jsobj column :=
                                  match tm with
                                  | [] => []
                                  | (k, s) :: tm' =>
                                      if String.eqb k "Object" then serializeCValue s
                                      else find tm'
                                  end) tempv)
                       else None |}
                  nested)
         end) t []
  end.

(** [serializeCValue] called on a value that may be [undefined]: the
    loop over [undefined] has no turn either. *)
Definition nestedOf (value : option shape) : jsobj column :=
  match value with
  | Some s => serializeCValue s
  | None => []
  end.

Record State : Type := {
  st_columns : jsobj column;
  st_nestedschemaset : jsobj NestedSchema;
  st_nestedindex : Z
}.

(** One turn of the loop over the aggregate.  [None] is the
    [TypeError] of [entry["value"]['Object']] on an entry that has no
    [value].  After [serializeCValue] on a new object its only key is
    ["nested"], which is what [nested[k.toString()]] reads. *)
Definition convertEntry (documentsCount : Z) (st : State) (kv : string * Entry)
    : option State :=
  let key := fst kv in
  let entry := snd kv in
  let typeKeys := JsObj.keys_string (types entry) in
  if totalOccurrences entry =? documentsCount then
    if String.eqb typeKeys "ObjectId" then
      Some {| st_columns :=
                JsObj.set key
                  {| col_type := getKeyType typeKeys; col_mongoType := getMongoType typeKeys;
                     col_length := Some 12; col_nested := None |}
                  (st_columns st);
              st_nestedschemaset := st_nestedschemaset st;
              st_nestedindex := st_nestedindex st |}
    else if String.eqb typeKeys "Object" then
      match value entry with
      | None => None
      | Some v =>
          let nested := nestedOf (JsObj.get "Object" v) in
          Some {| st_columns :=
                    JsObj.set key
                      {| col_type := getKeyType typeKeys;
                         col_mongoType := getMongoType typeKeys;
                         col_length := None; col_nested := Some nested |}
                      (st_columns st);
                  st_nestedschemaset := st_nestedschemaset st;
                  st_nestedindex := st_nestedindex st |}
      end
    else
      Some {| st_columns :=
                JsObj.set key
                  {| col_type := getKeyType typeKeys; col_mongoType := getMongoType typeKeys;
                     col_length := None; col_nested := None |}
                  (st_columns st);
              st_nestedschemaset := st_nestedschemaset st;
              st_nestedindex := st_nestedindex st |}
  else
    if String.eqb typeKeys "Object" then
      match value entry with
      | None => None
      | Some v =>
          let tempnestedschemaset :=
            JsObj.set "$$" carbin (nestedOf (JsObj.get "Object" v)) in
          Some {| st_columns := st_columns st;
                  st_nestedschemaset :=
                    JsObj.set (Str.of_Z (st_nestedindex st))
                      {| columns := tempnestedschemaset |} (st_nestedschemaset st);
                  st_nestedindex := st_nestedindex st + 1 |}
      end
    else Some st.

Fixpoint convertEntries (documentsCount : Z) (entries : list (string * Entry)) (st : State)
    : option State :=
  match entries with
  | [] => Some st
  | kv :: rest =>
      match convertEntry documentsCount st kv with
      | Some st' => convertEntries documentsCount rest st'
      | None => None
      end
  end.

(** [convertSchema] returns [columns] and changes the object
    [nestedschemaset] it was given; here both come back.  The fourth
    argument is the aggregate of the flat pipeline. *)
Definition convertSchema (interimResultsstrc : jsobj Entry) (documentsCount : Z)
    (nestedschemaset : jsobj NestedSchema) (interimResults : jsobj Flat.Entry)
    : option (jsobj column * jsobj NestedSchema) :=
  match convertEntries documentsCount interimResultsstrc
          {| st_columns := []; st_nestedschemaset := nestedschemaset;
             st_nestedindex := 1 |} with
  | Some st => Some (JsObj.set "$$" carbin (st_columns st), st_nestedschemaset st)
  | None => None
  end.

End Schema.

(** ** The index translator *)

Module Index.

(** The value a key pattern gives a field: a number, or a string such
    as ["hashed"]. *)
Inductive direction : Type :=
| DirNumber (n : Z)
| DirString (s : string).

(** An element of [getIndexes()]. *)
Record IndexSpec : Type := {
  name : string;
  key : list (string * direction);
  unique : jsval
}.

Record Descriptor : Type := {
  fields : string;
  ordered : bool;
  uniq : bool
}.

(** [choice[upordown]]: the property named by the value's string, one
    of the two of the table or, failing that, a member the table
    inherits; what is returned is what [+] makes of it. *)
Definition choice (host : Host) (upordown : direction) : option string :=
  let name := match upordown with DirNumber n => Str.of_Z n | DirString s => s end in
  match JsObj.get name [ ("1", ""); ("-1", "-") ] with
  | Some prefix => Some prefix
  | None => inherited host name
  end.

(** [x + field] where [x] may be [undefined]. *)
Definition concatChoice (c : option string) (field : string) : string :=
  match c with
  | Some p => p ++ field
  | None => "undefined" ++ field
  end.

Definition isHashed (upordown : direction) : bool :=
  match upordown with
  | DirString s => String.eqb s "hashed"
  | DirNumber _ => false
  end.

(** [unique !== true] *)
Definition isTrue (v : jsval) : bool :=
  match v with VBoolean true => true | _ => false end.

(** The loop over the fields of one key pattern: [part] and [ordered]. *)
Definition fieldStep (host : Host) (st : list string * bool) (fd : string * direction)
    : list string * bool :=
  let upordown := snd fd in
  if isHashed upordown then ((fst st ++ [fst fd])%list, false)
  else ((fst st ++ [concatChoice (choice host upordown) (fst fd)])%list, snd st).

Definition translate (host : Host) (ix : IndexSpec) : Descriptor :=
  if negb (String.eqb "_id_" (name ix)) then
    let part_ordered := fold_left (fieldStep host) (key ix) ([], true) in
    {| fields := Str.join (fst part_ordered);
       ordered := snd part_ordered;
       uniq := if negb (isTrue (unique ix)) then false else true |}
  else {| fields := "_id"; ordered := true; uniq := true |}.

Definition generateIndex (host : Host) (originalindex : list IndexSpec) : list Descriptor :=
  fold_left (fun results ix => (results ++ [translate host ix])%list) originalindex [].

End Index.

(** ** The script *)

Module Script.

(** The output document; an absent member is [None]. *)
Record Results : Type := {
  CheckMongoType : bool;
  RowSchema : jsobj Schema.column;
  TableIndex : option (list Index.Descriptor);
  NestedSchemaSet : option (jsobj Schema.NestedSchema)
}.

(** How the run ends: by reaching the end, by a [throw] of the script
    with its message, or by an error of the host that nothing catches. *)
Inductive Exit : Type :=
| Finished
| Thrown (message : string)
| Uncaught (e : HostError).

(** What the shell and the server answer.  [this] and the global
    scope are one object, so the global [collection] is the
    [given_collection] of [context]. *)
Record Env : Type := {
  slaveOk : option bool;
  (** the names in [db.adminCommand('listDatabases').databases], when
      the reply has that key *)
  knownDatabases : option (list string);
  (** [db.getSisterDB(name).getCollectionNames()] *)
  collectionNames : string -> list string;
  (** [db.getName()], which is also how [db] prints *)
  dbName : string;
  context : ConfigProvider;
  (** [db[c].find(q).count()]; [db[c].count()] is the count of the
      empty query *)
  count : option string -> jsval -> Z;
  (** the documents a cursor [find(query).sort(sort).limit(limit)]
      yields, for each of the two cursors, and [cursorterark.size()] *)
  cursor : Config -> list jsval;
  cursorterark : Config -> list jsval;
  cursorterarkSize : Config -> Z;
  (** [db[config.collection].getIndexes()] *)
  indexes : Config -> list Index.IndexSpec;
  (** the JavaScript engine of the shell *)
  shell : Host;
  (** [context.plugins], the descriptors of the plug-ins, when that
      name is defined *)
  plugins : option string;
  (** what [new PluginsClass(this)] and [execute('onConfig', config)]
      do for these descriptors (lines 105 to 119, and 135): they load
      files from outside the script and call their [init] and
      [onConfig], which gets [config] itself.  [inl] is [config] as
      the plug-ins leave it, [inr] how they end the run. *)
  loadPlugins : string -> Config -> Config + Exit
}.

(** What the run does that can be seen from outside. *)
Inductive Event : Type :=
| SetSlaveOk
| Scan (documents : list jsval)
| ScanTerark (documents : list jsval)
| Print (results : Results).

Definition nl : string := String (ascii_of_nat 10) EmptyString.
Definition dquote : string := String (ascii_of_nat 34) EmptyString.

Definition joinNames (names : list string) : string := String.concat ", " names.

Definition hasCollections (env : Env) (d : string) : bool :=
  negb (Nat.eqb (List.length (collectionNames env d)) 0).

(** [dbs] and [emptyDbs] after the loop over the known databases. *)
Definition dbs (env : Env) (known : list string) : list string :=
  filter (hasCollections env) known.

Definition emptyDbs (env : Env) (known : list string) : list string :=
  filter (fun d => negb (hasCollections env d)) known.

Definition indexOfFound (x : string) (l : list string) : bool :=
  existsb (String.eqb x) l.

(** The checks on the database; [Some] is the message thrown. *)
Definition checkDatabase (env : Env) : option string :=
  match knownDatabases env with
  | None => None
  | Some known =>
      if indexOfFound (dbName env) (emptyDbs env known) then
        Some ("The database specified (" ++ dbName env ++ ") is empty." ++ nl
              ++ "Possible database options are: " ++ joinNames (dbs env known) ++ ".")
      else if negb (indexOfFound (dbName env) (dbs env known)) then
        Some ("The database specified (" ++ dbName env ++ ") does not exist." ++ nl
              ++ "Possible database options are: " ++ joinNames (dbs env known) ++ ".")
      else None
  end.

Definition collNames (env : Env) : string :=
  joinNames (collectionNames env (dbName env)).

(** The checks on the collection; [inl] is the message thrown, [inr]
    the name of the collection. *)
Definition checkCollection (env : Env) : string + string :=
  match given_collection (context env) with
  | None =>
      inl ("You have to supply a 'collection' variable, à la --eval 'var collection = "
           ++ dquote ++ "animals" ++ dquote ++ "'." ++ nl
           ++ "Possible collection options for database specified: " ++ collNames env
           ++ "." ++ nl
           ++ "Please see https://github.com/variety/variety for details.")
  | Some collection =>
      if count env (Some collection) (VObject []) =? 0 then
        inl ("The collection specified (" ++ collection
             ++ ") in the database specified (" ++ dbName env
             ++ ") does not exist or is empty." ++ nl
             ++ "Possible collection options for database specified: " ++ collNames env
             ++ ".")
      else inr collection
  end.

(** [$plugins.execute('onConfig', config)] after [new PluginsClass(this)]:
    without descriptors there is no plug-in, and [config] stays as it
    was read. *)
Definition onConfig (env : Env) (config : Config) : Config + Exit :=
  match plugins env with
  | None => inl config
  | Some descriptors => loadPlugins env descriptors config
  end.

(** The source of the pattern of [filter]. *)
Definition filterSource (config : Config) : string :=
  "\." ++ arrayEscape config ++ "$".

(** [cursor.reduce(callback, initialValue)]: [forEach] ends with the
    first call that throws. *)
Fixpoint reduce {A : Type} (documents : list jsval) (callback : A -> jsval -> outcome A)
    (initialValue : A) : outcome A :=
  match documents with
  | [] => Returns initialValue
  | obj :: rest =>
      match callback initialValue obj with
      | Returns result => reduce rest callback result
      | Throws e => Throws e
      end
  end.

(** The script from the call of [convertSchema] to its end (lines 527
    to 593), given the two aggregates: what it does, and how it ends. *)
Definition report (env : Env) (config : Config) (interimResults : jsobj Flat.Entry)
    (interimResultsterark : jsobj Terark.Entry) : list Event * Exit :=
  match Schema.convertSchema interimResultsterark (cursorterarkSize env config)
          [] interimResults with
  | None => ([], Uncaught TypeError)
  | Some (columns, nestedschemaset) =>
      let tableindex := Index.generateIndex (shell env) (indexes env config) in
      let Results :=
        {| CheckMongoType := true;
           RowSchema := columns;
           TableIndex :=
             if negb (Nat.eqb (List.length tableindex) 0)
             then Some tableindex else None;
           NestedSchemaSet :=
             if negb (Nat.eqb (List.length (JsObj.keys nestedschemaset)) 0)
             then Some nestedschemaset else None |} in
      ([Print Results], Finished)
  end.

(** The script from its first statement to its last: the trace of
    what it did and how it ended. *)
Definition run (env : Env) : list Event * Exit :=
  let slave :=
    match slaveOk env with
    | Some true => [SetSlaveOk]
    | _ => []
    end in
  match checkDatabase env with
  | Some message => (slave, Thrown message)
  | None =>
      match checkCollection env with
      | inl message => (slave, Thrown message)
      | inr collection =>
          match onConfig env (readConfig (count env) collection (context env)) with
          | inr exit => (slave, exit)
          | inl config =>
              match RegExp (shell env) (filterSource config) with
              | None => (slave, Uncaught SyntaxError)
              | Some arrayRegex =>
                  let scan := Scan (cursor env config) in
                  let scanterark := ScanTerark (cursorterark env config) in
                  match reduce (cursor env config)
                          (Flat.reduceDocuments (shell env) config) [] with
                  | Throws e => ((slave ++ [scan])%list, Uncaught e)
                  | Returns interimResults =>
                      match reduce (cursorterark env config)
                              (Terark.reduceDocumentsterark (shell env) config) [] with
                      | Throws e => ((slave ++ [scan; scanterark])%list, Uncaught e)
                      | Returns interimResultsterark =>
                          ((slave ++ [scan; scanterark]
                              ++ fst (report env config interimResults interimResultsterark))%list,
                           snd (report env config interimResults interimResultsterark))
                      end
                  end
              end
          end
      end
  end.

End Script.

(** * The words of the description

    Definitions that follow the description of the program rather than
    its text, for the statements that compare the two. *)

(** The names the classifier can give. *)
Definition typeTags : list string :=
  [ "undefined"; "Boolean"; "Number"; "String"; "Array"; "null"; "Date";
    "NumberLong"; "ObjectId"; "BinData"; "Object" ].


Module IndexWords.
Import Index.

(** The three kinds of field the description of the translator names. *)
Inductive kind : Type := Ascending | Descending | Hashed.

Definition pattern (k : kind) : direction :=
  match k with
  | Ascending => DirNumber 1
  | Descending => DirNumber (-1)
  | Hashed => DirString "hashed"
  end.

(** The token the description gives a field: bare when ascending or
    hashed, with a minus sign when descending. *)
Definition token (fk : string * kind) : string :=
  match snd fk with
  | Ascending => fst fk
  | Descending => "-" ++ fst fk
  | Hashed => fst fk
  end.

Definition hashed (fk : string * kind) : bool :=
  match snd fk with Hashed => true | _ => false end.

Definition keyPattern (fks : list (string * kind)) : list (string * direction) :=
  map (fun fk => (fst fk, pattern (snd fk))) fks.

End IndexWords.

Module HostWords.

(** The host reads the escape of [config] literally in the pattern of
    the flattener: the escape has no character of the pattern syntax,
    and the pattern is what its source says letter by letter, the
    literal text around one run of decimal digits. *)
Definition literal (host : Host) (config : Config) : Prop :=
  Str.syntax_free (arrayEscape config) = true
  /\ RegExp host (Flat.serializeSource config)
     = Some (Str.replace_ordinals (arrayEscape config) (arrayEscape config ++ ".")).

(** The same for the pattern of the analyser. *)
Definition literal_analysis (host : Host) (config : Config) : Prop :=
  Str.syntax_free (arrayEscape config) = true
  /\ RegExp host (Flat.analyseSource config)
     = Some (Str.replace_ordinals (arrayEscape config) (arrayEscape config)).

(** A host for the escape [E]: it compiles the three sources the script
    makes with [E] to what they literally say (no other source is
    asked of it), and every object inherits from it the members of the
    object prototype of ECMAScript 5. *)
Definition shellFor (E : string) : Host :=
  {| RegExp := fun source =>
       if String.eqb source ("\." ++ E ++ "\d+" ++ E ++ "\.")
       then Some (Str.replace_ordinals E (E ++ "."))
       else if String.eqb source ("\." ++ E ++ "\d+" ++ E)
       then Some (Str.replace_ordinals E E)
       else if String.eqb source ("\." ++ E ++ "$")
       then Some (Str.replace_suffix ("." ++ E))
       else None;
     inherited := fun name =>
       if existsb (String.eqb name)
            [ "constructor"; "toString"; "toLocaleString"; "valueOf"; "hasOwnProperty";
              "isPrototypeOf"; "propertyIsEnumerable" ]
       then Some ("function " ++ name ++ "() { [native code] }")
       else None |}.

(** The host for the default escape. *)
Definition shell : Host := shellFor "XX".

End HostWords.

Module ScriptWords.
Import Script.

(** The documents the run printed. *)
Definition printed (trace : list Event) : list Results :=
  flat_map (fun e => match e with Print r => [r] | _ => [] end) trace.

(** The scans the run made. *)
Definition scans (trace : list Event) : nat :=
  List.length (filter (fun e => match e with Scan _ | ScanTerark _ => true | _ => false end)
                 trace).

(** The environment with other answers on the flat pipeline's cursor. *)
Definition withCursor (env : Env) (c : Config -> list jsval) : Env :=
  {| slaveOk := slaveOk env;
     knownDatabases := knownDatabases env;
     collectionNames := collectionNames env;
     dbName := dbName env;
     context := context env;
     count := count env;
     cursor := c;
     cursorterark := cursorterark env;
     cursorterarkSize := cursorterarkSize env;
     indexes := indexes env;
     shell := shell env;
     plugins := plugins env;
     loadPlugins := loadPlugins env |}.

(** A server with one database [test] holding a collection [animals]
    of the given documents, asked with the given names in scope and
    without plug-ins. *)
Definition sampleEnv (given : ConfigProvider) (documents : list jsval) : Env :=
  {| slaveOk := None;
     knownDatabases := Some ["admin"; "test"];
     collectionNames := fun d => if String.eqb d "test" then ["animals"; "plants"]
                                 else if String.eqb d "admin" then ["system.users"] else [];
     dbName := "test";
     context := given;
     count := fun c _ => match c with
                         | Some "animals" => Z.of_nat (List.length documents)
                         | _ => 0
                         end;
     cursor := fun _ => documents;
     cursorterark := fun _ => documents;
     cursorterarkSize := fun _ => Z.of_nat (List.length documents);
     indexes := fun _ => [];
     shell := HostWords.shell;
     plugins := None;
     loadPlugins := fun _ config => inl config |}.

Definition nothingGiven : ConfigProvider :=
  {| given_collection := None; given_query := None; given_limit := None;
     given_maxDepth := None; given_sort := None; given_outputFormat := None;
     given_persistResults := None; given_resultsDatabase := None;
     given_resultsCollection := None; given_resultsUser := None;
     given_resultsPass := None; given_logKeysContinuously := None;
     given_excludeSubkeys := None; given_arrayEscape := None |}.

Definition givenCollection (c : string) : ConfigProvider :=
  {| given_collection := Some c; given_query := None; given_limit := None;
     given_maxDepth := None; given_sort := None; given_outputFormat := None;
     given_persistResults := None; given_resultsDatabase := None;
     given_resultsCollection := None; given_resultsUser := None;
     given_resultsPass := None; given_logKeysContinuously := None;
     given_excludeSubkeys := None; given_arrayEscape := None |}.

End ScriptWords.

(** ** Sample documents *)

Module Samples.

(** The configuration of a run that names only its collection. *)
Definition config : Config :=
  readConfig (fun _ _ => 2) "animals" (ScriptWords.givenCollection "animals").

(** [{a: {x: 1}}] and [{a: {y: "s"}}] *)
Definition docAx : jsval := VObject [("a", VObject [("x", VNumber 1)])].
Definition docAy : jsval := VObject [("a", VObject [("y", VString "s")])].

(** [{a: {x: 1}, b: {y: "s"}}] *)
Definition docAB : jsval :=
  VObject [("a", VObject [("x", VNumber 1)]); ("b", VObject [("y", VString "s")])].

(** [{a: {b: 1}}] and [{a: {b: {c: 1}}}] *)
Definition docAb : jsval := VObject [("a", VObject [("b", VNumber 1)])].
Definition docAbc : jsval :=
  VObject [("a", VObject [("b", VObject [("c", VNumber 1)])])].

(** [{n: 1, a: {p: {q: 1}}}] and [{n: 2}] *)
Definition docDeep : jsval :=
  VObject [("n", VNumber 1); ("a", VObject [("p", VObject [("q", VNumber 1)])])].
Definition docN : jsval := VObject [("n", VNumber 2)].

(** [{hasOwnProperty: 1, a: {b: 2}}] *)
Definition docShadow : jsval :=
  VObject [("hasOwnProperty", VNumber 1); ("a", VObject [("b", VNumber 2)])].

(** The two entries of the aggregate of the scan of [docDeep] then
    [docN]: [n] seen twice as a number, [a] seen once as an object. *)
Definition entryN : Terark.Entry :=
  {| Terark.types := [("Number", 2)]; Terark.totalOccurrences := 2; Terark.value := None |}.

Definition entryA : Terark.Entry :=
  {| Terark.types := [("Object", 1)];
     Terark.totalOccurrences := 1;
     Terark.value :=
       Some [("Object",
              Terark.STree
                [("p", [("Object", Terark.STree [("q", [("Number", Terark.STrue)])])])])] |}.

(** An entry seen once as a string. *)
Definition entryS : Terark.Entry :=
  {| Terark.types := [("String", 1)]; Terark.totalOccurrences := 1; Terark.value := None |}.

(** The shape-preserving aggregate of a scan. *)
Definition aggregate (documents : list jsval) : outcome (jsobj Terark.Entry) :=
  Script.reduce documents (Terark.reduceDocumentsterark HostWords.shell config) [].

(** What the analyser returns for a document, as its readers see it. *)
Definition analysed (doc : jsval) : outcome (jsobj (jsobj Terark.shape)) :=
  match Terark.serializeDocterark doc (maxDepth config) with
  | Throws e => Throws e
  | Returns flat =>
      Returns (Terark.view (Terark.analyseDocumentterark HostWords.shell flat (maxDepth config)))
  end.

(** What it returns for the three documents [docN], [docAx], [docAy]. *)
Definition seenN : jsobj (jsobj Terark.shape) := [("n", [("Number", Terark.STrue)])].
Definition seenAx : jsobj (jsobj Terark.shape) :=
  [("a", [("Object", Terark.STree [("x", [("Number", Terark.STrue)])])])].
Definition seenAy : jsobj (jsobj Terark.shape) :=
  [("a", [("Object", Terark.STree [("y", [("String", Terark.STrue)])])])].

End Samples.

Module MergeWords.
Import Terark.

(** The snapshot a new entry is given for a path whose types in the
    document are [tm]. *)
Definition snapshot (tm : jsobj shape) : option (jsobj shape) :=
  if String.eqb (JsObj.keys_string tm) "Object" then Some tm else None.

End MergeWords.

Module SchemaWords.
Import Terark Schema.

(** An entry seen in fewer documents than were counted whose type set
    is the single name [Object]. *)
Definition sparseObject (documentsCount : Z) (kv : string * Entry) : bool :=
  negb (totalOccurrences (snd kv) =? documentsCount)
  && String.eqb (JsObj.keys_string (types (snd kv))) "Object".

(** How many such entries a stretch of the aggregate holds. *)
Definition sparseObjects (documentsCount : Z) (entries : list (string * Entry)) : nat :=
  List.length (filter (sparseObject documentsCount) entries).

(** The column tree registered for such an entry. *)
Definition registered (v : jsobj shape) : NestedSchema :=
  {| columns := JsObj.set "$$" carbin (nestedOf (JsObj.get "Object" v)) |}.


(** [s] has a comma. *)
Fixpoint has_comma (s : string) : bool :=
  match s with
  | EmptyString => false
  | String c s' => Ascii.eqb c ","%char || has_comma s'
  end.

(** An aggregate on which the converter meets no entry without the
    snapshot it reads: an entry that has no snapshot has a type other
    than [Object]. *)
Definition snapshots_present (agg : jsobj Entry) : bool :=
  forallb
    (fun kv =>
       match value (snd kv) with
       | Some _ => true
       | None => existsb (fun t => negb (String.eqb t "Object")) (JsObj.keys (types (snd kv)))
       end)
    agg.


End SchemaWords.

Module ScanWords.
Import Terark.

(** A type map as the analyser leaves it: some type, no name twice. *)
Definition typed {A : Type} (tm : jsobj A) : Prop :=
  tm <> [] /\ NoDup (JsObj.keys tm).

(** An entry without a snapshot has a type other than [Object]. *)
Definition covered (e : Entry) : Prop :=
  value e = None -> exists t, In t (JsObj.keys (types e)) /\ t <> "Object".

End ScanWords.

(** ** The flatteners when no call throws

    The loops of the two flatteners without the call of
    [hasOwnProperty]: what they return, when they return. *)

Module Quiet.
Import Flat.

Section WithConfig.
Variable config : Config.
Variable excludeSubkeys : jsobj bool.
Variable arrayRegex : Str.pattern.

Fixpoint serialize (document : jsval) (parentKey : string) (maxDepth : Z)
    (result : jsobj jsval) {struct document} : jsobj jsval :=
  if JsObj.has (normalizeParent arrayRegex parentKey) excludeSubkeys then result
  else
    match document with
    | VObject fields =>
        (fix loop (fs : list (string * jsval)) (result : jsobj jsval) : jsobj jsval :=
           match fs with
           | [] => result
           | (key, value) :: fs' =>
               let result := JsObj.set (parentKey ++ key) value result in
               loop fs'
                 (if isHash value && (1 <? maxDepth)
                  then serialize value (parentKey ++ key ++ ".") (maxDepth - 1) result
                  else result)
           end) fields result
    | VArray elems =>
        (fix loop (i : nat) (es : list jsval) (result : jsobj jsval) : jsobj jsval :=
           match es with
           | [] => result
           | value :: es' =>
               let key := escaped config i in
               let result := JsObj.set (parentKey ++ key) value result in
               loop (S i) es'
                 (if isHash value && (1 <? maxDepth)
                  then serialize value (parentKey ++ key ++ ".") (maxDepth - 1) result
                  else result)
           end) O elems result
    | _ => result
    end.

End WithConfig.

Definition serializeDocterark (doc : jsval) : jsobj jsval :=
  fold_left (fun result kv => JsObj.set (fst kv) (snd kv) result) (forin doc) [].

End Quiet.

Module FlatWords.
Import Flat.

Section WithConfig.
Variable config : Config.
Variable excludeSubkeys : jsobj bool.
Variable arrayRegex : Str.pattern.

(** The keys and values one call of [serialize] takes in turn: the
    fields of a record, the positions of an array under their escaped
    keys. *)
Definition entries (document : jsval) : list (string * jsval) :=
  match document with
  | VObject fields => fields
  | VArray elems => combine (map (escaped config) (seq 0 (List.length elems))) elems
  | _ => []
  end.

(** One turn of the loop of [serialize] over [document]. *)
Definition turn (document : jsval) (parentKey : string) (maxDepth : Z)
    (result : jsobj jsval) (kv : string * jsval) : outcome (jsobj jsval) :=
  if shadowsHasOwnProperty document then Throws TypeError
  else
    let result := JsObj.set (parentKey ++ fst kv) (snd kv) result in
    if isHash (snd kv) && (1 <? maxDepth)
    then serialize config excludeSubkeys arrayRegex (snd kv) (parentKey ++ fst kv ++ ".")
           (maxDepth - 1) result
    else Returns result.

(** The same turn when no call throws. *)
Definition visit (parentKey : string) (maxDepth : Z) (result : jsobj jsval)
    (kv : string * jsval) : jsobj jsval :=
  let result := JsObj.set (parentKey ++ fst kv) (snd kv) result in
  if isHash (snd kv) && (1 <? maxDepth)
  then Quiet.serialize config excludeSubkeys arrayRegex (snd kv) (parentKey ++ fst kv ++ ".")
         (maxDepth - 1) result
  else result.

(** The value at the end of a path of keys. *)
Fixpoint descend (path : list string) (document : jsval) : option jsval :=
  match path with
  | [] => Some document
  | seg :: rest =>
      match JsObj.get seg (entries document) with
      | Some child => descend rest child
      | None => None
      end
  end.

(** The checks [serialize] makes on the way to the end of a path of
    keys, from the node whose accumulated path is [parentKey]: that
    node, and each one entered below it, is not excluded. *)
Fixpoint reachable (parentKey : string) (path : list string) : bool :=
  match path with
  | [] => true
  | seg :: rest =>
      negb (JsObj.has (normalizeParent arrayRegex parentKey) excludeSubkeys)
      && reachable (parentKey ++ seg ++ ".") rest
  end.

(** No accumulated path above a key of [result] is excluded. *)
Definition guarded (result : jsobj jsval) : Prop :=
  forall q rest,
    JsObj.has (q ++ rest) result = true -> Str.ends_with_dot q = true ->
    JsObj.has (normalizeParent arrayRegex q) excludeSubkeys = false.

End WithConfig.

(** The monadic fold of a loop that a turn can end. *)
Fixpoint turns {A B : Type} (f : A -> B -> outcome A) (l : list B) (a : A) : outcome A :=
  match l with
  | [] => Returns a
  | b :: l' =>
      match f a b with
      | Returns a' => turns f l' a'
      | Throws e => Throws e
      end
  end.

(** No field name, at any depth, has a ['.'] (the assumption the script
    states above [serializeDoc]). *)
Fixpoint keys_dotfree (document : jsval) : bool :=
  match document with
  | VObject fields =>
      (fix all (fs : list (string * jsval)) : bool :=
         match fs with
         | [] => true
         | (key, child) :: fs' => Str.dotfree key && keys_dotfree child && all fs'
         end) fields
  | VArray elems =>
      (fix all (es : list jsval) : bool :=
         match es with
         | [] => true
         | child :: es' => keys_dotfree child && all es'
         end) elems
  | _ => true
  end.

(** No record, at any depth, has a field named [hasOwnProperty]. *)
Fixpoint callable (document : jsval) : bool :=
  match document with
  | VObject fields =>
      negb (JsObj.has "hasOwnProperty" fields)
      && (fix all (fs : list (string * jsval)) : bool :=
            match fs with
            | [] => true
            | (_, child) :: fs' => callable child && all fs'
            end) fields
  | VArray elems =>
      (fix all (es : list jsval) : bool :=
         match es with
         | [] => true
         | child :: es' => callable child && all es'
         end) elems
  | _ => true
  end.

(** [s] has no decimal digit. *)
Fixpoint digitfree (s : string) : bool :=
  match s with
  | EmptyString => true
  | String c s' => negb (Str.is_digit c) && digitfree s'
  end.

Fixpoint distinct (l : list string) : bool :=
  match l with
  | [] => true
  | x :: l' => negb (existsb (String.eqb x) l') && distinct l'
  end.

(** No record, at any depth, has two fields of one name. *)
Fixpoint keys_unique (document : jsval) : bool :=
  match document with
  | VObject fields =>
      distinct (map fst fields)
      && (fix all (fs : list (string * jsval)) : bool :=
            match fs with
            | [] => true
            | (_, child) :: fs' => keys_unique child && all fs'
            end) fields
  | VArray elems =>
      (fix all (es : list jsval) : bool :=
         match es with
         | [] => true
         | child :: es' => keys_unique child && all es'
         end) elems
  | _ => true
  end.

(** *** Paths as lists of keys *)

(** The decimal digits at the head of [s], and what follows them. *)
Fixpoint span_digits (s : string) : string * string :=
  match s with
  | EmptyString => (EmptyString, EmptyString)
  | String c s' =>
      if Str.is_digit c
      then (String c (fst (span_digits s')), snd (span_digits s'))
      else (EmptyString, s)
  end.

(** [seg] is the key of an array element: the escape [E], one decimal
    digit or more, the escape. *)
Definition ordinal (E seg : string) : bool :=
  match Str.strip_prefix E seg with
  | Some s1 =>
      negb (String.eqb (fst (span_digits s1)) "") && String.eqb (snd (span_digits s1)) E
  | None => false
  end.

(** A path with its array-index segments normalised away. *)
Definition normalised (E : string) (segs : list string) : list string :=
  filter (fun seg => negb (ordinal E seg)) segs.

(** The accumulated path of the node at the end of a path of keys:
    each key followed by a dot. *)
Fixpoint accumulated (segs : list string) : string :=
  match segs with
  | [] => EmptyString
  | seg :: rest => seg ++ "." ++ accumulated rest
  end.

Fixpoint no_adjacent_ordinals (E : string) (segs : list string) : bool :=
  match segs with
  | [] => true
  | a :: rest =>
      match rest with
      | b :: _ => negb (ordinal E a && ordinal E b)
      | [] => true
      end
      && no_adjacent_ordinals E rest
  end.

(** A path of keys as a document whose arrays hold no arrays gives
    them: no key has a dot, the first key is no array index, and no
    array index follows another. *)
Definition regular (E : string) (segs : list string) : bool :=
  forallb Str.dotfree segs
  && match segs with
     | seg :: _ => negb (ordinal E seg)
     | [] => true
     end
  && no_adjacent_ordinals E segs.

(** No excluded path cuts off the end of [path]: nothing is excluded,
    or the path is regular and no path above its end, normalised, is
    an excluded one. *)
Definition unpruned (E : string) (items path : list string) : Prop :=
  items = []
  \/ (regular E path = true
      /\ forall p q, path = (p ++ q)%list -> p <> [] -> q <> [] ->
                     ~ In (String.concat "." (normalised E p)) items).

End FlatWords.

Module AnalyseWords.
Import Terark.

(** Every slot under the name [Object] is the reference to
    [recurresult]; every other slot is [true]. *)
Definition slots_ok (tm : jsobj slot) : Prop :=
  forall t s, In (t, s) tm -> s = if String.eqb t "Object" then Shared else Marked.

Definition result_ok (r : jsobj (jsobj slot)) : Prop :=
  forall k tm, In (k, tm) r -> slots_ok tm.

End AnalyseWords.

(** * The plugin descriptors

    The two string helpers of [PluginsClass], which read a descriptor
    before its file is loaded. *)

Module Plugins.

(** [val.slice(-3)]: the last three characters, or all of a shorter
    string. *)
Definition slice3 (val : string) : string :=
  String.substring (String.length val - 3) 3 val.

Definition parsePath (val : string) : string :=
  if negb (String.eqb (slice3 val) ".js") then val ++ ".js" else val.

(** [s.split(sep)] for a separator of one character: never empty. *)
Fixpoint split (sep : ascii) (s : string) : list string :=
  match s with
  | EmptyString => [EmptyString]
  | String c s' =>
      if Ascii.eqb c sep then EmptyString :: split sep s'
      else match split sep s' with
           | x :: xs => String c x :: xs
           | [] => [String c EmptyString]
           end
  end.


End Plugins.

(** * Further vocabulary

    Definitions for the properties of the code beside the ones above. *)

Module TableWords.

(** The names of the type tags that reach the flattener's recursion. *)
Definition hashTags : list string := ["Array"; "Object"; "null"].

End TableWords.

Module AnalyseFlatWords.

(** The type [t] is marked at [key]. *)
Definition marked (result : jsobj (jsobj bool)) (key t : string) : Prop :=
  exists tm, JsObj.get key result = Some tm /\ JsObj.get t tm = Some true.

(** No key of [result] is the name of a member that objects inherit. *)
Definition own (host : Host) (result : jsobj (jsobj bool)) : Prop :=
  forall key tm, JsObj.get key result = Some tm -> inherited host key = None.

End AnalyseFlatWords.

Module CountWords.

(** What the two mergers keep for a key: the count of each type, and
    the count of the documents. *)
Definition tally : Type := (jsobj Z * Z)%type.

Definition tallyOfTerark (e : Terark.Entry) : tally :=
  (Terark.types e, Terark.totalOccurrences e).

Definition tallyOfFlat (e : Flat.Entry) : tally :=
  (Flat.types e, Flat.totalOccurrences e).

(** How many of the analysed documents [rs] have the key, and how many
    have it with the type [t]. *)
Definition occurrences {A : Type} (key : string) (rs : list (jsobj A)) : nat :=
  List.length (filter (JsObj.has key) rs).

Definition typedAt {A : Type} (key t : string) (r : jsobj (jsobj A)) : bool :=
  match JsObj.get key r with
  | Some tm => JsObj.has t tm
  | None => false
  end.

Definition typeOccurrences {A : Type} (key t : string) (rs : list (jsobj (jsobj A))) : nat :=
  List.length (filter (typedAt key t) rs).

(** The tally [o] of a key says: [occ] documents, of which [tocc t]
    with the type [t]; a key no document had has no tally, a type no
    document had has no count. *)
Definition counted (o : option tally) (occ : nat) (tocc : string -> nat) : Prop :=
  match o with
  | None => occ = O /\ forall t, tocc t = O
  | Some (ts, n) =>
      occ <> O /\ n = Z.of_nat occ
      /\ forall t, JsObj.get t ts
                   = if Nat.eqb (tocc t) 0 then None else Some (Z.of_nat (tocc t))
  end.

(** An analysed document as the analysers make it: no key twice, no
    type twice under a key. *)
Definition wellformed {A : Type} (r : jsobj (jsobj A)) : bool :=
  FlatWords.distinct (JsObj.keys r)
  && forallb (fun kt => FlatWords.distinct (JsObj.keys (snd kt))) r.

(** The tally after one more document that has the key with the types
    [ks]. *)
Definition tallied (ks : list string) (o : option tally) : tally :=
  match o with
  | Some (ts, n) => (Terark.bumpTypes ks ts, n + 1)
  | None => (Terark.newTypes ks, 1)
  end.

End CountWords.

Module ScanCountWords.

(** What the shape-preserving analyser returns for a document of the
    scan, as its readers see it: [docResultterark]. *)
Definition analysed (host : Host) (config : Config) (doc : jsval)
    : outcome (jsobj (jsobj Terark.shape)) :=
  match Terark.serializeDocterark doc (maxDepth config) with
  | Throws e => Throws e
  | Returns flat =>
      Returns (Terark.view (Terark.analyseDocumentterark host flat (maxDepth config)))
  end.

(** The entry [mergeDocumentterark] makes for a new key. *)
Definition created (tm : jsobj Terark.shape) : Terark.Entry :=
  {| Terark.types := Terark.newTypes (JsObj.keys tm);
     Terark.totalOccurrences := 1;
     Terark.value := MergeWords.snapshot tm |}.

(** The entry it leaves for a key it knew. *)
Definition updated (tm : jsobj Terark.shape) (existing : Terark.Entry) : Terark.Entry :=
  {| Terark.types := Terark.bumpTypes (JsObj.keys tm) (Terark.types existing);
     Terark.totalOccurrences := Terark.totalOccurrences existing + 1;
     Terark.value := Terark.value existing |}.

(** Two analysed documents for the samples: [{a: String}] and
    [{a: String, b: Number}], the second of the flat kind too. *)
Definition seenA : jsobj (jsobj Terark.shape) := [("a", [("String", Terark.STrue)])].
Definition seenAB : jsobj (jsobj Terark.shape) :=
  [("a", [("String", Terark.STrue)]); ("b", [("Number", Terark.STrue)])].
Definition flatA : jsobj (jsobj bool) := [("a", [("String", true)])].
Definition flatAB : jsobj (jsobj bool) :=
  [("a", [("String", true)]); ("b", [("Number", true)])].

End ScanCountWords.

Module DenseWords.
Import Terark Schema.



Definition plainColumn (typeNames : list string) : column :=
  {| col_type := getKeyType (Str.join typeNames);
     col_mongoType := getMongoType (Str.join typeNames);
     col_length := None; col_nested := None |}.


End DenseWords.

Module OrdinalWords.
Import Schema.

(** The keys of a sink are the ordinals below [next], each once. *)
Definition ordinals_below (next : Z) (nss : jsobj NestedSchema) : Prop :=
  Z.of_nat (List.length nss) = next - 1
  /\ forall k, JsObj.has k nss = true <-> exists i, 1 <= i < next /\ k = Str.of_Z i.

End OrdinalWords.

Module RunWords.
Import Script.

(** What the run does before its checks. *)
Definition preamble (env : Env) : list Event :=
  match slaveOk env with
  | Some true => [SetSlaveOk]
  | _ => []
  end.

(** The databases that have a collection, among the known ones. *)
Definition nonEmptyDatabases (env : Env) (known : list string) : list string :=
  filter (fun d => negb (Nat.eqb (List.length (collectionNames env d)) 0)) known.

(** The token of the index translator for any field of a key pattern:
    bare when hashed or when the direction prints as [1], with a minus
    sign when it prints as [-1]; for every other direction, the text of
    the member the direction names when objects inherit one of that
    name, and else the word [undefined], before the name. *)
Definition anyToken (host : Host) (fd : string * Index.direction) : string :=
  let other (name : string) :=
    match inherited host name with
    | Some text => text ++ fst fd
    | None => "undefined" ++ fst fd
    end in
  match snd fd with
  | Index.DirNumber n =>
      if n =? 1 then fst fd
      else if n =? -1 then "-" ++ fst fd
      else other (Str.of_Z n)
  | Index.DirString s =>
      if String.eqb s "hashed" then fst fd
      else if String.eqb s "1" then fst fd
      else if String.eqb s "-1" then "-" ++ fst fd
      else other s
  end.

(** The run of the sample server asked for [animals], which holds
    [docDeep] and [docN], and its configuration. *)
Definition sampleRun : Env :=
  ScriptWords.sampleEnv (ScriptWords.givenCollection "animals")
    [Samples.docDeep; Samples.docN].

Definition sampleConfig : Config :=
  readConfig (count sampleRun) "animals" (context sampleRun).

(** A text index on [title] then [year] descending. *)
Definition textIndex : Index.IndexSpec :=
  {| Index.name := "title_text_year_-1";
     Index.key := [("title", Index.DirString "text"); ("year", Index.DirNumber (-1))];
     Index.unique := VUndefined |}.

(** A server whose reply lists one database, [admin]. *)
Definition hiddenEnv : Env :=
  {| slaveOk := Some true;
     knownDatabases := Some ["admin"];
     collectionNames := fun d => if String.eqb d "admin" then ["system.users"] else [];
     dbName := "test";
     context := ScriptWords.givenCollection "animals";
     count := fun _ _ => 0;
     cursor := fun _ => [];
     cursorterark := fun _ => [];
     cursorterarkSize := fun _ => 0;
     indexes := fun _ => [];
     shell := HostWords.shell;
     plugins := None;
     loadPlugins := fun _ config => inl config |}.

(** The host compiles the three sources the script makes with the
    escape of [config]. *)
Definition compiles (host : Host) (config : Config) : Prop :=
  RegExp host (Flat.serializeSource config) <> None
  /\ RegExp host (Flat.analyseSource config) <> None
  /\ RegExp host (filterSource config) <> None.

End RunWords.

Module SharedWords.
Import Terark.

(** What the traversals of all the [Object]-typed fields of a document
    leave, one after the other, in one tree. *)
Definition accumulate (maxDepth : Z) (document : jsobj jsval) : tree :=
  fold_left
    (fun r kv =>
       if String.eqb (varietyTypeOf (snd kv)) "Object"
       then serializeAValue (snd kv) maxDepth r
       else r)
    document [].

End SharedWords.

Module PluginWords.




End PluginWords.

Module DepthWords.
Import Terark.

(** A shape has at most [n] levels of nested trees. *)
Fixpoint within (n : nat) (s : shape) {struct s} : bool :=
  match s with
  | STrue => true
  | STree t =>
      match n with
      | O => false
      | S n' => forallb (fun ktm => forallb (fun ts => within n' (snd ts)) (snd ktm)) t
      end
  end.

(** Every shape of a tree has at most [n] levels. *)
Definition all_within (n : nat) (t : tree) : Prop :=
  forall k tm ty s, In (k, tm) t -> In (ty, s) tm -> within n s = true.

(** One turn of the loop of [serializeAValue]. *)
Definition place (maxDepth : Z) (pararesult : tree) (kv : string * jsval) : tree :=
  let type := varietyTypeOf (snd kv) in
  JsObj.set (fst kv)
    [(type,
      if String.eqb type "Object" && (1 <? maxDepth)
      then STree (serializeAValue (snd kv) (maxDepth - 1) [])
      else STrue)]
    pararesult.

End DepthWords.

Module OrdinalPathWords.

(** [s] is made of decimal digits. *)
Fixpoint all_digits (s : string) : bool :=
  match s with
  | EmptyString => true
  | String c s' => Str.is_digit c && all_digits s'
  end.

End OrdinalPathWords.

(** * Properties *)

Unset Implicit Arguments.

(** ** Strings *)

Module StrFacts.

Lemma append_assoc (a b c : string) : (a ++ b) ++ c = a ++ (b ++ c).
Proof. induction a as [|x a IH]; simpl; [reflexivity | now rewrite IH]. Qed.

Lemma append_nil_r (a : string) : a ++ "" = a.
Proof. induction a as [|x a IH]; simpl; [reflexivity | now rewrite IH]. Qed.

Lemma length_append (a b : string) :
  String.length (a ++ b) = (String.length a + String.length b)%nat.
Proof. induction a as [|x a IH]; simpl; [reflexivity | now rewrite IH]. Qed.

Lemma append_inv_l (a b c : string) : a ++ b = a ++ c -> b = c.
Proof. induction a as [|x a IH]; simpl; [auto | intros [= H]; auto]. Qed.

Lemma append_inv_r (a b c : string) : a ++ c = b ++ c -> a = b.
Proof.
  revert b. induction a as [|x a IH]; intros [|y b] H; simpl in *.
  - reflexivity.
  - apply (f_equal String.length) in H. simpl in H. rewrite length_append in H. lia.
  - apply (f_equal String.length) in H. simpl in H. rewrite length_append in H. lia.
  - injection H as -> H. f_equal. auto.
Qed.

End StrFacts.

(** ** Objects: reading after writing *)

Section JsObjFacts.
Variable A : Type.
Implicit Types (o : jsobj A) (k : string) (v : A).

Lemma get_app k o1 o2 :
  JsObj.get k (o1 ++ o2)%list =
  match JsObj.get k o1 with Some v => Some v | None => JsObj.get k o2 end.
Proof.
  induction o1 as [|[k' v'] o1 IH]; simpl; [reflexivity|].
  destruct (String.eqb k' k); [reflexivity | exact IH].
Qed.

Lemma get_update_same k v o :
  JsObj.get k o <> None -> JsObj.get k (JsObj.update k v o) = Some v.
Proof.
  induction o as [|[k' v'] o IH]; simpl; intros H; [congruence|].
  destruct (String.eqb k' k) eqn:E; simpl; rewrite E; [reflexivity | auto].
Qed.

Lemma get_update_other k k' v o :
  k <> k' -> JsObj.get k' (JsObj.update k v o) = JsObj.get k' o.
Proof.
  intros Hne. induction o as [|[k0 v0] o IH]; simpl; [reflexivity|].
  destruct (String.eqb k0 k) eqn:E; simpl.
  - apply String.eqb_eq in E. subst k0.
    destruct (String.eqb k k') eqn:E'; [apply String.eqb_eq in E'; contradiction | reflexivity].
  - destruct (String.eqb k0 k'); [reflexivity | exact IH].
Qed.

Lemma get_insert_index_same n k v o :
  JsObj.get k o = None -> JsObj.get k (JsObj.insert_index n k v o) = Some v.
Proof.
  induction o as [|[k' v'] o IH]; simpl; intros H.
  - now rewrite String.eqb_refl.
  - destruct (String.eqb k' k) eqn:E; [discriminate|].
    destruct (JsObj.array_index k') as [m|]; [destruct (m <? n)%N|]; simpl;
      rewrite ?E, ?String.eqb_refl; auto.
Qed.

Lemma get_insert_index_other n k k' v o :
  k <> k' -> JsObj.get k' (JsObj.insert_index n k v o) = JsObj.get k' o.
Proof.
  intros Hne. apply String.eqb_neq in Hne.
  induction o as [|[k0 v0] o IH]; simpl.
  - now rewrite Hne.
  - destruct (JsObj.array_index k0) as [m|]; [destruct (m <? n)%N|]; simpl;
      rewrite ?Hne, ?IH; reflexivity.
Qed.

(** Reading the property just written. *)
Lemma get_set_same k v o : JsObj.get k (JsObj.set k v o) = Some v.
Proof.
  unfold JsObj.set, JsObj.has. destruct (JsObj.get k o) eqn:E.
  - apply get_update_same. congruence.
  - destruct (JsObj.array_index k).
    + now apply get_insert_index_same.
    + rewrite get_app, E. simpl. now rewrite String.eqb_refl.
Qed.

(** Writing one property leaves the others as they were. *)
Lemma get_set_other k k' v o :
  k <> k' -> JsObj.get k' (JsObj.set k v o) = JsObj.get k' o.
Proof.
  intros Hne. unfold JsObj.set, JsObj.has. destruct (JsObj.get k o) eqn:E.
  - now apply get_update_other.
  - destruct (JsObj.array_index k).
    + now apply get_insert_index_other.
    + rewrite get_app. simpl. apply String.eqb_neq in Hne. rewrite Hne.
      destruct (JsObj.get k' o); reflexivity.
Qed.

Lemma get_set k k' v o :
  JsObj.get k' (JsObj.set k v o) = if String.eqb k k' then Some v else JsObj.get k' o.
Proof.
  destruct (String.eqb k k') eqn:E.
  - apply String.eqb_eq in E. subst. apply get_set_same.
  - apply String.eqb_neq in E. now apply get_set_other.
Qed.

Lemma has_set k k' v o :
  JsObj.has k' (JsObj.set k v o) = String.eqb k k' || JsObj.has k' o.
Proof.
  unfold JsObj.has. rewrite get_set. destruct (String.eqb k k'); reflexivity.
Qed.

Lemma has_cons k k' v o :
  JsObj.has k ((k', v) :: o) = String.eqb k' k || JsObj.has k o.
Proof. unfold JsObj.has. cbn [JsObj.get]. destruct (String.eqb k' k); reflexivity. Qed.

Lemma get_In k v o : JsObj.get k o = Some v -> In (k, v) o.
Proof.
  induction o as [|[k' v'] o IH]; simpl; [discriminate|].
  destruct (String.eqb k' k) eqn:E.
  - apply String.eqb_eq in E. intros [= ->]. subst. now left.
  - intros H. right. auto.
Qed.

Lemma get_None_notin k o : JsObj.get k o = None -> ~ In k (JsObj.keys o).
Proof.
  induction o as [|[k' v'] o IH]; simpl; [tauto|].
  destruct (String.eqb k' k) eqn:E; [discriminate|].
  apply String.eqb_neq in E. intros H [H1|H1]; [contradiction | now apply IH].
Qed.

Lemma notin_get_None k o : ~ In k (JsObj.keys o) -> JsObj.get k o = None.
Proof.
  induction o as [|[k' v'] o IH]; simpl; [reflexivity|].
  intros H. destruct (String.eqb k' k) eqn:E.
  - apply String.eqb_eq in E. tauto.
  - apply IH. tauto.
Qed.

Lemma In_update k v o kv :
  In kv (JsObj.update k v o) -> kv = (k, v) \/ In kv o.
Proof.
  induction o as [|[k' v'] o IH]; simpl; [tauto|].
  destruct (String.eqb k' k) eqn:E; simpl.
  - apply String.eqb_eq in E. subst. intros [H|H]; auto.
  - intros [H|H]; auto. destruct (IH H); auto.
Qed.

Lemma In_insert_index n k v o kv :
  In kv (JsObj.insert_index n k v o) -> kv = (k, v) \/ In kv o.
Proof.
  induction o as [|[k' v'] o IH]; simpl.
  - intros [H|[]]; auto.
  - destruct (JsObj.array_index k') as [m|]; [destruct (m <? n)%N|]; simpl;
      intros [H|H]; auto. destruct (IH H); auto.
Qed.

(** Every pair of an object after a write is the pair written or was
    there before. *)
Lemma In_set k v o kv : In kv (JsObj.set k v o) -> kv = (k, v) \/ In kv o.
Proof.
  unfold JsObj.set. destruct (JsObj.has k o).
  - apply In_update.
  - destruct (JsObj.array_index k).
    + apply In_insert_index.
    + intros H. apply in_app_or in H. destruct H as [H|[H|[]]]; auto.
Qed.

End JsObjFacts.

(** ** The type classifier *)

(** C7: the classifier is a total function that gives [null] the name
    "null", an array "Array", an undefined value "undefined", a string
    "String", a number "Number", and the four wrappers their own names;
    every other keyed record is an "Object"; and whatever the value, the
    answer is one of the eleven names, so classification never fails. *)
Theorem varietyTypeOf_classifies :
  varietyTypeOf VNull = "null"
  /\ (forall elems, varietyTypeOf (VArray elems) = "Array")
  /\ varietyTypeOf VUndefined = "undefined"
  /\ (forall s, varietyTypeOf (VString s) = "String")
  /\ (forall q, varietyTypeOf (VNumber q) = "Number")
  /\ (forall millis, varietyTypeOf (VDate millis) = "Date")
  /\ (forall n, varietyTypeOf (VNumberLong n) = "NumberLong")
  /\ (forall hex, varietyTypeOf (VObjectId hex) = "ObjectId")
  /\ (forall subtype base64, varietyTypeOf (VBinData subtype base64) = "BinData")
  /\ (forall fields, varietyTypeOf (VObject fields) = "Object")
  /\ (forall thing, In (varietyTypeOf thing) typeTags).
Proof.
  repeat split; try reflexivity.
  intros thing. destruct thing; cbv; tauto.
Qed.

Example varietyTypeOf_samples :
  map varietyTypeOf
    [ VNull; VArray [VNumber 1; VNumber 2]; VUndefined; VString "x"; VNumber (314 # 100);
      VBoolean true ]
  = [ "null"; "Array"; "undefined"; "String"; "Number"; "Boolean" ].
Proof. reflexivity. Qed.

(** ** The index translator *)

Module IndexFacts.
Import Index IndexWords.

Lemma generateIndex_from host results l :
  fold_left (fun results ix => (results ++ [translate host ix])%list) l results
  = (results ++ map (translate host) l)%list.
Proof.
  revert results. induction l as [|ix l IH]; intros results; simpl.
  - now rewrite app_nil_r.
  - rewrite IH, <- app_assoc. reflexivity.
Qed.

Lemma fieldStep_plain host fks part ord :
  fold_left (fieldStep host) (keyPattern fks) (part, ord)
  = ((part ++ map token fks)%list, ord && negb (existsb hashed fks)).
Proof.
  revert part ord. induction fks as [|[f k] fks IH]; intros part ord; simpl.
  - now rewrite app_nil_r, andb_true_r.
  - destruct k; unfold fieldStep at 2; simpl; rewrite IH, <- app_assoc; simpl;
      try reflexivity.
    now rewrite andb_false_r.
Qed.

End IndexFacts.

(** C6: the translator keeps the order of the index list, one
    descriptor for each index; the index named [_id_] gives
    [{fields: "_id", ordered: true, unique: true}] whatever its key;
    any other index whose fields are ascending, descending or hashed
    gives the tokens (bare, with a minus sign, bare) joined by commas in
    the order of the key, [ordered] false exactly when a field is
    hashed, and [unique] true exactly when the index's flag is the
    boolean [true]. *)
Theorem generateIndex_translates (host : Host) :
  (forall originalindex,
      Index.generateIndex host originalindex = map (Index.translate host) originalindex)
  /\ (forall key unique,
         Index.translate host
           {| Index.name := "_id_"; Index.key := key; Index.unique := unique |}
         = {| Index.fields := "_id"; Index.ordered := true; Index.uniq := true |})
  /\ (forall name fks unique,
         let d := Index.translate host
                    {| Index.name := name;
                       Index.key := IndexWords.keyPattern fks;
                       Index.unique := unique |} in
         name = "_id_"
         \/ (Index.fields d = String.concat "," (map IndexWords.token fks)
             /\ Index.ordered d = negb (existsb IndexWords.hashed fks)
             /\ (Index.uniq d = true <-> unique = VBoolean true))).
Proof.
  split; [|split].
  - intros l. unfold Index.generateIndex. now rewrite IndexFacts.generateIndex_from.
  - reflexivity.
  - intros name fks unique d.
    destruct (String.eqb "_id_" name) eqn:E.
    + left. apply String.eqb_eq in E. congruence.
    + right. subst d. unfold Index.translate. cbn [Index.name Index.key Index.unique].
      rewrite E. cbn [negb]. rewrite IndexFacts.fieldStep_plain.
      cbn [fst snd Index.fields Index.ordered Index.uniq app andb].
      repeat split.
      * destruct unique as [| |[|]| | | | | | | |]; simpl; congruence.
      * intros ->. reflexivity.
Qed.

Example generateIndex_samples (host : Host) :
  Index.generateIndex host
    [ {| Index.name := "a_1_b_-1";
         Index.key := [("a", Index.DirNumber 1); ("b", Index.DirNumber (-1))];
         Index.unique := VBoolean false |};
      {| Index.name := "c_hashed"; Index.key := [("c", Index.DirString "hashed")];
         Index.unique := VUndefined |};
      {| Index.name := "_id_"; Index.key := [("x", Index.DirString "hashed")];
         Index.unique := VUndefined |} ]
  = [ {| Index.fields := "a,-b"; Index.ordered := true; Index.uniq := false |};
      {| Index.fields := "c"; Index.ordered := false; Index.uniq := false |};
      {| Index.fields := "_id"; Index.ordered := true; Index.uniq := true |} ].
Proof. reflexivity. Qed.

(** ** The script: what the converter reads, and the checks before the scans *)

Module ScriptFacts.
Import Script ScriptWords.

Lemma printed_app t1 t2 : printed (t1 ++ t2)%list = (printed t1 ++ printed t2)%list.
Proof. unfold printed. apply flat_map_app. Qed.

End ScriptFacts.

(** C8: the converter's columns and the nested schema set it leaves in
    the sink are the same for any two flat aggregates passed to it, the
    other three arguments being equal; and at the call site, whatever
    flat aggregate the first scan has left, the script from the call
    of the converter to its end prints the same document and ends in
    the same way. *)
Theorem convertSchema_ignores_flat_aggregate :
  (forall interimResultsstrc documentsCount nestedschemaset interimResults interimResults',
      Schema.convertSchema interimResultsstrc documentsCount nestedschemaset interimResults
      = Schema.convertSchema interimResultsstrc documentsCount nestedschemaset interimResults')
  /\ (forall env config interimResults interimResults' interimResultsterark,
         Script.report env config interimResults interimResultsterark
         = Script.report env config interimResults' interimResultsterark).
Proof.
  split.
  - intros agg n sink flat flat'. unfold Schema.convertSchema.
    destruct (Schema.convertEntries n agg _); reflexivity.
  - intros env config flat flat' agg. unfold Script.report, Schema.convertSchema.
    destruct (Schema.convertEntries _ agg _); reflexivity.
Qed.

(** C9: when no [collection] is given, or the collection named has no
    document (or does not exist, which counts as none), the run ends by
    throwing a message; it has made no scan and printed nothing; and
    when the checks on the database have passed, the message lists the
    names of the collections of the target database. *)
Theorem collection_checks_abort (env : Script.Env) :
  given_collection (Script.context env) = None
  \/ (exists c, given_collection (Script.context env) = Some c
                /\ Script.count env (Some c) (VObject []) = 0) ->
  exists message,
    snd (Script.run env) = Script.Thrown message
    /\ ScriptWords.scans (fst (Script.run env)) = 0%nat
    /\ ScriptWords.printed (fst (Script.run env)) = []
    /\ (Script.checkDatabase env = None ->
        exists before after,
          message = before ++ String.concat ", " (Script.collectionNames env (Script.dbName env))
                           ++ after).
Proof.
  intros H. unfold Script.run.
  assert (Hs : forall l, l = match Script.slaveOk env with
                             | Some true => [Script.SetSlaveOk] | _ => [] end ->
                         ScriptWords.scans l = 0%nat /\ ScriptWords.printed l = []).
  { intros l ->. destruct (Script.slaveOk env) as [[|]|]; split; reflexivity. }
  destruct (Script.checkDatabase env) as [m|] eqn:Hdb.
  - exists m. cbn [fst snd]. destruct (Hs _ eq_refl) as [H1 H2].
    repeat split; auto. discriminate.
  - assert (Hc : exists before after,
               Script.checkCollection env
               = inl (before ++ String.concat ", " (Script.collectionNames env (Script.dbName env))
                             ++ after)).
    { unfold Script.checkCollection, Script.collNames, Script.joinNames.
      destruct H as [H|(c & H & H0)]; rewrite H.
      - exists ("You have to supply a 'collection' variable, à la --eval 'var collection = "
                ++ Script.dquote ++ "animals" ++ Script.dquote ++ "'." ++ Script.nl
                ++ "Possible collection options for database specified: ").
        exists ("." ++ Script.nl ++ "Please see https://github.com/variety/variety for details.").
        rewrite !StrFacts.append_assoc. reflexivity.
      - rewrite H0. cbn [Z.eqb].
        exists ("The collection specified (" ++ c ++ ") in the database specified ("
                ++ Script.dbName env ++ ") does not exist or is empty." ++ Script.nl
                ++ "Possible collection options for database specified: ").
        exists ".".
        rewrite !StrFacts.append_assoc. reflexivity. }
    destruct Hc as (before & after & Hc). rewrite Hc.
    eexists. cbn [fst snd]. destruct (Hs _ eq_refl) as [H1 H2].
    repeat split; eauto.
Qed.

Lemma collection_checks_abort_witness :
  exists message,
    snd (Script.run (ScriptWords.sampleEnv ScriptWords.nothingGiven [])) = Script.Thrown message
    /\ ScriptWords.scans (fst (Script.run (ScriptWords.sampleEnv ScriptWords.nothingGiven []))) = 0%nat
    /\ ScriptWords.printed (fst (Script.run (ScriptWords.sampleEnv ScriptWords.nothingGiven []))) = []
    /\ (Script.checkDatabase (ScriptWords.sampleEnv ScriptWords.nothingGiven []) = None ->
        exists before after,
          message = before ++ String.concat ", " ["animals"; "plants"] ++ after).
Proof.
  apply (collection_checks_abort (ScriptWords.sampleEnv ScriptWords.nothingGiven [])).
  left. reflexivity.
Defined.

(** ** The shape-preserving merger: the snapshot of an entry *)

Module MergeFacts.
Import Terark MergeWords.

Lemma mergeKey_keeps key agg kv e :
  JsObj.get key agg = Some e ->
  exists e', JsObj.get key (mergeKey agg kv) = Some e' /\ value e' = value e.
Proof.
  intros H. unfold mergeKey.
  destruct (String.eqb (fst kv) key) eqn:E.
  - apply String.eqb_eq in E. rewrite E, H. rewrite get_set_same. eexists. split; reflexivity.
  - apply String.eqb_neq in E.
    destruct (JsObj.get (fst kv) agg); [|destruct (String.eqb _ "Object")];
      rewrite get_set_other by exact E; eauto.
Qed.

Lemma mergeKey_absent key agg kv :
  JsObj.get key agg = None -> fst kv <> key -> JsObj.get key (mergeKey agg kv) = None.
Proof.
  intros H E. unfold mergeKey.
  destruct (JsObj.get (fst kv) agg); [|destruct (String.eqb _ "Object")];
    rewrite get_set_other by exact E; exact H.
Qed.

Lemma mergeKey_creates key agg tm :
  JsObj.get key agg = None ->
  exists e, JsObj.get key (mergeKey agg (key, tm)) = Some e /\ value e = snapshot tm.
Proof.
  intros H. unfold mergeKey, snapshot. cbn [fst snd]. rewrite H.
  destruct (String.eqb _ "Object"); rewrite get_set_same; eexists; split; reflexivity.
Qed.

Lemma mergeDocumentterark_keeps key d : forall agg e,
  JsObj.get key agg = Some e ->
  exists e', JsObj.get key (mergeDocumentterark d agg) = Some e' /\ value e' = value e.
Proof.
  unfold mergeDocumentterark.
  induction d as [|kv d IH]; intros agg e H; simpl; [eauto|].
  destruct (mergeKey_keeps _ _ kv _ H) as (e1 & H1 & V1).
  destruct (IH _ _ H1) as (e2 & H2 & V2). exists e2. split; [exact H2 | congruence].
Qed.

Lemma mergeDocumentterark_absent key d : forall agg,
  JsObj.get key agg = None -> JsObj.get key d = None ->
  JsObj.get key (mergeDocumentterark d agg) = None.
Proof.
  unfold mergeDocumentterark.
  induction d as [|[k tm] d IH]; intros agg H Hd; simpl in *; [exact H|].
  destruct (String.eqb k key) eqn:E; [discriminate|].
  apply IH; [|exact Hd]. apply mergeKey_absent; [exact H|].
  now apply String.eqb_neq in E.
Qed.

Lemma mergeDocumentterark_creates key d : forall agg tm,
  JsObj.get key agg = None -> JsObj.get key d = Some tm ->
  exists e, JsObj.get key (mergeDocumentterark d agg) = Some e /\ value e = snapshot tm.
Proof.
  induction d as [|[k t] d IH]; intros agg tm H Hd; simpl in *; [discriminate|].
  destruct (String.eqb k key) eqn:E.
  - apply String.eqb_eq in E. subst k. injection Hd as ->.
    destruct (mergeKey_creates _ _ tm H) as (e1 & H1 & V1).
    destruct (mergeDocumentterark_keeps _ d _ _ H1) as (e2 & H2 & V2).
    exists e2. split; [exact H2 | congruence].
  - apply IH; [|exact Hd]. apply mergeKey_absent; [exact H|].
    now apply String.eqb_neq in E.
Qed.

Lemma fold_keeps key rs : forall agg e,
  JsObj.get key agg = Some e ->
  exists e', JsObj.get key (fold_left (fun acc r => mergeDocumentterark r acc) rs agg) = Some e'
             /\ value e' = value e.
Proof.
  induction rs as [|r rs IH]; intros agg e H; simpl; [eauto|].
  destruct (mergeDocumentterark_keeps _ r _ _ H) as (e1 & H1 & V1).
  destruct (IH _ _ H1) as (e2 & H2 & V2). exists e2. split; [exact H2 | congruence].
Qed.

Lemma fold_absent key rs : forall agg,
  JsObj.get key agg = None -> (forall r, In r rs -> JsObj.get key r = None) ->
  JsObj.get key (fold_left (fun acc r => mergeDocumentterark r acc) rs agg) = None.
Proof.
  induction rs as [|r rs IH]; intros agg H Hrs; simpl; [exact H|].
  apply IH; [|intros r' Hr'; apply Hrs; now right].
  apply mergeDocumentterark_absent; [exact H | apply Hrs; now left].
Qed.

End MergeFacts.

(** C1, as the code has it: the snapshot of an entry is written once,
    when the entry is created by the first document of the scan that
    carries the path, and it is that document's shape when its type set
    for the path is the single name [Object] (no snapshot otherwise);
    no later document changes it, so after the whole scan the snapshot
    is still the one of the first document that carried the path. *)
Theorem snapshot_is_first_seen
    (before after : list (jsobj (jsobj Terark.shape))) (d : jsobj (jsobj Terark.shape))
    (key : string) (tm : jsobj Terark.shape) :
  (forall r, In r before -> JsObj.get key r = None) ->
  JsObj.get key d = Some tm ->
  exists e,
    JsObj.get key
      (fold_left (fun acc r => Terark.mergeDocumentterark r acc) (before ++ d :: after)%list [])
    = Some e
    /\ Terark.value e
       = if String.eqb (JsObj.keys_string tm) "Object" then Some tm else None.
Proof.
  intros Hb Hd. rewrite fold_left_app. simpl.
  pose proof (MergeFacts.fold_absent key before [] eq_refl Hb) as H0.
  destruct (MergeFacts.mergeDocumentterark_creates _ d _ _ H0 Hd) as (e1 & H1 & V1).
  destruct (MergeFacts.fold_keeps _ after _ _ H1) as (e2 & H2 & V2).
  exists e2. split; [exact H2|]. rewrite V2, V1. reflexivity.
Qed.

Lemma snapshot_is_first_seen_witness :
  exists e,
    JsObj.get "a"
      (fold_left (fun acc r => Terark.mergeDocumentterark r acc)
         ([Samples.seenN] ++ Samples.seenAx :: [Samples.seenAy])%list [])
    = Some e
    /\ Terark.value e
       = Some [("Object", Terark.STree [("x", [("Number", Terark.STrue)])])].
Proof.
  apply (snapshot_is_first_seen [Samples.seenN] [Samples.seenAy] Samples.seenAx "a"
           [("Object", Terark.STree [("x", [("Number", Terark.STrue)])])]).
  - intros r [<-|[]]. reflexivity.
  - reflexivity.
Defined.

(** The claim C1 fails on a scan of [{a: {x: 1}}] then [{a: {y: "s"}}]:
    both present [a] as a lone [Object], the second is the last
    processed, and the snapshot is the shape of the first. *)
Lemma snapshot_not_last_seen :
  Samples.analysed Samples.docAx = Returns Samples.seenAx
  /\ Samples.analysed Samples.docAy = Returns Samples.seenAy
  /\ JsObj.get "a" Samples.seenAy
     = Some [("Object", Terark.STree [("y", [("String", Terark.STrue)])])]
  /\ exists agg e,
      Samples.aggregate [Samples.docAx; Samples.docAy] = Returns agg
      /\ JsObj.get "a" agg = Some e
      /\ Terark.value e = Some [("Object", Terark.STree [("x", [("Number", Terark.STrue)])])]
      /\ Terark.value e <> JsObj.get "a" Samples.seenAy.
Proof.
  split; [reflexivity|]. split; [reflexivity|]. split; [reflexivity|].
  eexists. eexists. split; [reflexivity|]. split; [reflexivity|]. split; [reflexivity|].
  discriminate.
Qed.

(** ** The shape-preserving analyser: one object behind every [Object] slot *)

Module AnalyseFacts.
Import Terark AnalyseWords.

Lemma slots_ok_set t tm :
  slots_ok tm ->
  slots_ok (JsObj.set t (if String.eqb t "Object" then Shared else Marked) tm).
Proof.
  intros H t' s' Hin. apply In_set in Hin. destruct Hin as [Hin|Hin]; auto.
  injection Hin as -> ->. reflexivity.
Qed.

Lemma assign_ok key type s r :
  s = (if String.eqb type "Object" then Shared else Marked) ->
  result_ok r -> result_ok (assign key type s r).
Proof.
  intros Hs H. unfold assign. destruct (JsObj.get key r) as [tm|] eqn:G; [|exact H].
  intros k tm' Hin. apply In_set in Hin. destruct Hin as [Hin|Hin]; [|eauto].
  injection Hin as _ ->. subst s. apply slots_ok_set.
  apply get_In in G. eauto.
Qed.

Lemma analyseField_ok host maxDepth st kv :
  result_ok (result st) -> result_ok (result (analyseField host maxDepth st kv)).
Proof.
  intros H. unfold analyseField.
  set (key := normalizeKey (fst kv)).
  set (r1 := match JsObj.get key (result st) with
             | Some _ => result st
             | None => match inherited host key with
                       | Some _ => result st
                       | None => JsObj.set key [] (result st)
                       end
             end).
  assert (H1 : result_ok r1).
  { subst r1. destruct (JsObj.get key (result st)); [exact H|].
    destruct (inherited host key); [exact H|].
    intros k tm Hin. apply In_set in Hin. destruct Hin as [Hin|Hin]; [|eauto].
    injection Hin as _ ->. intros t s []. }
  destruct (String.eqb (varietyTypeOf (snd kv)) "Object") eqn:E; cbn [result];
    apply assign_ok; auto; now rewrite E.
Qed.

Lemma analyseDocumentterark_ok host document maxDepth :
  result_ok (result (analyseDocumentterark host document maxDepth)).
Proof.
  unfold analyseDocumentterark.
  assert (H : forall st, result_ok (result st) ->
                         result_ok (result (fold_left (analyseField host maxDepth)
                                              document st))).
  { induction document as [|kv d IH]; intros st Hst; simpl; [exact Hst|].
    apply IH. now apply analyseField_ok. }
  apply H. intros k tm [].
Qed.

(** Whatever the document, two keys of the result that have a slot
    under [Object] hold the same reference, and their readers find the
    same tree: the final contents of [recurresult]. *)
Lemma analyseDocumentterark_aliases host document maxDepth k1 k2 tm1 tm2 s1 s2 :
  let a := analyseDocumentterark host document maxDepth in
  JsObj.get k1 (result a) = Some tm1 -> JsObj.get "Object" tm1 = Some s1 ->
  JsObj.get k2 (result a) = Some tm2 -> JsObj.get "Object" tm2 = Some s2 ->
  s1 = Shared /\ s2 = Shared /\ deref a s1 = STree (recurresult a)
  /\ deref a s2 = STree (recurresult a).
Proof.
  intros a H1 O1 H2 O2.
  pose proof (analyseDocumentterark_ok host document maxDepth) as Hok. fold a in Hok.
  apply get_In in H1, H2, O1, O2.
  pose proof (Hok _ _ H1 _ _ O1) as E1. pose proof (Hok _ _ H2 _ _ O2) as E2.
  simpl in E1, E2. subst. repeat split.
Qed.

End AnalyseFacts.

(** C4 does not hold of the code.  On [{a: {x: 1}, b: {y: "s"}}] with
    the default depth 99, in any host that gives objects no member
    named [a] or [b], the analyser stores under [a] and under [b] a
    reference to the same object, filled by both traversals: each
    field's tree, as read from the result, has the subkeys [x] and [y]
    of both fields. *)
Theorem analyseDocumentterark_shares_sibling_trees (host : Host) :
  inherited host "a" = None -> inherited host "b" = None ->
  exists flat,
    Terark.serializeDocterark Samples.docAB 99 = Returns flat
    /\ let a := Terark.analyseDocumentterark host flat 99 in
       Terark.result a
       = [("a", [("Object", Terark.Shared)]); ("b", [("Object", Terark.Shared)])]
       /\ Terark.recurresult a
          = [("x", [("Number", Terark.STrue)]); ("y", [("String", Terark.STrue)])]
       /\ JsObj.get "a" (Terark.view a)
          = Some [("Object", Terark.STree [("x", [("Number", Terark.STrue)]);
                                           ("y", [("String", Terark.STrue)])])]
       /\ JsObj.get "b" (Terark.view a) = JsObj.get "a" (Terark.view a).
Proof.
  intros Ha Hb.
  exists [("a", VObject [("x", VNumber 1)]); ("b", VObject [("y", VString "s")])].
  split; [reflexivity|].
  assert (E : Terark.analyseDocumentterark host
                [("a", VObject [("x", VNumber 1)]); ("b", VObject [("y", VString "s")])] 99
              = {| Terark.result := [("a", [("Object", Terark.Shared)]);
                                     ("b", [("Object", Terark.Shared)])];
                   Terark.recurresult := [("x", [("Number", Terark.STrue)]);
                                          ("y", [("String", Terark.STrue)])] |}).
  { unfold Terark.analyseDocumentterark. cbn [fold_left].
    unfold Terark.analyseField at 2.
    change (Terark.normalizeKey (fst ("a", VObject [("x", VNumber 1)]))) with "a".
    cbn [Terark.result JsObj.get]. rewrite Ha.
    unfold Terark.analyseField.
    change (Terark.normalizeKey (fst ("b", VObject [("y", VString "s")]))) with "b".
    cbn [Terark.result Terark.recurresult snd].
    change (varietyTypeOf (VObject [("x", VNumber 1)])) with "Object".
    change (varietyTypeOf (VObject [("y", VString "s")])) with "Object".
    cbn [String.eqb Ascii.eqb Bool.eqb Terark.result Terark.recurresult].
    change (JsObj.get "b" (Terark.assign "a" "Object" Terark.Shared (JsObj.set "a" [] [])))
      with (@None (jsobj Terark.slot)).
    rewrite Hb. reflexivity. }
  cbv zeta. rewrite E. repeat split.
Qed.

Lemma analyseDocumentterark_shares_sibling_trees_witness :
  exists flat,
    Terark.serializeDocterark Samples.docAB 99 = Returns flat
    /\ let a := Terark.analyseDocumentterark HostWords.shell flat 99 in
       Terark.result a
       = [("a", [("Object", Terark.Shared)]); ("b", [("Object", Terark.Shared)])]
       /\ Terark.recurresult a
          = [("x", [("Number", Terark.STrue)]); ("y", [("String", Terark.STrue)])]
       /\ JsObj.get "a" (Terark.view a)
          = Some [("Object", Terark.STree [("x", [("Number", Terark.STrue)]);
                                           ("y", [("String", Terark.STrue)])])]
       /\ JsObj.get "b" (Terark.view a) = JsObj.get "a" (Terark.view a).
Proof.
  apply (analyseDocumentterark_shares_sibling_trees HostWords.shell); reflexivity.
Defined.

(** ** The schema converter *)

Module SchemaFacts.
Import Terark Schema SchemaWords.

Lemma has_comma_app a b : has_comma (a ++ "," ++ b) = true.
Proof.
  induction a as [|c a IH]; [reflexivity|].
  change (has_comma (String c (a ++ "," ++ b)) = true).
  cbn [has_comma]. rewrite IH. apply orb_true_r.
Qed.

(** The joined names spell [Object] only for the single name [Object]. *)
Lemma join_Object l : Str.join l = "Object" -> l = ["Object"].
Proof.
  destruct l as [|x [|y r]]; unfold Str.join.
  - discriminate.
  - simpl. intros H. now subst.
  - intros H. apply (f_equal has_comma) in H.
    change (has_comma (x ++ "," ++ String.concat "," (y :: r)) = false) in H.
    rewrite has_comma_app in H. discriminate.
Qed.

Lemma of_Z_inj a b : Str.of_Z a = Str.of_Z b -> a = b.
Proof.
  unfold Str.of_Z. intros H.
  assert (E : Z.to_int a = Z.to_int b).
  { pose proof (NilEmpty.isi (Z.to_int a)) as Ha. rewrite H, NilEmpty.isi in Ha. congruence. }
  rewrite <- (DecimalZ.of_to a), <- (DecimalZ.of_to b). now rewrite E.
Qed.


(** The cases of one turn of the converter's loop on the entry [kv]. *)
Ltac convert_cases kv :=
  repeat match goal with
    | |- context [Z.eqb ?a ?b] => destruct (Z.eqb a b)
    | |- context [String.eqb ?a ?b] => destruct (String.eqb a b)
    end;
  destruct (value (snd kv)).



(** The ordinal grows by one at each registration, and a registration
    leaves the elements under smaller ordinals as they were. *)
Lemma convertEntry_index n st kv st' :
  convertEntry n st kv = Some st' ->
  st_nestedindex st' = st_nestedindex st + (if sparseObject n kv then 1 else 0)
  /\ (forall i, i < st_nestedindex st ->
        JsObj.get (Str.of_Z i) (st_nestedschemaset st')
        = JsObj.get (Str.of_Z i) (st_nestedschemaset st)).
Proof.
  unfold convertEntry, sparseObject.
  convert_cases kv; cbn [negb andb]; intros H; try discriminate; injection H as <-;
    cbn [st_nestedindex st_nestedschemaset]; (split; [lia|]); auto.
  intros i Hi. apply get_set_other. intros E. apply of_Z_inj in E. lia.
Qed.

Lemma convertEntries_index n l : forall st st',
  convertEntries n l st = Some st' ->
  st_nestedindex st' = st_nestedindex st + Z.of_nat (sparseObjects n l)
  /\ (forall i, i < st_nestedindex st ->
        JsObj.get (Str.of_Z i) (st_nestedschemaset st')
        = JsObj.get (Str.of_Z i) (st_nestedschemaset st)).
Proof.
  induction l as [|kv l IH]; intros st st' H; simpl in H.
  - injection H as <-. split; [unfold sparseObjects; simpl; lia | auto].
  - destruct (convertEntry n st kv) as [st1|] eqn:E1; [|discriminate].
    destruct (convertEntry_index _ _ _ _ E1) as [I1 G1].
    destruct (IH _ _ H) as [I2 G2]. split.
    + rewrite I2, I1. unfold sparseObjects. simpl.
      destruct (sparseObject n kv); simpl List.length; lia.
    + intros i Hi. rewrite G2, G1; auto.
      rewrite I1. destruct (sparseObject n kv); lia.
Qed.






End SchemaFacts.

Module SchemaTrees.
Import Terark Schema SchemaWords.



Lemma convertEntry_total n st kv :
  snapshots_present [kv] = true -> convertEntry n st kv <> None.
Proof.
  unfold snapshots_present, convertEntry. cbn [forallb]. rewrite andb_true_r.
  destruct (String.eqb (JsObj.keys_string (types (snd kv))) "Object") eqn:E.
  - apply String.eqb_eq, SchemaFacts.join_Object in E. rewrite E.
    destruct (value (snd kv)); [|discriminate].
    intros _. repeat match goal with
                     | |- context [Z.eqb ?a ?b] => destruct (Z.eqb a b)
                     | |- context [String.eqb ?a ?b] => destruct (String.eqb a b)
                     end; discriminate.
  - intros _. repeat match goal with
                     | |- context [Z.eqb ?a ?b] => destruct (Z.eqb a b)
                     | |- context [String.eqb ?a ?b] => destruct (String.eqb a b)
                     end; discriminate.
Qed.

Lemma convertEntries_total n l : forall st,
  snapshots_present l = true -> convertEntries n l st <> None.
Proof.
  induction l as [|kv l IH]; intros st H; simpl; [discriminate|].
  unfold snapshots_present in H. cbn [forallb] in H. apply andb_prop in H. destruct H as [H1 H2].
  destruct (convertEntry n st kv) as [st1|] eqn:E.
  - now apply IH.
  - exfalso. apply (@convertEntry_total n st kv); [|exact E].
    unfold snapshots_present. cbn [forallb]. now rewrite H1.
Qed.

Lemma snapshots_present_app l1 l2 :
  snapshots_present (l1 ++ l2)%list = snapshots_present l1 && snapshots_present l2.
Proof. unfold snapshots_present. apply forallb_app. Qed.

End SchemaTrees.




Module SparseFacts.
Import Terark Schema SchemaWords.




End SparseFacts.



Example sparse_entries_sample :
  Samples.aggregate [Samples.docDeep; Samples.docN]
  = Returns [("n", Samples.entryN); ("a", Samples.entryA)]
  /\ Schema.convertSchema
       [("n", Samples.entryN); ("a", Samples.entryA); ("s", Samples.entryS)] 2 [] []
     = Some ([("n", {| Schema.col_type := Some "Sint32"; Schema.col_mongoType := Some "int";
                       Schema.col_length := None; Schema.col_nested := None |});
              ("$$", Schema.carbin)],
             [("1", {| Schema.columns :=
                         [("p", {| Schema.col_type := Some "CarBin";
                                   Schema.col_mongoType := Some "object";
                                   Schema.col_length := None;
                                   Schema.col_nested :=
                                     Some [("q", {| Schema.col_type := Some "Sint32";
                                                    Schema.col_mongoType := Some "int";
                                                    Schema.col_length := None;
                                                    Schema.col_nested := None |})] |});
                          ("$$", Schema.carbin)] |})]).
Proof. split; reflexivity. Qed.

(** ** The aggregates of scans let the converter run to its end *)

Section JsObjKeys.
Variable A : Type.
Implicit Types (o : jsobj A) (k : string) (v : A).

Lemma In_keys_get k o : In k (JsObj.keys o) <-> JsObj.get k o <> None.
Proof.
  split.
  - intros H G. now apply get_None_notin in G.
  - intros G. destruct (in_dec string_dec k (JsObj.keys o)) as [H|H]; [exact H|].
    now apply notin_get_None in H.
Qed.

Lemma keys_update k v o : JsObj.keys (JsObj.update k v o) = JsObj.keys o.
Proof.
  induction o as [|[k' v'] o IH]; simpl; [reflexivity|].
  destruct (String.eqb k' k); simpl; [reflexivity | now rewrite IH].
Qed.

Lemma NoDup_insert_index n k v o :
  ~ In k (JsObj.keys o) -> NoDup (JsObj.keys o) ->
  NoDup (JsObj.keys (JsObj.insert_index n k v o)).
Proof.
  induction o as [|[k' v'] o IH]; simpl; intros Hk Hn.
  - constructor; [tauto | constructor].
  - assert (Hc : NoDup (k :: k' :: JsObj.keys o)) by (constructor; simpl; tauto).
    destruct (JsObj.array_index k') as [m|]; [destruct (m <? n)%N|]; simpl; try exact Hc.
    inversion Hn as [|? ? Hk' Hn']; subst. constructor.
    + intros Hin. apply In_keys_get in Hin.
      rewrite get_insert_index_other in Hin by (intros E; apply Hk; left; now symmetry).
      now apply In_keys_get in Hin.
    + apply IH; tauto.
Qed.

(** A write keeps the names of an object distinct. *)
Lemma NoDup_set k v o : NoDup (JsObj.keys o) -> NoDup (JsObj.keys (JsObj.set k v o)).
Proof.
  intros Hn. unfold JsObj.set, JsObj.has. destruct (JsObj.get k o) eqn:E.
  - now rewrite keys_update.
  - apply get_None_notin in E. destruct (JsObj.array_index k).
    + now apply NoDup_insert_index.
    + unfold JsObj.keys. rewrite map_app. simpl.
      apply NoDup_app; [exact Hn | constructor; [tauto | constructor] |].
      intros x Hx [<-|[]]. contradiction.
Qed.

Lemma set_nonempty k v o : JsObj.set k v o <> [].
Proof.
  intros H. pose proof (get_set_same _ k v o) as G. rewrite H in G. discriminate.
Qed.

Lemma update_insert_index n k v w o :
  JsObj.get k o = None ->
  JsObj.update k v (JsObj.insert_index n k w o) = JsObj.insert_index n k v o.
Proof.
  induction o as [|[k' v'] o IH]; simpl; intros H.
  - now rewrite String.eqb_refl.
  - destruct (String.eqb k' k) eqn:E; [discriminate|].
    destruct (JsObj.array_index k') as [m|]; [destruct (m <? n)%N|]; simpl;
      rewrite ?E, ?String.eqb_refl; try reflexivity.
    now rewrite IH.
Qed.

Lemma update_app_new k v w o :
  JsObj.get k o = None ->
  JsObj.update k v (o ++ [(k, w)])%list = (o ++ [(k, v)])%list.
Proof.
  induction o as [|[k' v'] o IH]; simpl; intros H.
  - now rewrite String.eqb_refl.
  - destruct (String.eqb k' k) eqn:E; [discriminate|]. now rewrite IH.
Qed.

(** Assigning a new property twice in a row is assigning it the second
    value: the first assignment has fixed its place. *)
Lemma set_set_new k v w o :
  JsObj.get k o = None -> JsObj.set k v (JsObj.set k w o) = JsObj.set k v o.
Proof.
  intros H. unfold JsObj.set at 1. unfold JsObj.has. rewrite get_set_same.
  unfold JsObj.set, JsObj.has. rewrite H.
  destruct (JsObj.array_index k).
  - now apply update_insert_index.
  - now apply update_app_new.
Qed.

End JsObjKeys.

Module ScanFacts.
Import Terark SchemaWords ScanWords.

Lemma typed_set (A : Type) t (s : A) (tm : jsobj A) :
  NoDup (JsObj.keys tm) -> typed (JsObj.set t s tm).
Proof. intros H. split; [apply set_nonempty | now apply NoDup_set]. Qed.

(** What one turn of the analyser's loop leaves in [result]: the
    result as it was, for the name of an inherited member, or one more
    type under the key. *)
Lemma analyseField_result host maxDepth st kv :
  result (analyseField host maxDepth st kv) = result st
  \/ exists s,
       result (analyseField host maxDepth st kv)
       = JsObj.set (normalizeKey (fst kv))
           (JsObj.set (varietyTypeOf (snd kv)) s
              (read (JsObj.get (normalizeKey (fst kv)) (result st)) []))
           (result st).
Proof.
  unfold analyseField.
  set (key := normalizeKey (fst kv)). set (type := varietyTypeOf (snd kv)).
  destruct (JsObj.get key (result st)) as [tm|] eqn:G.
  - right. exists (if String.eqb type "Object" then Shared else Marked).
    unfold assign. rewrite G. destruct (String.eqb type "Object"); reflexivity.
  - destruct (inherited host key).
    + left. unfold assign. rewrite G. destruct (String.eqb type "Object"); reflexivity.
    + right. exists (if String.eqb type "Object" then Shared else Marked).
      unfold assign. rewrite get_set_same. cbn [read].
      destruct (String.eqb type "Object"); cbn [result]; now apply set_set_new.
Qed.

Lemma analyseDocumentterark_typed host document maxDepth k tm :
  In (k, tm) (result (analyseDocumentterark host document maxDepth)) -> typed tm.
Proof.
  unfold analyseDocumentterark.
  assert (H : forall st,
             (forall k tm, In (k, tm) (result st) -> typed tm) ->
             forall k tm,
               In (k, tm) (result (fold_left (analyseField host maxDepth) document st)) ->
               typed tm).
  { induction document as [|kv d IH]; intros st Hst; simpl; [exact Hst|].
    apply IH. intros k' tm' Hin.
    destruct (analyseField_result host maxDepth st kv) as [Hs|(s & Hs)];
      rewrite Hs in Hin; [eauto|].
    apply In_set in Hin. destruct Hin as [Hin|Hin]; [|eauto].
    injection Hin as _ ->. apply typed_set.
    destruct (JsObj.get (normalizeKey (fst kv)) (result st)) eqn:G; simpl.
    - apply get_In in G. apply Hst in G. apply G.
    - constructor. }
  apply H. intros k' tm' [].
Qed.

Lemma view_typed a k tm :
  (forall k tm, In (k, tm) (result a) -> typed tm) -> In (k, tm) (view a) -> typed tm.
Proof.
  intros H Hin. unfold view in Hin. apply in_map_iff in Hin.
  destruct Hin as ([k0 tm0] & [= <- <-] & Hin). cbn [fst snd].
  destruct (H _ _ Hin) as [Hne Hnd]. split.
  - destruct tm0; [contradiction | discriminate].
  - unfold JsObj.keys. rewrite map_map. exact Hnd.
Qed.

Lemma keys_bumpTypes ks : forall ts t,
  In t (JsObj.keys ts) -> In t (JsObj.keys (bumpTypes ks ts)).
Proof.
  unfold bumpTypes. induction ks as [|k ks IH]; intros ts t H; simpl; [exact H|].
  apply IH. apply In_keys_get. apply In_keys_get in H.
  destruct (JsObj.get k ts); rewrite get_set; destruct (String.eqb k t); congruence.
Qed.

Lemma keys_newTypes ks t : In t ks -> In t (JsObj.keys (newTypes ks)).
Proof.
  unfold newTypes. generalize (@nil (string * Z)) as ts.
  induction ks as [|k ks IH]; intros ts H; simpl in *; [contradiction|].
  destruct H as [->|H]; [|now apply IH].
  clear IH. assert (G : In t (JsObj.keys (JsObj.set t 1 ts))).
  { apply In_keys_get. rewrite get_set_same. discriminate. }
  revert G. generalize (JsObj.set t 1 ts). induction ks as [|k ks IH]; intros ts' G; simpl.
  - exact G.
  - apply IH. apply In_keys_get. apply In_keys_get in G.
    rewrite get_set. destruct (String.eqb k t); congruence.
Qed.

(** A type map that does not spell [Object] has another name. *)
Lemma typed_other (tm : jsobj shape) :
  typed tm -> String.eqb (JsObj.keys_string tm) "Object" = false ->
  exists t, In t (JsObj.keys tm) /\ t <> "Object".
Proof.
  intros [Hne Hnd] E. apply String.eqb_neq in E.
  destruct tm as [|[x sx] [|[y sy] r]]; [contradiction| |].
  - exists x. split; [now left|]. intros ->. now apply E.
  - simpl in Hnd. inversion Hnd as [|? ? Hx _]; subst.
    destruct (string_dec x "Object") as [->|Hx'].
    + exists y. split; [right; now left|]. intros ->. apply Hx. now left.
    + exists x. split; [now left | exact Hx'].
Qed.

Lemma mergeKey_covered agg kv :
  typed (snd kv) ->
  (forall k e, In (k, e) agg -> covered e) ->
  forall k e, In (k, e) (mergeKey agg kv) -> covered e.
Proof.
  intros Ht Hagg k e. unfold mergeKey.
  destruct (JsObj.get (fst kv) agg) as [existing|] eqn:G.
  - intros Hin. apply In_set in Hin. destruct Hin as [Hin|Hin]; [|eauto].
    injection Hin as _ ->.
    apply get_In in G. apply Hagg in G. intros V. cbn [value] in V.
    destruct (G V) as (t & Hin & Hne). exists t. split; [|exact Hne].
    cbn [types]. now apply keys_bumpTypes.
  - destruct (String.eqb (JsObj.keys_string (snd kv)) "Object") eqn:E;
      intros Hin; apply In_set in Hin; destruct Hin as [Hin|Hin]; eauto;
      injection Hin as _ ->.
    + intros V. discriminate.
    + intros _. destruct (typed_other _ Ht E) as (t & Hin & Hne).
      exists t. split; [|exact Hne]. cbn [types]. now apply keys_newTypes.
Qed.

Lemma mergeDocumentterark_covered d : forall agg,
  (forall k tm, In (k, tm) d -> typed tm) ->
  (forall k e, In (k, e) agg -> covered e) ->
  forall k e, In (k, e) (mergeDocumentterark d agg) -> covered e.
Proof.
  unfold mergeDocumentterark.
  induction d as [|[k0 tm0] d IH]; intros agg Hd Hagg; simpl; [exact Hagg|].
  apply IH; [intros; eapply Hd; right; eauto|].
  apply mergeKey_covered; [|exact Hagg]. apply (Hd k0). now left.
Qed.

Lemma covered_present agg :
  (forall k e, In (k, e) agg -> covered e) -> snapshots_present agg = true.
Proof.
  intros H. unfold snapshots_present. apply forallb_forall. intros [k e] Hin. cbn [snd].
  destruct (value e) eqn:V; [reflexivity|].
  destruct (H _ _ Hin V) as (t & Ht & Hne).
  apply existsb_exists. exists t. split; [exact Ht|].
  apply String.eqb_neq in Hne. now rewrite Hne.
Qed.

(** Whatever the host, the documents and the configuration, the
    aggregate of a scan that returns has a snapshot wherever the
    converter reads one. *)
Lemma scan_snapshots_present host config documents agg :
  Script.reduce documents (reduceDocumentsterark host config) [] = Returns agg ->
  snapshots_present agg = true.
Proof.
  intros H. apply covered_present.
  assert (G : forall acc,
             (forall k e, In (k, e) acc -> covered e) ->
             Script.reduce documents (reduceDocumentsterark host config) acc = Returns agg ->
             forall k e, In (k, e) agg -> covered e).
  { clear H. induction documents as [|doc ds IH]; intros acc Hacc H.
    - cbn [Script.reduce] in H. injection H as <-. exact Hacc.
    - cbn [Script.reduce] in H. unfold reduceDocumentsterark in H at 1.
      destruct (serializeDocterark doc (maxDepth config)) as [flat|e]; [|discriminate].
      revert H. apply IH.
      apply mergeDocumentterark_covered; [|exact Hacc].
      intros k tm. apply view_typed. apply analyseDocumentterark_typed. }
  apply (G [] (fun k e (Hin : In (k, e) []) => match Hin with end) H).
Qed.

End ScanFacts.

(** ** The flat flattener *)

Module DotFacts.
Import StrFacts.

Lemma dotfree_app a b : Str.dotfree (a ++ b) = Str.dotfree a && Str.dotfree b.
Proof.
  induction a as [|x a IH]; simpl; [reflexivity|].
  rewrite IH. now rewrite andb_assoc.
Qed.

Lemma ends_with_dot_app_dot a : Str.ends_with_dot (a ++ ".") = true.
Proof.
  induction a as [|x a IH]; [reflexivity|].
  simpl. destruct (a ++ ".") eqn:E; [destruct a; discriminate | exact IH].
Qed.

Lemma ends_with_dot_cons x a :
  a <> "" -> Str.ends_with_dot (String x a) = Str.ends_with_dot a.
Proof. destruct a; [contradiction | reflexivity]. Qed.

Lemma ends_with_dot_not_dotfree q :
  Str.ends_with_dot q = true -> Str.dotfree q = false.
Proof.
  induction q as [|x q IH]; [discriminate|].
  destruct q as [|y q].
  - simpl. intros ->. reflexivity.
  - intros H. rewrite ends_with_dot_cons in H by discriminate.
    change (Str.dotfree (String x (String y q)))
      with (negb (Ascii.eqb x Str.dot) && Str.dotfree (String y q)).
    rewrite (IH H). apply andb_false_r.
Qed.

(** A path that ends in a dot and starts [a ++ b], with no dot in [b],
    starts [a]. *)
Lemma dotted_prefix q : forall rest a b,
  q ++ rest = a ++ b -> Str.dotfree b = true -> Str.ends_with_dot q = true ->
  exists r, a = q ++ r.
Proof.
  induction q as [|x q IH]; intros rest a b E Hb Hq; [discriminate|].
  destruct a as [|y a].
  - simpl in E. subst b. apply ends_with_dot_not_dotfree in Hq.
    change (String x (q ++ rest)) with (String x q ++ rest) in Hb.
    rewrite dotfree_app, Hq in Hb. discriminate.
  - simpl in E. injection E as -> E.
    destruct q as [|z q].
    + exists a. reflexivity.
    + rewrite ends_with_dot_cons in Hq by discriminate.
      destruct (IH _ _ _ E Hb Hq) as (r & ->). exists r. reflexivity.
Qed.

(** A proper prefix of [a ++ "."] is a prefix of [a]. *)
Lemma proper_prefix_dot q : forall rest a,
  q ++ rest = a ++ "." -> rest <> "" -> exists r, a = q ++ r.
Proof.
  induction q as [|x q IH]; intros rest a E Hr.
  - exists a. reflexivity.
  - destruct a as [|y a].
    + simpl in E. injection E as _ E. destruct q; [|discriminate].
      simpl in E. contradiction.
    + simpl in E. injection E as -> E.
      destruct (IH _ _ E Hr) as (r & ->). exists r. reflexivity.
Qed.

(** Two names without a dot that are followed by a dot, or by nothing,
    at the same place are one name. *)
Lemma dotfree_segment a : forall b ta r,
  Str.dotfree a = true -> Str.dotfree b = true ->
  a ++ ta = b ++ "." ++ r -> (ta = "" \/ exists t, ta = "." ++ t) -> a = b.
Proof.
  induction a as [|x a IH]; intros b ta r Ha Hb E Ht.
  - destruct b as [|y b]; [reflexivity|].
    simpl in E. destruct Ht as [->|(t & ->)]; [discriminate|].
    injection E as <- _. discriminate.
  - destruct b as [|y b].
    + simpl in E. injection E as -> _. discriminate.
    + simpl in E. injection E as -> E. f_equal.
      simpl in Ha, Hb. apply andb_prop in Ha, Hb.
      apply (IH b ta r); tauto.
Qed.

Lemma dotfree_string_of_uint d : Str.dotfree (NilEmpty.string_of_uint d) = true.
Proof. induction d; simpl; auto. Qed.

Lemma dotfree_of_nat i : Str.dotfree (Str.of_nat i) = true.
Proof. apply dotfree_string_of_uint. Qed.

Lemma of_nat_inj i j : Str.of_nat i = Str.of_nat j -> i = j.
Proof.
  unfold Str.of_nat. intros H. apply DecimalNat.Unsigned.to_uint_inj.
  pose proof (NilEmpty.usu (Nat.to_uint i)) as Hi. rewrite H, NilEmpty.usu in Hi. congruence.
Qed.

End DotFacts.

Module FlatFacts.
Import Flat FlatWords StrFacts DotFacts.

Section WithConfig.
Variable config : Config.
Variable excludeSubkeys : jsobj bool.
Variable arrayRegex : Str.pattern.

#[warning="-notation-for-abbreviation"]
Notation serialize := (Quiet.serialize config excludeSubkeys arrayRegex).
#[warning="-notation-for-abbreviation"]
Notation visit := (visit config excludeSubkeys arrayRegex).
#[warning="-notation-for-abbreviation"]
Notation turn := (turn config excludeSubkeys arrayRegex).
#[warning="-notation-for-abbreviation"]
Notation entries := (entries config).

(** The two loops of [serialize] are one loop over the entries, which
    a turn can end. *)
Lemma serialize_turns document parentKey maxDepth result :
  Flat.serialize config excludeSubkeys arrayRegex document parentKey maxDepth result
  = if JsObj.has (normalizeParent arrayRegex parentKey) excludeSubkeys then Returns result
    else turns (turn document parentKey maxDepth) (entries document) result.
Proof.
  destruct document; cbn [Flat.serialize FlatWords.entries];
    destruct (JsObj.has _ excludeSubkeys); try reflexivity.
  - (* an array *)
    generalize O as i. revert result.
    induction elems as [|value es IH]; intros result i; [reflexivity|].
    cbn [List.length seq map combine turns]. unfold FlatWords.turn at 1.
    cbn [shadowsHasOwnProperty fst snd].
    destruct (isHash value && (1 <? maxDepth)).
    + destruct (Flat.serialize _ _ _ value _ _ _); [apply IH | reflexivity].
    + apply IH.
  - (* a record *)
    match goal with
    | |- ?loop fields result = _ =>
        assert (H : forall fs result,
                   loop fs result
                   = turns (turn (VObject fields) parentKey maxDepth) fs result)
    end.
    { induction fs as [|[key value] fs IH]; intros res; [reflexivity|].
      cbn [turns]. unfold FlatWords.turn at 1. cbn [fst snd].
      destruct (shadowsHasOwnProperty (VObject fields)); [reflexivity|].
      destruct (isHash value && (1 <? maxDepth)).
      - destruct (Flat.serialize _ _ _ value _ _ _); [apply IH | reflexivity].
      - apply IH. }
    apply H.
Qed.

(** The two loops of the quiet [serialize] are one fold over the
    entries. *)
Lemma serialize_eq document parentKey maxDepth result :
  serialize document parentKey maxDepth result
  = if JsObj.has (normalizeParent arrayRegex parentKey) excludeSubkeys then result
    else fold_left (visit parentKey maxDepth) (entries document) result.
Proof.
  destruct document; cbn [Quiet.serialize FlatWords.entries];
    destruct (JsObj.has _ excludeSubkeys); try reflexivity.
  - (* an array *)
    generalize O as i. revert result.
    induction elems as [|value es IH]; intros result i; [reflexivity|].
    cbn [List.length seq map combine fold_left]. rewrite <- IH. reflexivity.
  - (* a record *)
    revert result.
    induction fields as [|[key value] fs IH]; intros result; [reflexivity|].
    cbn [fold_left]. rewrite <- IH. reflexivity.
Qed.

(** Induction on a document through the entries of its nodes. *)
Lemma entries_ind (P : jsval -> Prop) :
  (forall v, (forall k c, In (k, c) (entries v) -> P c) -> P v) -> forall v, P v.
Proof.
  intros H. induction v using jsval_rect'; apply H; cbn [FlatWords.entries];
    try (intros k c []).
  - intros k c Hin. apply in_combine_r in Hin.
    rewrite Forall_forall in H0. auto.
  - intros k c Hin. rewrite Forall_forall in H0. apply (H0 (k, c)). exact Hin.
Qed.

(** What [serialize] returns, when it returns, is what the quiet loops
    give. *)
Lemma serialize_quiet : forall document parentKey maxDepth result r,
  Flat.serialize config excludeSubkeys arrayRegex document parentKey maxDepth result
  = Returns r ->
  r = serialize document parentKey maxDepth result.
Proof.
  intros document. induction document as [v IH] using entries_ind.
  intros parentKey maxDepth result r. rewrite serialize_turns, serialize_eq.
  destruct (JsObj.has _ excludeSubkeys); [now intros [= <-]|].
  assert (Hsub : forall kv, In kv (entries v) -> In kv (entries v)) by auto.
  revert result Hsub. generalize (entries v) at 1 3 4 as l.
  induction l as [|[key c] l IHl]; intros result Hsub H.
  - cbn [turns] in H. now injection H as <-.
  - cbn [turns fold_left] in *.
    destruct (turn v parentKey maxDepth result (key, c)) as [r1|e] eqn:E; [|discriminate].
    assert (E1 : r1 = visit parentKey maxDepth result (key, c)).
    { unfold FlatWords.turn in E. unfold FlatWords.visit. cbn [fst snd] in *.
      destruct (shadowsHasOwnProperty v); [discriminate|].
      destruct (isHash c && (1 <? maxDepth)).
      - apply (IH key c (Hsub _ (or_introl eq_refl))) in E. exact E.
      - now injection E as <-. }
    subst r1. apply IHl; [|exact H]. intros kv Hkv. apply Hsub. now right.
Qed.

(** [serialize] assigns only under keys that start with its
    [parentKey]. *)
Lemma serialize_frame k : forall document parentKey maxDepth result,
  (forall r, k <> parentKey ++ r) ->
  JsObj.get k (serialize document parentKey maxDepth result) = JsObj.get k result.
Proof.
  intros document. induction document as [v IH] using entries_ind.
  intros parentKey maxDepth result Hk. rewrite serialize_eq.
  destruct (JsObj.has _ excludeSubkeys); [reflexivity|].
  revert result. remember (entries v) as l eqn:El. clear El.
  induction l as [|[key c] l IHl]; intros result; [reflexivity|].
  cbn [fold_left]. rewrite IHl.
  2: { intros k0 c0 Hin. apply (IH k0 c0). now right. }
  unfold FlatWords.visit. cbn [fst snd].
  assert (G : JsObj.get k (JsObj.set (parentKey ++ key) c result) = JsObj.get k result).
  { apply get_set_other. intros E. now apply (Hk key). }
  destruct (isHash c && (1 <? maxDepth)); [|exact G].
  rewrite (IH key c (or_introl eq_refl)); [exact G|].
  intros r E. apply (Hk (key ++ "." ++ r)). rewrite E.
  now rewrite !append_assoc.
Qed.

Lemma has_serialize_frame k document parentKey maxDepth result :
  (forall r, k <> parentKey ++ r) ->
  JsObj.has k (serialize document parentKey maxDepth result) = JsObj.has k result.
Proof. intros H. unfold JsObj.has. now rewrite serialize_frame. Qed.

End WithConfig.

(** What the assumptions on the names give for the entries of a node. *)
Lemma entries_dotfree config v k c :
  Str.dotfree (arrayEscape config) = true -> keys_dotfree v = true ->
  In (k, c) (entries config v) -> Str.dotfree k = true /\ keys_dotfree c = true.
Proof.
  intros He Hv Hin. destruct v; cbn [entries] in Hin; try contradiction.
  - (* an array *)
    split.
    + apply in_combine_l in Hin. apply in_map_iff in Hin. destruct Hin as (i & <- & _).
      unfold escaped. now rewrite !dotfree_app, He, dotfree_of_nat.
    + apply in_combine_r in Hin. cbn [keys_dotfree] in Hv.
      induction elems as [|e es IH]; [contradiction|].
      apply andb_prop in Hv. destruct Hin as [->|Hin]; [tauto | apply IH; tauto].
  - (* a record *)
    cbn [keys_dotfree] in Hv.
    induction fields as [|[k0 c0] fs IH]; [contradiction|].
    apply andb_prop in Hv. destruct Hv as [Hv Hfs]. apply andb_prop in Hv.
    destruct Hin as [Hin|Hin]; [|apply IH; tauto].
    injection Hin as -> ->. tauto.
Qed.

(** A document without a field named [hasOwnProperty] has none at the
    node, and none in the entries of the node. *)
Lemma entries_callable config v :
  callable v = true ->
  shadowsHasOwnProperty v = false
  /\ forall k c, In (k, c) (entries config v) -> callable c = true.
Proof.
  intros Hv. destruct v; cbn [entries shadowsHasOwnProperty];
    try (split; [reflexivity | intros k c []]).
  - (* an array *)
    split; [reflexivity|]. intros k c Hin. apply in_combine_r in Hin.
    cbn [callable] in Hv.
    induction elems as [|e es IH]; [contradiction|].
    apply andb_prop in Hv. destruct Hin as [->|Hin]; [tauto | apply IH; tauto].
  - (* a record *)
    cbn [callable] in Hv. apply andb_prop in Hv. destruct Hv as [Hh Hc].
    split; [now apply negb_true_iff in Hh|]. clear Hh. intros k c Hin.
    induction fields as [|[k0 c0] fs IH]; [contradiction|].
    apply andb_prop in Hc. destruct Hin as [Hin|Hin]; [|apply IH; tauto].
    injection Hin as _ ->. tauto.
Qed.

(** On such a document [serialize] returns. *)
Lemma serialize_returns config excludeSubkeys arrayRegex : forall document,
  callable document = true ->
  forall parentKey maxDepth result,
    Flat.serialize config excludeSubkeys arrayRegex document parentKey maxDepth result
    = Returns (Quiet.serialize config excludeSubkeys arrayRegex document parentKey maxDepth
                 result).
Proof.
  intros document. induction document as [v IH] using (entries_ind config).
  intros Hv parentKey maxDepth result. rewrite serialize_turns, serialize_eq.
  destruct (JsObj.has _ excludeSubkeys); [reflexivity|].
  destruct (entries_callable config v Hv) as [Hs Hc].
  assert (Hsub : forall kv, In kv (entries config v) -> In kv (entries config v)) by auto.
  revert result Hsub. generalize (entries config v) at 1 3 4 as l.
  induction l as [|[key c] l IHl]; intros result Hsub; [reflexivity|].
  cbn [turns fold_left].
  assert (E : turn config excludeSubkeys arrayRegex v parentKey maxDepth result (key, c)
              = Returns (visit config excludeSubkeys arrayRegex parentKey maxDepth result
                           (key, c))).
  { unfold turn, visit. rewrite Hs. cbn [fst snd].
    destruct (isHash c && (1 <? maxDepth)); [|reflexivity].
    apply (IH key c (Hsub _ (or_introl eq_refl))).
    apply (Hc key c). apply Hsub. now left. }
  rewrite E. apply IHl. intros kv Hkv. apply Hsub. now right.
Qed.

End FlatFacts.

Module PruneFacts.
Import Flat FlatWords StrFacts DotFacts FlatFacts.

(** The set built from the list of excluded paths holds each path with
    a dot appended, and nothing else. *)
Lemma has_excludeSet k items :
  JsObj.has k (excludeSet items) = existsb (fun item => String.eqb (item ++ ".") k) items.
Proof.
  unfold excludeSet.
  assert (H : forall acc,
             JsObj.has k (fold_left (fun result item => JsObj.set (item ++ ".") true result)
                            items acc)
             = JsObj.has k acc || existsb (fun item => String.eqb (item ++ ".") k) items).
  { induction items as [|item items IH]; intros acc; simpl.
    - now rewrite orb_false_r.
    - rewrite IH, has_set. destruct (String.eqb (item ++ ".") k); simpl.
      + now rewrite orb_true_r.
      + reflexivity. }
  rewrite H. reflexivity.
Qed.

Lemma dotted_nonempty item : String.eqb (item ++ ".") "" = false.
Proof. destruct item; reflexivity. Qed.

(** The empty path is in no such set. *)
Lemma empty_not_excluded items : JsObj.has "" (excludeSet items) = false.
Proof.
  rewrite has_excludeSet.
  induction items as [|item items IH]; [reflexivity|].
  cbn [existsb]. now rewrite dotted_nonempty, IH.
Qed.

Lemma strip_prefix_digitfree p : forall s s1,
  digitfree s = true -> Str.strip_prefix p s = Some s1 -> digitfree s1 = true.
Proof.
  induction p as [|a p IH]; intros s s1 Hs; simpl.
  - now intros [= <-].
  - destruct s as [|b s]; [discriminate|].
    simpl in Hs. apply andb_prop in Hs.
    destruct (Ascii.eqb a b); [apply IH; tauto | discriminate].
Qed.

Lemma digits_then_digitfree post s :
  digitfree s = true -> Str.digits_then post s = None.
Proof.
  destruct s as [|c s]; [reflexivity|]. simpl. intros H. apply andb_prop in H.
  destruct (Str.is_digit c); [destruct H; discriminate | reflexivity].
Qed.

(** A path without a digit has no ordinal to normalise. *)
Lemma replace_ordinals_digitfree pre post repl s :
  digitfree s = true -> Str.replace_ordinals pre post repl s = s.
Proof.
  unfold Str.replace_ordinals. induction s as [|c s IH]; [reflexivity|].
  intros H. cbn [Str.replace_from].
  assert (M : Str.match_ordinal pre post (String c s) = None).
  { unfold Str.match_ordinal.
    destruct (Str.strip_prefix (String Str.dot pre) (String c s)) as [s1|] eqn:E;
      [|reflexivity].
    apply digits_then_digitfree. eapply strip_prefix_digitfree; eauto. }
  rewrite M. f_equal. apply IH. simpl in H. apply andb_prop in H. tauto.
Qed.

(** An escape without a character of the pattern syntax has no dot. *)
Lemma syntax_free_dotfree s : Str.syntax_free s = true -> Str.dotfree s = true.
Proof.
  induction s as [|c s IH]; [reflexivity|].
  cbn [Str.syntax_free Str.dotfree]. intros H. apply andb_prop in H. destruct H as [Hc Hs].
  rewrite (IH Hs), andb_true_r. apply negb_true_iff in Hc. apply negb_true_iff.
  unfold Str.syntax_character in Hc. cbn [existsb] in Hc.
  repeat (apply orb_false_elim in Hc; destruct Hc as [? Hc]).
  assumption.
Qed.

Section WithConfig.
Variable config : Config.
Variable excludeSubkeys : jsobj bool.
Variable arrayRegex : Str.pattern.
Hypothesis escape_dotfree : Str.dotfree (arrayEscape config) = true.

(** The quiet [serialize] keeps the result guarded when every
    accumulated path above its [parentKey] has passed the check. *)
Lemma serialize_guarded : forall document,
  keys_dotfree document = true ->
  forall parentKey maxDepth result,
    (forall q rest, parentKey = q ++ rest -> rest <> "" -> Str.ends_with_dot q = true ->
                    JsObj.has (normalizeParent arrayRegex q) excludeSubkeys = false) ->
    guarded excludeSubkeys arrayRegex result ->
    guarded excludeSubkeys arrayRegex
      (Quiet.serialize config excludeSubkeys arrayRegex document parentKey maxDepth result).
Proof.
  intros document. induction document as [v IH] using (entries_ind config).
  intros Hv parentKey maxDepth result Habove Hres. rewrite serialize_eq.
  destruct (JsObj.has (normalizeParent arrayRegex parentKey) excludeSubkeys) eqn:E;
    [exact Hres|].
  assert (Hall : forall q rest, parentKey = q ++ rest -> Str.ends_with_dot q = true ->
                   JsObj.has (normalizeParent arrayRegex q) excludeSubkeys = false).
  { intros q [|x rest] Hq Hd.
    - rewrite append_nil_r in Hq. now subst q.
    - eapply Habove; eauto. discriminate. }
  assert (Hl : forall kv, In kv (entries config v) -> In kv (entries config v)) by auto.
  revert result Hres Hl.
  generalize (entries config v) at 1 3 as l.
  induction l as [|[key c] l IHl]; intros result Hres Hl; [exact Hres|].
  cbn [fold_left]. apply IHl; [|intros; apply Hl; now right].
  destruct (entries_dotfree config v key c escape_dotfree Hv (Hl _ (or_introl eq_refl)))
    as [Hkey Hc].
  assert (G : guarded excludeSubkeys arrayRegex (JsObj.set (parentKey ++ key) c result)).
  { intros q rest Hhas Hd. rewrite has_set in Hhas. apply orb_prop in Hhas.
    destruct Hhas as [Hhas|Hhas]; [|eapply Hres; eauto].
    apply String.eqb_eq in Hhas. symmetry in Hhas.
    destruct (dotted_prefix _ _ _ _ Hhas Hkey Hd) as (r & Hr). eapply Hall; eauto. }
  unfold visit. cbn [fst snd].
  destruct (isHash c && (1 <? maxDepth)); [|exact G].
  apply (IH key c (Hl _ (or_introl eq_refl)) Hc); [|exact G].
  intros q rest Hq Hr Hd.
  change (parentKey ++ key ++ ".") with (parentKey ++ (key ++ ".")) in Hq.
  rewrite <- append_assoc in Hq. symmetry in Hq.
  destruct (proper_prefix_dot _ _ _ Hq Hr) as (r & Hr').
  symmetry in Hr'.
  destruct (dotted_prefix _ _ _ _ Hr' Hkey Hd) as (r' & Hr''). eapply Hall; eauto.
Qed.

End WithConfig.

End PruneFacts.

(** ** Accumulated paths and their normal form *)

Module NormalFacts.
Import FlatWords StrFacts DotFacts PruneFacts.

Lemma strip_prefix_spec p : forall s r, Str.strip_prefix p s = Some r -> s = p ++ r.
Proof.
  induction p as [|a p IH]; intros s r H.
  - cbn in H. now injection H as ->.
  - destruct s as [|b s]; [discriminate|]. cbn [Str.strip_prefix] in H.
    destruct (Ascii.eqb_spec a b) as [->|]; [|discriminate].
    cbn [append]. f_equal. now apply IH.
Qed.

Lemma strip_prefix_app p s : Str.strip_prefix p (p ++ s) = Some s.
Proof.
  induction p as [|a p IH]; [reflexivity|].
  cbn [append Str.strip_prefix]. now rewrite Ascii.eqb_refl.
Qed.

Lemma strip_prefix_append p : forall s x r,
  Str.strip_prefix p s = Some r -> Str.strip_prefix p (s ++ x) = Some (r ++ x).
Proof.
  intros s x r H. apply strip_prefix_spec in H. subst s.
  rewrite append_assoc. apply strip_prefix_app.
Qed.

(** A literal without a dot that is no prefix of a text is no prefix
    of the text followed by a dot. *)
Lemma strip_prefix_dot p : forall s x,
  Str.dotfree p = true -> Str.strip_prefix p s = None ->
  Str.strip_prefix p (s ++ String Str.dot x) = None.
Proof.
  induction p as [|a p IH]; intros s x Hp H; [discriminate|].
  cbn [Str.dotfree] in Hp. apply andb_prop in Hp. destruct Hp as [Ha Hp].
  destruct s as [|b s]; cbn [append Str.strip_prefix] in *.
  - apply negb_true_iff in Ha. now rewrite Ha.
  - destruct (Ascii.eqb a b); [now apply IH | reflexivity].
Qed.

Lemma span_digits_app s : s = fst (span_digits s) ++ snd (span_digits s).
Proof.
  induction s as [|c s IH]; [reflexivity|].
  cbn [span_digits]. destruct (Str.is_digit c); cbn [fst snd append]; [|reflexivity].
  now rewrite <- IH.
Qed.

(** A text whose run of digits is not empty starts with a digit. *)
Lemma span_digits_head s :
  fst (span_digits s) <> "" -> exists d s', s = String d s' /\ Str.is_digit d = true.
Proof.
  destruct s as [|c s]; [now intros H|].
  cbn [span_digits]. destruct (Str.is_digit c) eqn:E; [|now intros H].
  intros _. eauto.
Qed.

(** [\d+] followed by a literal that starts with no digit, on a text
    followed by a dot: the run of digits, then the literal. *)
Lemma digits_then_span a post : forall s x,
  Str.is_digit a = false ->
  Str.digits_then (String a post) (s ++ String Str.dot x)
  = if String.eqb (fst (span_digits s)) ""
    then None
    else Str.strip_prefix (String a post) (snd (span_digits s) ++ String Str.dot x).
Proof.
  intros s x Ha. induction s as [|c s IH]; [reflexivity|].
  cbn [append Str.digits_then span_digits].
  destruct (Str.is_digit c) eqn:Ec; [|reflexivity].
  cbn [fst snd String.eqb]. rewrite IH.
  destruct (String.eqb (fst (span_digits s)) "") eqn:E.
  - apply String.eqb_eq in E. rewrite (span_digits_app s) at 1. now rewrite E.
  - destruct (Str.strip_prefix (String a post) (snd (span_digits s) ++ String Str.dot x));
      [reflexivity|].
    apply String.eqb_neq in E. destruct (span_digits_head s E) as (d & s' & -> & Hd).
    cbn [append Str.strip_prefix].
    destruct (Ascii.eqb_spec a d) as [->|]; [congruence | reflexivity].
Qed.

Lemma dotfree_strip_prefix p : forall s r,
  Str.dotfree s = true -> Str.strip_prefix p s = Some r -> Str.dotfree r = true.
Proof.
  intros s r Hs H. apply strip_prefix_spec in H. subst s.
  rewrite dotfree_app in Hs. apply andb_prop in Hs. tauto.
Qed.

Lemma dotfree_span s : Str.dotfree s = true -> Str.dotfree (snd (span_digits s)) = true.
Proof.
  intros Hs. rewrite (span_digits_app s), dotfree_app in Hs. apply andb_prop in Hs. tauto.
Qed.

Section WithEscape.
Variable E : string.
Hypothesis escape_dotfree : Str.dotfree E = true.
Hypothesis escape_digitfree : digitfree E = true.

(** The literal after the digits starts with no digit. *)
Lemma post_head : exists a post, E ++ "." = String a post /\ Str.is_digit a = false.
Proof.
  destruct E as [|a e]; [exists Str.dot, ""; split; reflexivity|].
  exists a, (e ++ "."). split; [reflexivity|].
  cbn [digitfree] in escape_digitfree. apply andb_prop in escape_digitfree.
  destruct escape_digitfree as [Ha _]. now apply negb_true_iff in Ha.
Qed.

(** The pattern of [serialize] at a dot: it matches when the segment
    after the dot is the key of an array element, up to the next dot. *)
Lemma match_segment seg rest :
  Str.dotfree seg = true ->
  Str.match_ordinal E (E ++ ".") (String Str.dot (seg ++ String Str.dot rest))
  = if ordinal E seg then Some rest else None.
Proof.
  intros Hseg. unfold Str.match_ordinal, ordinal.
  cbn [Str.strip_prefix]. rewrite Ascii.eqb_refl.
  destruct (Str.strip_prefix E seg) as [s1|] eqn:S.
  - rewrite (strip_prefix_append E seg (String Str.dot rest) s1 S).
    destruct post_head as (a & post & Hp & Ha). rewrite Hp.
    rewrite (digits_then_span a post s1 rest Ha).
    destruct (String.eqb (fst (span_digits s1)) ""); [reflexivity|]. cbn [negb andb].
    rewrite <- Hp.
    destruct (String.eqb_spec (snd (span_digits s1)) E) as [->|Hne].
    + change (E ++ String Str.dot rest) with (E ++ "." ++ rest).
      rewrite <- append_assoc. apply strip_prefix_app.
    + destruct (Str.strip_prefix (E ++ ".") (snd (span_digits s1) ++ String Str.dot rest))
        as [r|] eqn:S2; [|reflexivity].
      exfalso. apply Hne. apply strip_prefix_spec in S2. rewrite append_assoc in S2.
      apply (dotfree_segment (snd (span_digits s1)) E ("." ++ rest) r);
        [|exact escape_dotfree | exact S2 | right; eexists; reflexivity].
      apply dotfree_span. eapply dotfree_strip_prefix; eauto.
  - now rewrite strip_prefix_dot.
Qed.

#[warning="-notation-for-abbreviation"]
Notation R := (Str.replace_from E (E ++ ".") "." O).

Lemma replace_nondot c s :
  Ascii.eqb Str.dot c = false -> R (String c s) = String c (R s).
Proof.
  intros H. cbn [Str.replace_from]. unfold Str.match_ordinal. cbn [Str.strip_prefix].
  now rewrite H.
Qed.

(** No match starts inside a segment. *)
Lemma replace_dotfree seg x : Str.dotfree seg = true -> R (seg ++ x) = seg ++ R x.
Proof.
  induction seg as [|c seg IH]; intros H; [reflexivity|].
  cbn [Str.dotfree] in H. apply andb_prop in H. destruct H as [Hc Hs].
  cbn [append]. rewrite replace_nondot.
  - now rewrite IH.
  - apply negb_true_iff in Hc. now rewrite Ascii.eqb_sym.
Qed.

Lemma replace_from_skip_app repl a : forall b,
  Str.replace_from E (E ++ ".") repl (String.length a) (a ++ b)
  = Str.replace_from E (E ++ ".") repl O b.
Proof. induction a as [|c a IH]; intros b; [reflexivity|]. cbn. apply IH. Qed.

(** At a dot: the key of an array element goes with the dot after it,
    any other segment stays. *)
Lemma replace_dot_segment seg rest :
  Str.dotfree seg = true ->
  R (String Str.dot (seg ++ String Str.dot rest))
  = if ordinal E seg then "." ++ R rest else "." ++ seg ++ R (String Str.dot rest).
Proof.
  intros Hseg. cbn [Str.replace_from]. rewrite (match_segment seg rest Hseg).
  destruct (ordinal E seg).
  - f_equal.
    replace (seg ++ String Str.dot rest) with ((seg ++ ".") ++ rest)
      by now rewrite append_assoc.
    rewrite length_append, Nat.add_sub. apply replace_from_skip_app.
  - cbn [append]. f_equal. now apply replace_dotfree.
Qed.

Lemma replace_dot_end : R "." = ".".
Proof.
  cbn [Str.replace_from]. unfold Str.match_ordinal. cbn [Str.strip_prefix].
  rewrite Ascii.eqb_refl. destruct E; reflexivity.
Qed.

Lemma head_regular a rest :
  no_adjacent_ordinals E (a :: rest) = true -> ordinal E a = true ->
  match rest with b :: _ => ordinal E b = false | [] => True end.
Proof.
  destruct rest as [|b rest]; [trivial|]. cbn [no_adjacent_ordinals].
  intros H Ha. apply andb_prop in H. destruct H as [H _]. rewrite Ha in H.
  now destruct (ordinal E b).
Qed.

(** What the check reads for an accumulated path, from a dot and from
    the start of a segment. *)
Lemma normalise_paths : forall segs,
  forallb Str.dotfree segs = true -> no_adjacent_ordinals E segs = true ->
  R (String Str.dot (accumulated segs)) = "." ++ accumulated (normalised E segs)
  /\ (match segs with seg :: _ => ordinal E seg = false | [] => True end ->
      R (accumulated segs) = accumulated (normalised E segs)).
Proof.
  induction segs as [|seg rest IH]; intros Hd Ha.
  - split; [apply replace_dot_end | reflexivity].
  - cbn [forallb] in Hd. apply andb_prop in Hd. destruct Hd as [Hseg Hd].
    assert (Ha' : no_adjacent_ordinals E rest = true).
    { cbn [no_adjacent_ordinals] in Ha. apply andb_prop in Ha. tauto. }
    destruct (IH Hd Ha') as [IH1 IH2].
    cbn [accumulated normalised filter].
    change (seg ++ "." ++ accumulated rest) with (seg ++ String Str.dot (accumulated rest)).
    split.
    + rewrite (replace_dot_segment seg (accumulated rest) Hseg).
      destruct (ordinal E seg) eqn:Eo; cbn [negb].
      * rewrite IH2; [reflexivity|]. apply (head_regular seg rest Ha Eo).
      * rewrite IH1. reflexivity.
    + intros Eo. rewrite Eo. cbn [negb accumulated].
      rewrite (replace_dotfree seg _ Hseg), IH1. reflexivity.
Qed.

(** The check reads the accumulated path of a regular path of keys as
    the words say: with its array-index segments left out. *)
Lemma normalise_regular segs :
  regular E segs = true ->
  Str.replace_ordinals E (E ++ ".") "." (accumulated segs) = accumulated (normalised E segs).
Proof.
  unfold regular. intros H. apply andb_prop in H. destruct H as [H Ha].
  apply andb_prop in H. destruct H as [Hd Hh].
  apply (normalise_paths segs Hd Ha).
  destruct segs; [trivial | now apply negb_true_iff in Hh].
Qed.

End WithEscape.

(** A segment without a digit is no key of an array element. *)
Lemma ordinal_digitfree E seg : digitfree seg = true -> ordinal E seg = false.
Proof.
  intros H. unfold ordinal.
  destruct (Str.strip_prefix E seg) as [s1|] eqn:S; [|reflexivity].
  apply (strip_prefix_digitfree E seg s1 H) in S.
  destruct s1 as [|c s1]; [reflexivity|].
  cbn [digitfree] in S. apply andb_prop in S. destruct S as [Hc _].
  apply negb_true_iff in Hc. cbn [span_digits]. now rewrite Hc.
Qed.

Lemma accumulated_concat segs :
  segs <> [] -> accumulated segs = String.concat "." segs ++ ".".
Proof.
  induction segs as [|seg rest IH]; [contradiction|]. intros _.
  destruct rest as [|seg2 rest]; [reflexivity|].
  cbn [accumulated] in *. rewrite IH by discriminate.
  change (String.concat "." (seg :: seg2 :: rest))
    with (seg ++ "." ++ String.concat "." (seg2 :: rest)).
  now rewrite !append_assoc.
Qed.

Lemma accumulated_app p : forall q, accumulated (p ++ q) = accumulated p ++ accumulated q.
Proof.
  induction p as [|seg p IH]; intros q; [reflexivity|].
  cbn [app accumulated]. now rewrite IH, !append_assoc.
Qed.

Lemma ends_with_dot_accumulated segs :
  segs <> [] -> Str.ends_with_dot (accumulated segs) = true.
Proof. intros H. rewrite accumulated_concat by exact H. apply ends_with_dot_app_dot. Qed.

(** A regular path starts with a key that stays. *)
Lemma normalised_nonempty E segs :
  segs <> [] -> regular E segs = true -> normalised E segs <> [].
Proof.
  destruct segs as [|seg rest]; [contradiction|]. intros _ H.
  unfold regular in H. apply andb_prop in H. destruct H as [H _].
  apply andb_prop in H. destruct H as [_ H].
  cbn [normalised filter]. rewrite H. discriminate.
Qed.

Lemma no_adjacent_prefix E p : forall q,
  no_adjacent_ordinals E (p ++ q) = true -> no_adjacent_ordinals E p = true.
Proof.
  induction p as [|a p IH]; intros q H; [reflexivity|].
  cbn [app no_adjacent_ordinals] in *. apply andb_prop in H. destruct H as [H1 H2].
  rewrite (IH q H2), andb_true_r.
  destruct p as [|b p]; [reflexivity | exact H1].
Qed.

Lemma regular_prefix E p q : p <> [] -> regular E (p ++ q) = true -> regular E p = true.
Proof.
  intros Hp H. unfold regular in *. apply andb_prop in H. destruct H as [H Ha].
  apply andb_prop in H. destruct H as [Hd Hh].
  rewrite forallb_app in Hd. apply andb_prop in Hd. destruct Hd as [Hd _].
  rewrite Hd, (no_adjacent_prefix E p q Ha).
  destruct p as [|a p]; [contradiction|]. cbn [app] in Hh. now rewrite Hh.
Qed.

(** What the check finds for a regular path: the set holds the
    normalised path with its dot exactly when the list of excluded
    paths holds the normalised path. *)
Lemma excluded_regular E items segs :
  Str.dotfree E = true -> digitfree E = true ->
  segs <> [] -> regular E segs = true ->
  JsObj.has (Str.replace_ordinals E (E ++ ".") "." (accumulated segs)) (excludeSet items) = true
  <-> In (String.concat "." (normalised E segs)) items.
Proof.
  intros Hd Hg Hne Hr. rewrite (normalise_regular E Hd Hg segs Hr).
  rewrite accumulated_concat by now apply normalised_nonempty.
  rewrite has_excludeSet, existsb_exists. split.
  - intros (item & Hin & Heq). apply String.eqb_eq in Heq.
    apply append_inv_r in Heq. now subst item.
  - intros Hin. eexists. split; [exact Hin | apply String.eqb_refl].
Qed.

End NormalFacts.

(** C2, as the code has it: the set holds each excluded path with a dot
    appended, and [serialize] checks the accumulated path of a node
    (which ends in that dot) before it visits the node's children.  So
    take a host that reads the escape literally (an escape without a
    character of the pattern syntax), an escape without digits, and a
    document whose names have no dot; when the flattener returns, and
    the path of keys to a node, with its array-index segments left out,
    is an excluded path (the path being regular: its first key is no
    array index and no array index follows another), no key that starts
    with the accumulated path of that node is in the flattened output;
    with [excludeSubkeys = ["a.b"]] no key that starts with ["a.b."] is
    there.  The key of the excluded node itself is not concerned: it is
    recorded by the turn of the loop that finds it. *)
Theorem excluded_subtrees_pruned
    (host : Host) (config : Config) (excludeSubkeys : list string) (doc : jsval)
    (maxDepth : Z) (result : jsobj jsval) :
  HostWords.literal host config ->
  FlatWords.digitfree (arrayEscape config) = true ->
  FlatWords.keys_dotfree doc = true ->
  Flat.serializeDoc host config (excludeSet excludeSubkeys) doc maxDepth = Returns result ->
  (forall segs rest,
      segs <> [] ->
      FlatWords.regular (arrayEscape config) segs = true ->
      In (String.concat "." (FlatWords.normalised (arrayEscape config) segs)) excludeSubkeys ->
      JsObj.has (String.concat "." segs ++ "." ++ rest) result = false)
  /\ (excludeSubkeys = ["a.b"] ->
      forall rest, JsObj.has ("a.b." ++ rest) result = false).
Proof.
  intros (Hplain & Hre) Hg Hd Hret.
  pose proof (PruneFacts.syntax_free_dotfree _ Hplain) as He.
  unfold Flat.serializeDoc in Hret. rewrite Hre in Hret.
  apply FlatFacts.serialize_quiet in Hret.
  set (re := Str.replace_ordinals (arrayEscape config) (arrayEscape config ++ ".")) in *.
  assert (G : FlatWords.guarded (excludeSet excludeSubkeys) re result).
  { subst result. apply PruneFacts.serialize_guarded; auto.
    - intros q rest Hq Hr _. destruct q; [|discriminate]. simpl in Hq. now subst rest.
    - intros q rest H. discriminate. }
  assert (K : forall segs rest,
             segs <> [] ->
             FlatWords.regular (arrayEscape config) segs = true ->
             In (String.concat "." (FlatWords.normalised (arrayEscape config) segs))
               excludeSubkeys ->
             JsObj.has (String.concat "." segs ++ "." ++ rest) result = false).
  { intros segs rest Hne Hr Hin.
    destruct (JsObj.has (String.concat "." segs ++ "." ++ rest) result) eqn:Hhas;
      [|reflexivity].
    rewrite <- StrFacts.append_assoc, <- (NormalFacts.accumulated_concat segs Hne) in Hhas.
    pose proof (G _ _ Hhas (NormalFacts.ends_with_dot_accumulated segs Hne)) as Hex.
    apply (NormalFacts.excluded_regular (arrayEscape config) excludeSubkeys segs He Hg Hne Hr)
      in Hin.
    unfold Flat.normalizeParent, Str.replace in Hex. subst re. congruence. }
  split; [exact K|].
  intros -> rest.
  apply (K ["a"; "b"] rest); [discriminate | | ].
  - unfold FlatWords.regular. cbn [forallb FlatWords.no_adjacent_ordinals].
    now rewrite !NormalFacts.ordinal_digitfree.
  - unfold FlatWords.normalised. cbn [filter].
    rewrite !NormalFacts.ordinal_digitfree by reflexivity. now left.
Qed.

Lemma excluded_subtrees_pruned_witness :
  (forall segs rest,
      segs <> [] ->
      FlatWords.regular (arrayEscape Samples.config) segs = true ->
      In (String.concat "." (FlatWords.normalised (arrayEscape Samples.config) segs)) ["a.b"] ->
      JsObj.has (String.concat "." segs ++ "." ++ rest)
        [ ("a", VObject [("b", VObject [("c", VNumber 1)])]);
          ("a.b", VObject [("c", VNumber 1)]) ]
      = false)
  /\ (["a.b"] = ["a.b"] ->
      forall rest,
        JsObj.has ("a.b." ++ rest)
          [ ("a", VObject [("b", VObject [("c", VNumber 1)])]);
            ("a.b", VObject [("c", VNumber 1)]) ]
        = false).
Proof.
  apply (excluded_subtrees_pruned HostWords.shell Samples.config ["a.b"] Samples.docAbc 99).
  - repeat split; reflexivity.
  - reflexivity.
  - reflexivity.
  - reflexivity.
Defined.

(** The claim C2 fails for the key of the excluded node itself: with
    [excludeSubkeys = ["a.b"]] the flattening of [{a: {b: {c: 1}}}]
    holds the path ["a.b"], mapped to [{c: 1}]; its child ["a.b.c"] is
    not there. *)
Lemma excluded_parent_key_kept :
  exists result,
    Flat.serializeDoc HostWords.shell Samples.config (excludeSet ["a.b"]) Samples.docAbc 99
    = Returns result
    /\ result = [ ("a", VObject [("b", VObject [("c", VNumber 1)])]);
                 ("a.b", VObject [("c", VNumber 1)]) ]
    /\ JsObj.has "a.b" result = true.
Proof. eexists. split; [reflexivity|]. split; reflexivity. Qed.

Module RecordFacts.
Import Flat FlatWords StrFacts DotFacts FlatFacts.

Lemma distinct_NoDup l : distinct l = true -> NoDup l.
Proof.
  induction l as [|x l IH]; simpl; intros H; [constructor|].
  apply andb_prop in H. destruct H as [Hx Hl]. constructor; [|auto].
  intros Hin. apply negb_true_iff in Hx.
  assert (Ht : existsb (String.eqb x) l = true).
  { apply existsb_exists. exists x. split; [exact Hin | apply String.eqb_refl]. }
  congruence.
Qed.

Lemma keys_combine (A : Type) (ks : list string) : forall (vs : list A),
  List.length ks = List.length vs -> JsObj.keys (combine ks vs) = ks.
Proof.
  induction ks as [|k ks IH]; intros [|v vs] H; simpl in *; try discriminate; [reflexivity|].
  f_equal. apply IH. now injection H.
Qed.

Lemma escaped_inj config i j : escaped config i = escaped config j -> i = j.
Proof.
  unfold escaped. intros H. apply append_inv_l in H. apply append_inv_r in H.
  now apply of_nat_inj.
Qed.

(** What the assumption on repeated names gives for the entries of a
    node. *)
Lemma entries_unique config v :
  keys_unique v = true ->
  NoDup (JsObj.keys (entries config v))
  /\ forall k c, In (k, c) (entries config v) -> keys_unique c = true.
Proof.
  intros Hv. destruct v; cbn [entries]; try (split; [constructor | intros k c []]).
  - (* an array *)
    split.
    + rewrite keys_combine by now rewrite length_map, length_seq.
      apply Injective_map_NoDup; [|apply seq_NoDup].
      intros i j. apply escaped_inj.
    + intros k c Hin. apply in_combine_r in Hin. cbn [keys_unique] in Hv.
      induction elems as [|e es IH]; [contradiction|].
      apply andb_prop in Hv. destruct Hin as [->|Hin]; [tauto | apply IH; tauto].
  - (* a record *)
    cbn [keys_unique] in Hv. apply andb_prop in Hv. destruct Hv as [Hd Hc]. split.
    + now apply distinct_NoDup.
    + clear Hd. intros k c Hin.
      induction fields as [|[k0 c0] fs IH]; [contradiction|].
      apply andb_prop in Hc. destruct Hin as [Hin|Hin]; [|apply IH; tauto].
      injection Hin as _ ->. tauto.
Qed.

(** Only records and arrays have entries, and they are hash-like. *)
Lemma entries_isHash config v k c : In (k, c) (entries config v) -> isHash v = true.
Proof. destruct v; cbn [entries]; try contradiction; reflexivity. Qed.

Lemma concat_cons seg rest :
  String.concat "." (seg :: rest)
  = seg ++ match rest with [] => "" | _ :: _ => "." ++ String.concat "." rest end.
Proof. destruct rest; [now rewrite append_nil_r | reflexivity]. Qed.

Section WithConfig.
Variable config : Config.
Variable excludeSubkeys : jsobj bool.
Variable arrayRegex : Str.pattern.
Hypothesis escape_dotfree : Str.dotfree (arrayEscape config) = true.

(** The turns of the loop for other names leave the keys under the
    name [seg] as they are. *)
Lemma fold_visit_frame parentKey maxDepth seg tail :
  Str.dotfree seg = true ->
  (tail = "" \/ exists t, tail = "." ++ t) ->
  forall l result,
    (forall k c, In (k, c) l -> Str.dotfree k = true /\ k <> seg) ->
    JsObj.get (parentKey ++ seg ++ tail)
      (fold_left (visit config excludeSubkeys arrayRegex parentKey maxDepth) l result)
    = JsObj.get (parentKey ++ seg ++ tail) result.
Proof.
  intros Hseg Htail. induction l as [|[k c] l IHl]; intros result Hl; [reflexivity|].
  cbn [fold_left]. rewrite IHl by (intros k0 c0 Hin; apply (Hl k0 c0); now right).
  destruct (Hl k c (or_introl eq_refl)) as [Hk Hne].
  unfold visit. cbn [fst snd].
  assert (G : JsObj.get (parentKey ++ seg ++ tail) (JsObj.set (parentKey ++ k) c result)
              = JsObj.get (parentKey ++ seg ++ tail) result).
  { apply get_set_other. intros E. apply append_inv_l in E.
    destruct Htail as [->|(t & ->)].
    - rewrite append_nil_r in E. contradiction.
    - rewrite E, dotfree_app in Hk. cbn in Hk. rewrite andb_false_r in Hk. discriminate. }
  destruct (isHash c && (1 <? maxDepth)); [|exact G].
  rewrite serialize_frame; [exact G|].
  intros r E. rewrite !append_assoc in E. apply append_inv_l in E.
  apply Hne. symmetry. eapply dotfree_segment; eauto.
Qed.

(** Every position the checks let the quiet [serialize] reach within
    its depth is recorded with the value found there. *)
Lemma serialize_records : forall document,
  keys_dotfree document = true -> keys_unique document = true ->
  forall parentKey maxDepth result seg rest v,
    descend config (seg :: rest) document = Some v ->
    Z.of_nat (List.length (seg :: rest)) <= maxDepth ->
    reachable excludeSubkeys arrayRegex parentKey (seg :: rest) = true ->
    JsObj.get (parentKey ++ String.concat "." (seg :: rest))
      (Quiet.serialize config excludeSubkeys arrayRegex document parentKey maxDepth result)
    = Some v.
Proof.
  intros document. induction document as [doc IH] using (entries_ind config).
  intros Hdot Huni parentKey maxDepth result seg rest v Hdesc Hlen Hreach.
  rewrite serialize_eq. cbn [reachable] in Hreach. apply andb_prop in Hreach.
  destruct Hreach as [Hopen Hreach]. apply negb_true_iff in Hopen. rewrite Hopen.
  cbn [descend] in Hdesc.
  destruct (JsObj.get seg (entries config doc)) as [c|] eqn:G; [|discriminate].
  destruct (entries_unique config doc Huni) as [Hnd Hcu].
  pose proof (entries_dotfree config doc) as Hcd.
  assert (Hseg : Str.dotfree seg = true).
  { apply get_In in G. now apply (Hcd seg c escape_dotfree Hdot). }
  rewrite concat_cons.
  set (tail := match rest with [] => "" | _ :: _ => "." ++ String.concat "." rest end).
  assert (Htail : tail = "" \/ exists t, tail = "." ++ t).
  { subst tail. destruct rest; [now left | right; eexists; reflexivity]. }
  assert (Hsub : forall kv, In kv (entries config doc) -> In kv (entries config doc)) by auto.
  revert result Hsub Hnd G.
  generalize (entries config doc) at 1 3 4 5 as l.
  induction l as [|[key c0] l IHl]; intros result Hsub Hnd G; [discriminate|].
  cbn [fold_left]. cbn [JsObj.get] in G. cbn [JsObj.keys map fst] in Hnd.
  inversion Hnd as [|? ? Hnotin Hnd']; subst.
  destruct (String.eqb key seg) eqn:E.
  - apply String.eqb_eq in E. subst key. injection G as ->.
    rewrite fold_visit_frame; auto.
    + unfold visit. cbn [fst snd].
      pose proof (Hsub _ (or_introl eq_refl)) as Hin.
      destruct rest as [|seg2 rest'].
      * subst tail. rewrite append_nil_r. cbn [descend] in Hdesc. injection Hdesc as ->.
        destruct (isHash v && (1 <? maxDepth)); [|apply get_set_same].
        rewrite serialize_frame; [apply get_set_same|].
        intros r Er. rewrite append_assoc in Er.
        apply (f_equal String.length) in Er. rewrite !length_append in Er. simpl in Er. lia.
      * assert (Hh : isHash c = true).
        { cbn [descend] in Hdesc.
          destruct (JsObj.get seg2 (entries config c)) eqn:G2; [|discriminate].
          apply get_In in G2. eapply entries_isHash; eauto. }
        assert (Hd : (1 <? maxDepth) = true).
        { apply Z.ltb_lt. cbn [List.length] in Hlen. lia. }
        rewrite Hh, Hd. cbn [andb]. subst tail.
        replace (parentKey ++ seg ++ "." ++ String.concat "." (seg2 :: rest'))
          with ((parentKey ++ seg ++ ".") ++ String.concat "." (seg2 :: rest'))
          by now rewrite !append_assoc.
        apply (IH seg c Hin); auto.
        -- now apply (Hcd seg c escape_dotfree Hdot).
        -- eapply Hcu; eauto.
        -- cbn [List.length] in *. lia.
    + intros k' c' Hin'. split.
      * apply (Hcd k' c' escape_dotfree Hdot). apply Hsub. now right.
      * intros ->. apply Hnotin. apply in_map_iff. exists (seg, c'). split; auto.
  - apply IHl; auto. intros kv Hkv. apply Hsub. now right.
Qed.

End WithConfig.

(** A path that no excluded path cuts off passes every check on its
    way. *)
Lemma unpruned_reachable E items path :
  Str.dotfree E = true -> digitfree E = true ->
  unpruned E items path ->
  reachable (excludeSet items) (Str.replace_ordinals E (E ++ ".")) "" path = true.
Proof.
  intros Hd Hg Hu.
  assert (H : forall rest pre,
             pre <> [] -> path = (pre ++ rest)%list ->
             reachable (excludeSet items) (Str.replace_ordinals E (E ++ "."))
               (accumulated pre) rest = true).
  { induction rest as [|seg rest IH]; intros pre Hpre Hp; [reflexivity|].
    cbn [reachable]. apply andb_true_intro. split.
    - apply negb_true_iff. destruct Hu as [->|[Hr Hn]]; [reflexivity|].
      destruct (JsObj.has _ (excludeSet items)) eqn:Hhas; [|reflexivity]. exfalso.
      unfold normalizeParent, Str.replace in Hhas.
      apply (NormalFacts.excluded_regular E items pre Hd Hg Hpre) in Hhas.
      + apply (Hn pre (seg :: rest) Hp Hpre); [discriminate | exact Hhas].
      + rewrite Hp in Hr. now apply NormalFacts.regular_prefix in Hr.
    - replace (accumulated pre ++ seg ++ ".") with (accumulated (pre ++ [seg])).
      + apply IH; [now destruct pre | now rewrite <- app_assoc].
      + rewrite NormalFacts.accumulated_app. cbn [accumulated].
        now rewrite StrFacts.append_nil_r.
  }
  destruct path as [|seg rest]; [reflexivity|].
  cbn [reachable].
  change (normalizeParent (Str.replace_ordinals E (E ++ ".")) "") with "".
  rewrite PruneFacts.empty_not_excluded. cbn [negb andb].
  change ("" ++ seg ++ ".") with (accumulated [seg]).
  apply H; [discriminate | reflexivity].
Qed.

End RecordFacts.

(** C10: the flattener records every node it visits, leaf or not.  Take
    a host that reads the escape literally, an escape without digits,
    and a document whose names have no dot, are not repeated in a
    record, and are never [hasOwnProperty]: the flattener returns, and
    every position at the end of a path of keys no longer than the
    depth budget, which no excluded path above it cuts off, is a key of
    the result (the keys of the path joined by dots) mapped to the raw
    value found there, whether that value is a leaf, a record or an
    array. *)
Theorem serializeDoc_records_every_node
    (host : Host) (config : Config) (excludeSubkeys : list string) (doc : jsval)
    (maxDepth : Z) (path : list string) (v : jsval) :
  HostWords.literal host config ->
  FlatWords.digitfree (arrayEscape config) = true ->
  FlatWords.keys_dotfree doc = true ->
  FlatWords.keys_unique doc = true ->
  FlatWords.callable doc = true ->
  path <> [] ->
  Z.of_nat (List.length path) <= maxDepth ->
  FlatWords.unpruned (arrayEscape config) excludeSubkeys path ->
  FlatWords.descend config path doc = Some v ->
  exists result,
    Flat.serializeDoc host config (excludeSet excludeSubkeys) doc maxDepth = Returns result
    /\ JsObj.get (String.concat "." path) result = Some v.
Proof.
  intros (Hplain & Hre) Hg Hd Hu Hc Hp Hlen Hr Hdesc.
  pose proof (PruneFacts.syntax_free_dotfree _ Hplain) as He.
  destruct path as [|seg rest]; [contradiction|].
  unfold Flat.serializeDoc. rewrite Hre.
  rewrite (FlatFacts.serialize_returns config (excludeSet excludeSubkeys) _ doc Hc).
  eexists. split; [reflexivity|].
  apply (RecordFacts.serialize_records config (excludeSet excludeSubkeys) _ He doc Hd Hu
           "" maxDepth [] seg rest v Hdesc Hlen).
  now apply RecordFacts.unpruned_reachable.
Qed.

Lemma serializeDoc_records_every_node_witness :
  (exists result,
      Flat.serializeDoc HostWords.shell Samples.config (excludeSet []) Samples.docAb 2
      = Returns result
      /\ JsObj.get (String.concat "." ["a"]) result = Some (VObject [("b", VNumber 1)]))
  /\ (exists result,
         Flat.serializeDoc HostWords.shell Samples.config (excludeSet []) Samples.docAb 2
         = Returns result
         /\ JsObj.get (String.concat "." ["a"; "b"]) result = Some (VNumber 1)).
Proof.
  split.
  - apply (serializeDoc_records_every_node HostWords.shell Samples.config [] Samples.docAb 2
             ["a"] (VObject [("b", VNumber 1)]));
      [repeat split; reflexivity | reflexivity | reflexivity | reflexivity | reflexivity
      | discriminate | simpl; lia | now left | reflexivity].
  - apply (serializeDoc_records_every_node HostWords.shell Samples.config [] Samples.docAb 2
             ["a"; "b"] (VNumber 1));
      [repeat split; reflexivity | reflexivity | reflexivity | reflexivity | reflexivity
      | discriminate | simpl; lia | now left | reflexivity].
Defined.

(** The instance C10 names: [{a: {b: 1}}] flattened with any depth of
    two or more, whatever the escape the host has compiled, gives the
    path ["a"] mapped to [{b: 1}] and the path ["a.b"] mapped to [1]. *)
Example serializeDoc_nested_sample (host : Host) (config : Config) (maxDepth : Z) :
  RegExp host (Flat.serializeSource config) <> None ->
  2 <= maxDepth ->
  Flat.serializeDoc host config [] Samples.docAb maxDepth
  = Returns [("a", VObject [("b", VNumber 1)]); ("a.b", VNumber 1)].
Proof.
  intros Hre H. unfold Flat.serializeDoc, Samples.docAb.
  destruct (RegExp host (Flat.serializeSource config)) as [re|]; [|contradiction].
  cbn [Flat.serialize].
  assert (E : (1 <? maxDepth) = true) by (apply Z.ltb_lt; lia).
  unfold JsObj.has at 1. cbn [JsObj.get]. cbn [shadowsHasOwnProperty].
  unfold JsObj.has at 1. cbn [JsObj.get String.eqb Ascii.eqb Bool.eqb].
  cbn [Flat.isHash isArray typeof instanceof].
  cbn [String.eqb Ascii.eqb Bool.eqb negb orb andb]. rewrite E.
  unfold JsObj.has. cbn [JsObj.get String.eqb Ascii.eqb Bool.eqb]. reflexivity.
Qed.

(** * Further properties of the code *)

(** ** The classifier and the test for recursion *)

(** X1: [isHash], the test [serialize] makes before it descends into a
    value, holds exactly of the values the classifier names ["Array"],
    ["Object"] or ["null"]: the wrappers (dates, identifiers, binary
    data, long integers) and the primitives are leaves, and [null]
    passes the test although it has nothing to visit. *)
Theorem isHash_iff_classified (v : jsval) :
  Flat.isHash v = true <-> In (varietyTypeOf v) TableWords.hashTags.
Proof.
  destruct v; cbv; split; intros H; try reflexivity; try discriminate;
    try tauto; repeat (destruct H as [H|H]; try discriminate H); try contradiction.
Qed.

(** ** The configuration and the two flatteners at depth one *)

Module ShallowFacts.
Import Flat FlatWords StrFacts FlatFacts.

(** Reading a property after a run of assignments under names that are
    all different. *)
Lemma get_fold_set (A : Type) k : forall (l : list (string * A)) (acc : jsobj A),
  NoDup (JsObj.keys l) ->
  JsObj.get k (fold_left (fun result kv => JsObj.set (fst kv) (snd kv) result) l acc)
  = match JsObj.get k l with Some v => Some v | None => JsObj.get k acc end.
Proof.
  induction l as [|[k0 v0] l IH]; intros acc Hnd; [reflexivity|].
  cbn [fold_left fst snd JsObj.get]. cbn [JsObj.keys map fst] in Hnd.
  inversion Hnd as [|? ? Hnotin Hnd']; subst.
  rewrite IH by exact Hnd'. rewrite get_set.
  destruct (String.eqb k0 k) eqn:E; [|reflexivity].
  apply String.eqb_eq in E. subst k0.
  now rewrite (notin_get_None _ k l Hnotin).
Qed.

(** One turn of the loop of the shape-preserving flattener. *)
Lemma serializeDocterark_turns doc maxDepth :
  Terark.serializeDocterark doc maxDepth
  = turns (fun result kv =>
             if shadowsHasOwnProperty doc then Throws TypeError
             else Returns (JsObj.set (fst kv) (snd kv) result))
      (forin doc) [].
Proof.
  unfold Terark.serializeDocterark. generalize (@nil (string * jsval)) as result.
  induction (forin doc) as [|[key value] fs IH]; intros result; [reflexivity|].
  cbn [turns fst snd]. destruct (shadowsHasOwnProperty doc); [reflexivity | apply IH].
Qed.

Lemma fold_left_pointwise (A B : Type) (f g : A -> B -> A) :
  (forall a b, f a b = g a b) -> forall l a, fold_left f l a = fold_left g l a.
Proof.
  intros H. induction l as [|b l IH]; intros a; [reflexivity|].
  cbn [fold_left]. now rewrite H, IH.
Qed.

Lemma turns_pointwise (A B : Type) (f g : A -> B -> outcome A) :
  (forall a b, f a b = g a b) -> forall l a, turns f l a = turns g l a.
Proof.
  intros H. induction l as [|b l IH]; intros a; [reflexivity|].
  cbn [turns]. rewrite H. destruct (g a b); [apply IH | reflexivity].
Qed.

(** A loop in which no turn throws is a fold. *)
Lemma turns_returns (A B : Type) (f : A -> B -> outcome A) (g : A -> B -> A) :
  (forall a b, f a b = Returns (g a b)) ->
  forall l a, turns f l a = Returns (fold_left g l a).
Proof.
  intros H. induction l as [|b l IH]; intros a; [reflexivity|].
  cbn [turns fold_left]. rewrite H. apply IH.
Qed.

(** A loop in which every turn throws, over a list that is not empty. *)
Lemma turns_throws (A B : Type) (f : A -> B -> outcome A) e b l a :
  (forall a b, f a b = Throws e) -> turns f (b :: l) a = Throws e.
Proof. intros H. cbn [turns]. now rewrite H. Qed.

(** What the shape-preserving flattener does: it throws on a document
    with a field named [hasOwnProperty], and copies any other. *)
Lemma serializeDocterark_spec doc maxDepth :
  Terark.serializeDocterark doc maxDepth
  = if shadowsHasOwnProperty doc then Throws TypeError
    else Returns (Quiet.serializeDocterark doc).
Proof.
  rewrite serializeDocterark_turns. unfold Quiet.serializeDocterark.
  destruct (shadowsHasOwnProperty doc) eqn:E.
  - destruct doc; try discriminate. cbn [forin].
    destruct fields as [|kv fs]; [discriminate|]. now apply turns_throws.
  - now apply turns_returns.
Qed.

End ShallowFacts.

(** X2: the set-like object [readConfig] makes of [excludeSubkeys]
    holds each path the caller listed with a dot appended, and nothing
    else; without a list from the caller it is empty. *)
Theorem readConfig_excludeSubkeys
    (count : option string -> jsval -> Z) (collection : string)
    (configProvider : ConfigProvider) (k : string) :
  JsObj.has k (excludeSubkeys (readConfig count collection configProvider)) = true
  <-> exists items item,
        given_excludeSubkeys configProvider = Some items
        /\ In item items /\ k = item ++ ".".
Proof.
  cbn [readConfig excludeSubkeys]. rewrite PruneFacts.has_excludeSet. split.
  - intros H. apply existsb_exists in H. destruct H as (item & Hin & E).
    apply String.eqb_eq in E.
    destruct (given_excludeSubkeys configProvider) as [items|]; [|contradiction].
    exists items, item. auto.
  - intros (items & item & -> & Hin & ->). cbn [read].
    apply existsb_exists. exists item. split; [exact Hin | apply String.eqb_refl].
Qed.

(** X3: with a depth budget of one or less the flat flattener does not
    descend.  In a host that reads the escape literally, on a record,
    and whatever the excluded paths, it ends as the shape-preserving
    flattener ends: both return the record's own fields with their raw
    values, or both throw the [TypeError] of a field named
    [hasOwnProperty]. *)
Theorem serializeDoc_depth_one
    (host : Host) (config : Config) (items : list string) (fields : list (string * jsval))
    (maxDepth : Z) :
  HostWords.literal host config ->
  maxDepth <= 1 ->
  Flat.serializeDoc host config (excludeSet items) (VObject fields) maxDepth
  = Terark.serializeDocterark (VObject fields) maxDepth.
Proof.
  intros (_ & Hre) H. unfold Flat.serializeDoc. rewrite Hre.
  rewrite FlatFacts.serialize_turns, ShallowFacts.serializeDocterark_turns.
  change (Flat.normalizeParent
            (Str.replace_ordinals (arrayEscape config) (arrayEscape config ++ ".")) "")
    with "".
  rewrite PruneFacts.empty_not_excluded. cbn [FlatWords.entries forin].
  apply ShallowFacts.turns_pointwise. intros result [key value].
  unfold FlatWords.turn. cbn [fst snd append].
  assert (E : (1 <? maxDepth) = false) by (apply Z.ltb_ge; lia).
  now rewrite E, andb_false_r.
Qed.

Lemma serializeDoc_depth_one_witness :
  Flat.serializeDoc HostWords.shell Samples.config (excludeSet ["a"])
    (VObject [("a", VObject [("b", VNumber 1)])]) 1
  = Terark.serializeDocterark (VObject [("a", VObject [("b", VNumber 1)])]) 1.
Proof.
  apply (serializeDoc_depth_one HostWords.shell Samples.config ["a"]
           [("a", VObject [("b", VNumber 1)])] 1).
  - repeat split; reflexivity.
  - lia.
Defined.

(** X4: the shape-preserving flattener throws a [TypeError] on a
    document that has a field named [hasOwnProperty], and copies every
    other document: when no two fields of the document have one name, a
    name reads in the copy as it reads in the document (and a name the
    document has not is not in the copy). *)
Theorem serializeDocterark_copies (doc : jsval) (maxDepth : Z) :
  (shadowsHasOwnProperty doc = true ->
   Terark.serializeDocterark doc maxDepth = Throws TypeError)
  /\ (shadowsHasOwnProperty doc = false ->
      exists result,
        Terark.serializeDocterark doc maxDepth = Returns result
        /\ (FlatWords.distinct (JsObj.keys (forin doc)) = true ->
            forall k, JsObj.get k result = JsObj.get k (forin doc))).
Proof.
  rewrite ShallowFacts.serializeDocterark_spec. split; intros ->; [reflexivity|].
  eexists. split; [reflexivity|]. intros H k. unfold Quiet.serializeDocterark.
  rewrite ShallowFacts.get_fold_set by now apply RecordFacts.distinct_NoDup.
  destruct (JsObj.get k (forin doc)); reflexivity.
Qed.

Lemma serializeDocterark_copies_witness :
  Terark.serializeDocterark Samples.docShadow 99 = Throws TypeError
  /\ exists result,
       Terark.serializeDocterark Samples.docAB 99 = Returns result
       /\ forall k, JsObj.get k result = JsObj.get k (forin Samples.docAB).
Proof.
  split.
  - apply (proj1 (serializeDocterark_copies Samples.docShadow 99)). reflexivity.
  - destruct (proj2 (serializeDocterark_copies Samples.docAB 99) eq_refl) as (result & H & K).
    exists result. split; [exact H | apply K; reflexivity].
Defined.

Example serializeDocterark_samples :
  Terark.serializeDocterark Samples.docShadow 99 = Throws TypeError
  /\ Terark.serializeDocterark Samples.docAB 99
     = Returns [("a", VObject [("x", VNumber 1)]); ("b", VObject [("y", VString "s")])].
Proof. split; reflexivity. Qed.

(** ** The flat flattener records nothing but positions within its depth *)

Module SoundFacts.
Import Flat FlatWords StrFacts FlatFacts RecordFacts.

Lemma In_get_NoDup (A : Type) k (v : A) (l : list (string * A)) :
  NoDup (JsObj.keys l) -> In (k, v) l -> JsObj.get k l = Some v.
Proof.
  induction l as [|[k0 v0] l IH]; intros Hnd Hin; [contradiction|].
  cbn [JsObj.keys map fst] in Hnd. inversion Hnd as [|? ? Hnotin Hnd']; subst.
  cbn [JsObj.get]. destruct Hin as [Hin|Hin].
  - injection Hin as -> ->. now rewrite String.eqb_refl.
  - destruct (String.eqb k0 k) eqn:E; [|now apply IH].
    apply String.eqb_eq in E. subst k0. exfalso. apply Hnotin.
    apply in_map_iff. exists (k, v). auto.
Qed.

Section WithConfig.
Variable config : Config.
Variable excludeSubkeys : jsobj bool.
Variable arrayRegex : Str.pattern.

(** A pair of the result of the quiet [serialize] was there before, or
    is a position below the document, no deeper than the budget. *)
Lemma serialize_sound : forall document,
  keys_unique document = true ->
  forall parentKey maxDepth result k v,
    In (k, v) (Quiet.serialize config excludeSubkeys arrayRegex document parentKey maxDepth
                 result) ->
    In (k, v) result
    \/ exists path,
         path <> [] /\ Z.of_nat (List.length path) <= Z.max 1 maxDepth
         /\ k = parentKey ++ String.concat "." path
         /\ descend config path document = Some v.
Proof.
  intros document. induction document as [doc IH] using (entries_ind config).
  intros Huni parentKey maxDepth result k v. rewrite serialize_eq.
  destruct (JsObj.has _ excludeSubkeys); [now left|].
  destruct (entries_unique config doc Huni) as [Hnd Hcu].
  assert (Hsub : forall kv, In kv (entries config doc) -> In kv (entries config doc)) by auto.
  revert result Hsub.
  generalize (entries config doc) at 1 3 as l.
  induction l as [|[key c] l IHl]; intros result Hsub Hin; [now left|].
  cbn [fold_left] in Hin.
  apply IHl in Hin; [|intros kv Hkv; apply Hsub; now right].
  destruct Hin as [Hin|Hin]; [|now right].
  pose proof (Hsub _ (or_introl eq_refl)) as Hc.
  assert (Hget : JsObj.get key (entries config doc) = Some c) by now apply In_get_NoDup.
  assert (Hset : In (k, v) (JsObj.set (parentKey ++ key) c result) ->
                 In (k, v) result
                 \/ exists path,
                      path <> [] /\ Z.of_nat (List.length path) <= Z.max 1 maxDepth
                      /\ k = parentKey ++ String.concat "." path
                      /\ descend config path doc = Some v).
  { intros Hs. apply In_set in Hs. destruct Hs as [Hs|Hs]; [|now left].
    injection Hs as -> ->. right. exists [key]. repeat split.
    - discriminate.
    - cbn [List.length]. lia.
    - cbn [descend]. now rewrite Hget. }
  unfold visit in Hin. cbn [fst snd] in Hin.
  destruct (isHash c && (1 <? maxDepth)) eqn:Ed; [|now apply Hset].
  apply andb_prop in Ed. destruct Ed as [_ Ed]. apply Z.ltb_lt in Ed.
  apply (IH key c Hc (Hcu key c Hc)) in Hin.
  destruct Hin as [Hin|(path & Hp & Hlen & -> & Hdesc)]; [now apply Hset|].
  right. exists (key :: path). repeat split.
  - discriminate.
  - cbn [List.length]. lia.
  - destruct path as [|seg rest]; [contradiction|].
    change (String.concat "." (key :: seg :: rest))
      with (key ++ "." ++ String.concat "." (seg :: rest)).
    now rewrite !append_assoc.
  - cbn [descend]. now rewrite Hget.
Qed.

End WithConfig.

End SoundFacts.

(** X5: the flat flattener records nothing else than the positions of
    the document, and none deeper than its budget.  When no record of
    the document has two fields of one name, every key of what the
    flattener returns is a path of keys joined by dots, of at most
    [maxDepth] keys (one key when the budget is below one), and the
    value recorded is the value found at the end of that path. *)
Theorem serializeDoc_only_positions
    (host : Host) (config : Config) (excludeSubkeys : jsobj bool) (doc : jsval)
    (maxDepth : Z) (result : jsobj jsval) (k : string) (v : jsval) :
  FlatWords.keys_unique doc = true ->
  Flat.serializeDoc host config excludeSubkeys doc maxDepth = Returns result ->
  In (k, v) result ->
  exists path,
    path <> [] /\ Z.of_nat (List.length path) <= Z.max 1 maxDepth
    /\ k = String.concat "." path
    /\ FlatWords.descend config path doc = Some v.
Proof.
  intros Hu Hret Hin. unfold Flat.serializeDoc in Hret.
  destruct (RegExp host (Flat.serializeSource config)) as [re|]; [|discriminate].
  apply FlatFacts.serialize_quiet in Hret. subst result.
  apply SoundFacts.serialize_sound in Hin; [|exact Hu].
  destruct Hin as [[]|Hin]. exact Hin.
Qed.

Lemma serializeDoc_only_positions_witness :
  exists path,
    path <> [] /\ Z.of_nat (List.length path) <= Z.max 1 2
    /\ "a.b" = String.concat "." path
    /\ FlatWords.descend Samples.config path Samples.docAbc
       = Some (VObject [("c", VNumber 1)]).
Proof.
  apply (serializeDoc_only_positions HostWords.shell Samples.config [] Samples.docAbc 2
           [ ("a", VObject [("b", VObject [("c", VNumber 1)])]);
             ("a.b", VObject [("c", VNumber 1)]) ]
           "a.b" (VObject [("c", VNumber 1)])).
  - reflexivity.
  - reflexivity.
  - right. left. reflexivity.
Defined.

(** ** The flat analyser *)

Module AnalyseFlatFacts.
Import Flat AnalyseFlatWords.

Section WithHost.
Variable host : Host.
Variable config : Config.
Variable arrayRegex : Str.pattern.

#[warning="-notation-for-abbreviation"]
Notation analyseKey := (analyseKey host config arrayRegex).
#[warning="-notation-for-abbreviation"]
Notation normalizeKey := (normalizeKey config arrayRegex).

#[warning="-notation-for-abbreviation"]
Notation own := (own host).

(** What one turn leaves: the result as it was, for the name of an
    inherited member, or one more type under the key. *)
Lemma analyseKey_result result kv :
  own result ->
  (inherited host (normalizeKey (fst kv)) <> None /\ analyseKey result kv = result)
  \/ (inherited host (normalizeKey (fst kv)) = None
      /\ analyseKey result kv
         = JsObj.set (normalizeKey (fst kv))
             (JsObj.set (varietyTypeOf (snd kv)) true
                (read (JsObj.get (normalizeKey (fst kv)) result) []))
             result).
Proof.
  intros Hown. unfold Flat.analyseKey.
  set (key := normalizeKey (fst kv)).
  destruct (JsObj.get key result) as [tm|] eqn:G.
  - right. split; [eapply Hown; eauto|]. rewrite G. reflexivity.
  - destruct (inherited host key) eqn:I.
    + left. split; [discriminate|]. rewrite G. reflexivity.
    + right. split; [reflexivity|]. rewrite get_set_same. cbn [read].
      now apply set_set_new.
Qed.

Lemma analyseKey_own result kv : own result -> own (analyseKey result kv).
Proof.
  intros Hown. destruct (analyseKey_result result kv Hown) as [[_ ->]|[I ->]]; [exact Hown|].
  intros key tm G. rewrite get_set in G.
  destruct (String.eqb_spec (normalizeKey (fst kv)) key) as [<-|]; [exact I|].
  eapply Hown; eauto.
Qed.

Lemma analyseKey_keeps result kv key t :
  own result -> marked result key t -> marked (analyseKey result kv) key t.
Proof.
  intros Hown (tm & G & M).
  destruct (analyseKey_result result kv Hown) as [[_ ->]|[_ ->]]; [exists tm; auto|].
  unfold marked. rewrite get_set.
  destruct (String.eqb (normalizeKey (fst kv)) key) eqn:E.
  - apply String.eqb_eq in E. rewrite E, G. cbn [read]. eexists. split; [reflexivity|].
    rewrite get_set. destruct (String.eqb _ t); [reflexivity | exact M].
  - eauto.
Qed.

Lemma analyseKey_marks result kv :
  own result -> inherited host (normalizeKey (fst kv)) = None ->
  marked (analyseKey result kv) (normalizeKey (fst kv)) (varietyTypeOf (snd kv)).
Proof.
  intros Hown I.
  destruct (analyseKey_result result kv Hown) as [[I' _]|[_ ->]]; [contradiction|].
  unfold marked. rewrite get_set_same. eexists. split; [reflexivity|].
  apply get_set_same.
Qed.

Lemma analyseKey_marked result kv key t :
  own result ->
  marked (analyseKey result kv) key t ->
  marked result key t
  \/ (normalizeKey (fst kv) = key /\ varietyTypeOf (snd kv) = t
      /\ inherited host key = None).
Proof.
  intros Hown (tm & G & M).
  destruct (analyseKey_result result kv Hown) as [[_ E]|[I E]]; rewrite E in G.
  - left. exists tm. auto.
  - rewrite get_set in G.
    destruct (String.eqb (normalizeKey (fst kv)) key) eqn:Ek.
    + apply String.eqb_eq in Ek. injection G as <-. rewrite get_set in M.
      destruct (String.eqb (varietyTypeOf (snd kv)) t) eqn:Et.
      * right. apply String.eqb_eq in Et. rewrite <- Ek. auto.
      * left. rewrite Ek in M.
        destruct (JsObj.get key result) as [tm0|] eqn:G0; [|discriminate].
        exists tm0. auto.
    + left. exists tm. auto.
Qed.

(** The marks after the loop: the ones there before, and one for each
    key of the document whose path is no name of an inherited member. *)
Lemma fold_marked document key t : forall acc,
  own acc ->
  marked (fold_left analyseKey document acc) key t
  <-> marked acc key t
      \/ exists k v, In (k, v) document
                     /\ normalizeKey k = key /\ varietyTypeOf v = t
                     /\ inherited host key = None.
Proof.
  induction document as [|[k0 v0] d IH]; intros acc Hown; cbn [fold_left].
  - split; [now left | intros [H|(k & v & [] & _)]; exact H].
  - rewrite (IH _ (analyseKey_own acc (k0, v0) Hown)). split.
    + intros [H|(k & v & Hin & Hk & Hv & I)].
      * apply (analyseKey_marked acc (k0, v0) key t Hown) in H.
        destruct H as [H|(Hk & Hv & I)]; [now left|].
        right. exists k0, v0. split; [now left | auto].
      * right. exists k, v. split; [now right | auto].
    + intros [H|(k & v & [Hin|Hin] & Hk & Hv & I)].
      * left. now apply analyseKey_keeps.
      * left. injection Hin as -> ->. subst key t.
        now apply (analyseKey_marks acc (k, v) Hown).
      * right. exists k, v. auto.
Qed.

End WithHost.

Lemma own_nil host : own host [].
Proof. intros key tm G. discriminate. Qed.

Lemma not_marked_nil key t : ~ marked [] key t.
Proof. intros (tm & G & _). discriminate. Qed.

End AnalyseFlatFacts.

(** X6: the flat analyser throws a [SyntaxError] when the host has no
    pattern for its source; otherwise it returns, and marks a type at
    a path exactly when some key of the flattened document normalises
    to that path and holds a value of that type, the path being no
    name of a member that objects inherit: every such key contributes
    its type, and no type is marked that no key has. *)
Theorem analyseDocument_marks (host : Host) (config : Config) (document : jsobj jsval) :
  match RegExp host (Flat.analyseSource config) with
  | None => Flat.analyseDocument host config document = Throws SyntaxError
  | Some arrayRegex =>
      exists result,
        Flat.analyseDocument host config document = Returns result
        /\ forall key t,
             AnalyseFlatWords.marked result key t
             <-> exists k v, In (k, v) document
                             /\ Flat.normalizeKey config arrayRegex k = key
                             /\ varietyTypeOf v = t
                             /\ inherited host key = None
  end.
Proof.
  unfold Flat.analyseDocument.
  destruct (RegExp host (Flat.analyseSource config)) as [re|]; [|reflexivity].
  eexists. split; [reflexivity|]. intros key t.
  rewrite (AnalyseFlatFacts.fold_marked host config re document key t []
             (AnalyseFlatFacts.own_nil host)).
  split.
  - intros [H|H]; [now apply AnalyseFlatFacts.not_marked_nil in H | exact H].
  - intros H. now right.
Qed.

(** ** The two mergers count *)

Module CountFacts.
Import CountWords.

(** A loop that, for each key of a document, replaces the entry of the
    key or makes one, read at one key. *)
Lemma get_merge_loop (E T : Type) (upd : T -> E -> E) (mk : T -> E) key :
  forall (r : list (string * T)) (agg : jsobj E),
    NoDup (JsObj.keys r) ->
    JsObj.get key
      (fold_left
         (fun agg kv =>
            match JsObj.get (fst kv) agg with
            | Some e => JsObj.set (fst kv) (upd (snd kv) e) agg
            | None => JsObj.set (fst kv) (mk (snd kv)) agg
            end) r agg)
    = match JsObj.get key r with
      | None => JsObj.get key agg
      | Some tm => Some match JsObj.get key agg with
                        | Some e => upd tm e
                        | None => mk tm
                        end
      end.
Proof.
  induction r as [|[k0 tm0] r IH]; intros agg Hnd; [reflexivity|].
  cbn [fold_left fst snd JsObj.get]. cbn [JsObj.keys map fst] in Hnd.
  inversion Hnd as [|? ? Hnotin Hnd']; subst.
  rewrite IH by exact Hnd'.
  destruct (String.eqb k0 key) eqn:Ek.
  - apply String.eqb_eq in Ek. subst k0.
    rewrite (notin_get_None _ key r Hnotin).
    destruct (JsObj.get key agg); now rewrite get_set_same.
  - apply String.eqb_neq in Ek.
    assert (G : forall x, JsObj.get key (JsObj.set k0 x agg) = JsObj.get key agg)
      by (intros; now apply get_set_other).
    destruct (JsObj.get k0 agg); now rewrite G.
Qed.

Lemma get_bumpTypes t : forall ks ts,
  NoDup ks ->
  JsObj.get t (Terark.bumpTypes ks ts)
  = if existsb (String.eqb t) ks
    then Some match JsObj.get t ts with Some n => n + 1 | None => 1 end
    else JsObj.get t ts.
Proof.
  unfold Terark.bumpTypes.
  induction ks as [|k ks IH]; intros ts Hnd; [reflexivity|].
  inversion Hnd as [|? ? Hnotin Hnd']; subst.
  cbn [fold_left existsb]. rewrite IH by exact Hnd'.
  destruct (String.eqb t k) eqn:E.
  - apply String.eqb_eq in E. subst k.
    assert (Hf : existsb (String.eqb t) ks = false).
    { destruct (existsb (String.eqb t) ks) eqn:Ex; [|reflexivity].
      apply existsb_exists in Ex. destruct Ex as (x & Hx & Ex).
      apply String.eqb_eq in Ex. subst x. contradiction. }
    rewrite Hf. cbn [orb]. destruct (JsObj.get t ts); now rewrite get_set_same.
  - cbn [orb]. apply String.eqb_neq in E.
    assert (G : forall x, JsObj.get t (JsObj.set k x ts) = JsObj.get t ts)
      by (intros; apply get_set_other; congruence).
    destruct (JsObj.get k ts); now rewrite !G.
Qed.

Lemma get_newTypes t ks :
  JsObj.get t (Terark.newTypes ks) = if existsb (String.eqb t) ks then Some 1 else None.
Proof.
  unfold Terark.newTypes.
  assert (H : forall ts,
             JsObj.get t (fold_left (fun ts newType => JsObj.set newType 1 ts) ks ts)
             = if existsb (String.eqb t) ks then Some 1 else JsObj.get t ts).
  { induction ks as [|k ks IH]; intros ts; [reflexivity|].
    cbn [fold_left existsb]. rewrite IH, get_set.
    rewrite (String.eqb_sym k t).
    destruct (String.eqb t k), (existsb (String.eqb t) ks); reflexivity. }
  apply H.
Qed.

Lemma has_existsb (A : Type) t (tm : jsobj A) :
  JsObj.has t tm = existsb (String.eqb t) (JsObj.keys tm).
Proof.
  induction tm as [|[k v] tm IH]; [reflexivity|].
  rewrite has_cons, IH. cbn [JsObj.keys map fst existsb].
  now rewrite (String.eqb_sym k t).
Qed.

(** One more document, in the tally of a key. *)
Lemma counted_step (A : Type) key (r : jsobj (jsobj A)) o occ tocc :
  (forall k tm, In (k, tm) r -> NoDup (JsObj.keys tm)) ->
  counted o occ tocc ->
  counted match JsObj.get key r with
          | None => o
          | Some tm => Some (tallied (JsObj.keys tm) o)
          end
    (occ + if JsObj.has key r then 1 else 0)%nat
    (fun t => (tocc t + if typedAt key t r then 1 else 0)%nat).
Proof.
  intros Hwf Hc.
  assert (Hhas : JsObj.has key r
                 = match JsObj.get key r with Some _ => true | None => false end)
    by reflexivity.
  rewrite Hhas. unfold typedAt. clear Hhas.
  destruct (JsObj.get key r) as [tm|] eqn:G.
  - assert (Hnd : NoDup (JsObj.keys tm)) by (eapply Hwf; eapply get_In; eauto).
    unfold counted, tallied.
    destruct o as [[ts n]|].
    + destruct Hc as (Hocc & Hn & Ht). repeat split; [lia | lia |].
      intros t. rewrite get_bumpTypes by exact Hnd. rewrite has_existsb, Ht.
      destruct (existsb (String.eqb t) (JsObj.keys tm)).
      * replace (tocc t + 1)%nat with (S (tocc t)) by lia. cbn [Nat.eqb].
        destruct (Nat.eqb (tocc t) 0) eqn:E0.
        -- apply Nat.eqb_eq in E0. now rewrite E0.
        -- f_equal. lia.
      * now rewrite Nat.add_0_r.
    + destruct Hc as (Hocc & Ht). repeat split; [lia | lia |].
      intros t. rewrite get_newTypes, has_existsb, Ht.
      destruct (existsb (String.eqb t) (JsObj.keys tm)); reflexivity.
  - destruct o as [[ts n]|]; unfold counted in *.
    + destruct Hc as (Hocc & Hn & Ht). repeat split; [lia | lia |].
      intros t. now rewrite Nat.add_0_r.
    + destruct Hc as (Hocc & Ht). split; [lia|]. intros t. rewrite Ht. reflexivity.
Qed.

Lemma counted_ext o occ occ' tocc tocc' :
  occ = occ' -> (forall t, tocc t = tocc' t) -> counted o occ tocc -> counted o occ' tocc'.
Proof.
  intros -> Ht. unfold counted. destruct o as [[ts n]|].
  - intros (H1 & H2 & H3). repeat split; auto. intros t. now rewrite <- Ht.
  - intros (H1 & H2). split; auto. intros t. now rewrite <- Ht.
Qed.

Lemma wellformed_spec (A : Type) (r : jsobj (jsobj A)) :
  wellformed r = true ->
  NoDup (JsObj.keys r) /\ forall k tm, In (k, tm) r -> NoDup (JsObj.keys tm).
Proof.
  unfold wellformed. intros H. apply andb_prop in H. destruct H as [H1 H2]. split.
  - now apply RecordFacts.distinct_NoDup.
  - intros k tm Hin. rewrite forallb_forall in H2.
    apply RecordFacts.distinct_NoDup. apply (H2 (k, tm) Hin).
Qed.

End CountFacts.

Module MergeCountFacts.
Import CountWords CountFacts ScanCountWords.

Lemma mergeKey_form agg kv :
  Terark.mergeKey agg kv
  = match JsObj.get (fst kv) agg with
    | Some e => JsObj.set (fst kv) (updated (snd kv) e) agg
    | None => JsObj.set (fst kv) (created (snd kv)) agg
    end.
Proof.
  unfold Terark.mergeKey, created, updated, MergeWords.snapshot.
  destruct (JsObj.get (fst kv) agg); [reflexivity|].
  destruct (String.eqb _ "Object"); reflexivity.
Qed.

Lemma merge_tally key r agg :
  NoDup (JsObj.keys r) ->
  option_map tallyOfTerark (JsObj.get key (Terark.mergeDocumentterark r agg))
  = match JsObj.get key r with
    | None => option_map tallyOfTerark (JsObj.get key agg)
    | Some tm => Some (tallied (JsObj.keys tm) (option_map tallyOfTerark (JsObj.get key agg)))
    end.
Proof.
  intros Hnd. unfold Terark.mergeDocumentterark.
  rewrite (ShallowFacts.fold_left_pointwise _ _ _ _ mergeKey_form).
  rewrite (get_merge_loop _ _ updated created key r agg Hnd).
  destruct (JsObj.get key r); [|reflexivity].
  destruct (JsObj.get key agg); reflexivity.
Qed.

Lemma flat_merge_tally key r agg :
  NoDup (JsObj.keys r) ->
  option_map tallyOfFlat (JsObj.get key (Flat.mergeDocument r agg))
  = match JsObj.get key r with
    | None => option_map tallyOfFlat (JsObj.get key agg)
    | Some tm => Some (tallied (JsObj.keys tm) (option_map tallyOfFlat (JsObj.get key agg)))
    end.
Proof.
  intros Hnd. unfold Flat.mergeDocument.
  rewrite (get_merge_loop _ _ Flat.bump Flat.fresh key r agg Hnd).
  destruct (JsObj.get key r); [|reflexivity].
  destruct (JsObj.get key agg); reflexivity.
Qed.

(** The tallies of a fold of [merge] over analysed documents. *)
Lemma fold_counted (A E : Type) (tallyOf : E -> tally)
    (merge : jsobj (jsobj A) -> jsobj E -> jsobj E) key :
  (forall r agg, NoDup (JsObj.keys r) ->
     option_map tallyOf (JsObj.get key (merge r agg))
     = match JsObj.get key r with
       | None => option_map tallyOf (JsObj.get key agg)
       | Some tm => Some (tallied (JsObj.keys tm) (option_map tallyOf (JsObj.get key agg)))
       end) ->
  forall rs agg occ tocc,
    (forall r, In r rs ->
       NoDup (JsObj.keys r) /\ forall k tm, In (k, tm) r -> NoDup (JsObj.keys tm)) ->
    counted (option_map tallyOf (JsObj.get key agg)) occ tocc ->
    counted (option_map tallyOf (JsObj.get key (fold_left (fun acc r => merge r acc) rs agg)))
      (occ + occurrences key rs)%nat
      (fun t => (tocc t + typeOccurrences key t rs)%nat).
Proof.
  intros Hm. induction rs as [|r rs IH]; intros agg occ tocc Hwf Hc.
  - cbn [fold_left]. eapply counted_ext; [| |exact Hc].
    + unfold occurrences. cbn. lia.
    + intros t. unfold typeOccurrences. cbn. lia.
  - cbn [fold_left]. destruct (Hwf r (or_introl eq_refl)) as [Hnd Htm].
    pose proof (counted_step _ key r _ occ tocc Htm Hc) as Hs.
    rewrite <- (Hm r agg Hnd) in Hs.
    apply IH in Hs; [|intros r' Hr'; apply Hwf; now right].
    eapply counted_ext; [| |exact Hs].
    + unfold occurrences. cbn [filter]. destruct (JsObj.has key r); cbn [List.length]; lia.
    + intros t. unfold typeOccurrences. cbn [filter].
      destruct (typedAt key t r); cbn [List.length]; lia.
Qed.

Lemma wellformed_all (A : Type) (rs : list (jsobj (jsobj A))) :
  forallb wellformed rs = true ->
  forall r, In r rs ->
    NoDup (JsObj.keys r) /\ forall k tm, In (k, tm) r -> NoDup (JsObj.keys tm).
Proof.
  intros H r Hin. rewrite forallb_forall in H. now apply wellformed_spec, H.
Qed.

End MergeCountFacts.

(** X7: the shape-preserving merger counts.  Folded over analysed
    documents in which no key and no type under a key is repeated, it
    leaves for a key the number of documents that had the key as
    [totalOccurrences], and under each type the number of documents
    that had the key with that type; a key no document had has no
    entry, a type no document had has no count. *)
Theorem mergeDocumentterark_counts
    (rs : list (jsobj (jsobj Terark.shape))) (key : string) :
  forallb CountWords.wellformed rs = true ->
  CountWords.counted
    (option_map CountWords.tallyOfTerark
       (JsObj.get key (fold_left (fun acc r => Terark.mergeDocumentterark r acc) rs [])))
    (CountWords.occurrences key rs)
    (fun t => CountWords.typeOccurrences key t rs).
Proof.
  intros H.
  apply (MergeCountFacts.fold_counted _ _ CountWords.tallyOfTerark
           Terark.mergeDocumentterark key
           (MergeCountFacts.merge_tally key) rs [] O (fun _ => O)
           (MergeCountFacts.wellformed_all _ rs H)).
  split; reflexivity.
Qed.

Lemma mergeDocumentterark_counts_witness :
  CountWords.counted
    (option_map CountWords.tallyOfTerark
       (JsObj.get "b"
          (fold_left (fun acc r => Terark.mergeDocumentterark r acc)
             [ScanCountWords.seenA; ScanCountWords.seenAB; ScanCountWords.seenAB] [])))
    (CountWords.occurrences "b"
       [ScanCountWords.seenA; ScanCountWords.seenAB; ScanCountWords.seenAB])
    (fun t => CountWords.typeOccurrences "b" t
                [ScanCountWords.seenA; ScanCountWords.seenAB; ScanCountWords.seenAB]).
Proof.
  apply (mergeDocumentterark_counts
           [ScanCountWords.seenA; ScanCountWords.seenAB; ScanCountWords.seenAB] "b").
  reflexivity.
Defined.

(** X8: the flat merger counts in the same way: the number of
    documents that had the key, and under each type the number of
    documents that had the key with that type. *)
Theorem mergeDocument_counts (rs : list (jsobj (jsobj bool))) (key : string) :
  forallb CountWords.wellformed rs = true ->
  CountWords.counted
    (option_map CountWords.tallyOfFlat
       (JsObj.get key (fold_left (fun acc r => Flat.mergeDocument r acc) rs [])))
    (CountWords.occurrences key rs)
    (fun t => CountWords.typeOccurrences key t rs).
Proof.
  intros H.
  apply (MergeCountFacts.fold_counted _ _ CountWords.tallyOfFlat
           Flat.mergeDocument key
           (MergeCountFacts.flat_merge_tally key) rs [] O (fun _ => O)
           (MergeCountFacts.wellformed_all _ rs H)).
  split; reflexivity.
Qed.

Lemma mergeDocument_counts_witness :
  CountWords.counted
    (option_map CountWords.tallyOfFlat
       (JsObj.get "a"
          (fold_left (fun acc r => Flat.mergeDocument r acc)
             [ScanCountWords.flatA; ScanCountWords.flatAB] [])))
    (CountWords.occurrences "a" [ScanCountWords.flatA; ScanCountWords.flatAB])
    (fun t => CountWords.typeOccurrences "a" t [ScanCountWords.flatA; ScanCountWords.flatAB]).
Proof.
  apply (mergeDocument_counts [ScanCountWords.flatA; ScanCountWords.flatAB] "a").
  reflexivity.
Defined.

Module ScanCountFacts.
Import Terark CountWords CountFacts ScanCountWords.

Lemma keys_view a : JsObj.keys (view a) = JsObj.keys (result a).
Proof. unfold view, JsObj.keys. rewrite map_map. reflexivity. Qed.

Lemma analyseDocumentterark_keys host document maxDepth :
  NoDup (JsObj.keys (result (analyseDocumentterark host document maxDepth))).
Proof.
  unfold analyseDocumentterark.
  assert (H : forall st, NoDup (JsObj.keys (result st)) ->
                         NoDup (JsObj.keys (result (fold_left (analyseField host maxDepth)
                                                      document st)))).
  { induction document as [|kv d IH]; intros st Hst; [exact Hst|].
    cbn [fold_left]. apply IH.
    destruct (ScanFacts.analyseField_result host maxDepth st kv) as [->|(s & ->)];
      [exact Hst | now apply NoDup_set]. }
  apply H. constructor.
Qed.

Lemma analysed_wellformed host config doc r :
  analysed host config doc = Returns r ->
  NoDup (JsObj.keys r) /\ forall k tm, In (k, tm) r -> NoDup (JsObj.keys tm).
Proof.
  unfold analysed.
  destruct (serializeDocterark doc (maxDepth config)) as [flat|e]; [|discriminate].
  intros [= <-]. split.
  - rewrite keys_view. apply analyseDocumentterark_keys.
  - intros k tm Hin. eapply ScanFacts.view_typed; [|exact Hin].
    intros k' tm'. apply ScanFacts.analyseDocumentterark_typed.
Qed.

(** A scan that returns has analysed every document, and has merged
    the analyses in order. *)
Lemma reduce_as_fold host config documents : forall acc agg,
  Script.reduce documents (reduceDocumentsterark host config) acc = Returns agg ->
  exists rs,
    map (analysed host config) documents = map Returns rs
    /\ agg = fold_left (fun acc r => mergeDocumentterark r acc) rs acc.
Proof.
  induction documents as [|doc ds IH]; intros acc agg H.
  - cbn [Script.reduce] in H. injection H as <-. exists []. split; reflexivity.
  - cbn [Script.reduce] in H. unfold reduceDocumentsterark in H at 1.
    destruct (serializeDocterark doc (maxDepth config)) as [flat|e] eqn:S; [|discriminate].
    apply IH in H. destruct H as (rs & Hrs & ->).
    exists (view (analyseDocumentterark host flat (maxDepth config)) :: rs).
    split; [|reflexivity]. cbn [map]. rewrite <- Hrs. f_equal.
    unfold analysed. now rewrite S.
Qed.

Lemma occurrences_le (A : Type) key (rs : list (jsobj A)) :
  (occurrences key rs <= List.length rs)%nat.
Proof. unfold occurrences. apply filter_length_le. Qed.

End ScanCountFacts.

(** X9: a scan that returns has analysed each of its documents, and
    the entry of a key in the shape-preserving aggregate counts the
    documents whose analysis has the key, and under each type those
    that have the key with that type; so its [totalOccurrences] is at
    least one and at most the number of documents scanned. *)
Theorem scan_counts
    (host : Host) (config : Config) (documents : list jsval) (agg : jsobj Terark.Entry)
    (key : string) :
  Script.reduce documents (Terark.reduceDocumentsterark host config) [] = Returns agg ->
  exists rs,
    map (ScanCountWords.analysed host config) documents = map Returns rs
    /\ CountWords.counted
         (option_map CountWords.tallyOfTerark (JsObj.get key agg))
         (CountWords.occurrences key rs)
         (fun t => CountWords.typeOccurrences key t rs)
    /\ forall e,
         JsObj.get key agg = Some e ->
         1 <= Terark.totalOccurrences e <= Z.of_nat (List.length documents).
Proof.
  intros Hret.
  destruct (ScanCountFacts.reduce_as_fold host config documents [] agg Hret) as (rs & Hrs & ->).
  exists rs. split; [exact Hrs|].
  assert (H : CountWords.counted
                (option_map CountWords.tallyOfTerark
                   (JsObj.get key
                      (fold_left (fun acc r => Terark.mergeDocumentterark r acc) rs [])))
                (CountWords.occurrences key rs)
                (fun t => CountWords.typeOccurrences key t rs)).
  { apply (MergeCountFacts.fold_counted _ _ CountWords.tallyOfTerark
             Terark.mergeDocumentterark key
             (MergeCountFacts.merge_tally key) _ [] O (fun _ => O)).
    - intros r Hin.
      assert (Hin' : In (Returns r) (map (ScanCountWords.analysed host config) documents)).
      { rewrite Hrs. now apply in_map. }
      apply in_map_iff in Hin'. destruct Hin' as (doc & Hdoc & _).
      now apply (ScanCountFacts.analysed_wellformed host config doc).
    - split; reflexivity. }
  split; [exact H|].
  intros e G. rewrite G in H. cbn in H. destruct H as (H1 & H2 & _).
  pose proof (ScanCountFacts.occurrences_le _ key rs) as Hle.
  assert (Hlen : List.length rs = List.length documents).
  { apply (f_equal (@List.length _)) in Hrs. rewrite !length_map in Hrs. now symmetry. }
  lia.
Qed.

Lemma scan_counts_witness :
  exists rs,
    map (ScanCountWords.analysed HostWords.shell Samples.config) [Samples.docDeep; Samples.docN]
    = map Returns rs
    /\ CountWords.counted
         (option_map CountWords.tallyOfTerark
            (JsObj.get "n" [("n", Samples.entryN); ("a", Samples.entryA)]))
         (CountWords.occurrences "n" rs)
         (fun t => CountWords.typeOccurrences "n" t rs)
    /\ forall e,
         JsObj.get "n" [("n", Samples.entryN); ("a", Samples.entryA)] = Some e ->
         1 <= Terark.totalOccurrences e
         <= Z.of_nat (List.length [Samples.docDeep; Samples.docN]).
Proof.
  apply (scan_counts HostWords.shell Samples.config [Samples.docDeep; Samples.docN]
           [("n", Samples.entryN); ("a", Samples.entryA)] "n").
  reflexivity.
Defined.

(** ** The schema converter: keys seen in every document, ordinals, unmapped types *)

Module DenseFacts.
Import Terark Schema SchemaWords SchemaFacts DenseWords.





End DenseFacts.



Module OrdinalFacts.
Import Terark Schema SchemaWords SchemaFacts OrdinalWords.

Section Lengths.
Variable A : Type.

Lemma length_update k (v : A) o : List.length (JsObj.update k v o) = List.length o.
Proof.
  induction o as [|[k' v'] o IH]; [reflexivity|].
  cbn [JsObj.update]. destruct (String.eqb k' k); cbn [List.length]; congruence.
Qed.

Lemma length_insert_index n k (v : A) o :
  List.length (JsObj.insert_index n k v o) = S (List.length o).
Proof.
  induction o as [|[k' v'] o IH]; [reflexivity|].
  cbn [JsObj.insert_index].
  destruct (JsObj.array_index k') as [m|]; [destruct (m <? n)%N|];
    cbn [List.length]; congruence.
Qed.

(** A write under a new name makes the object one longer. *)
Lemma length_set_new k (v : A) o :
  JsObj.has k o = false -> List.length (JsObj.set k v o) = S (List.length o).
Proof.
  intros H. unfold JsObj.set. rewrite H.
  destruct (JsObj.array_index k).
  - apply length_insert_index.
  - rewrite length_app. cbn [List.length]. lia.
Qed.

End Lengths.

Lemma convertEntry_ordinals n st kv st' :
  convertEntry n st kv = Some st' ->
  1 <= st_nestedindex st ->
  ordinals_below (st_nestedindex st) (st_nestedschemaset st) ->
  ordinals_below (st_nestedindex st') (st_nestedschemaset st').
Proof.
  unfold convertEntry.
  convert_cases kv; intros H Hone Hinv; try discriminate; injection H as <-;
    cbn [st_nestedindex st_nestedschemaset]; try exact Hinv.
  destruct Hinv as [Hlen Hkeys].
  assert (Hnew : JsObj.has (Str.of_Z (st_nestedindex st)) (st_nestedschemaset st) = false).
  { destruct (JsObj.has _ (st_nestedschemaset st)) eqn:Eh; [|reflexivity].
    apply Hkeys in Eh. destruct Eh as (i & Hi & Ei). apply of_Z_inj in Ei. lia. }
  split.
  - rewrite length_set_new by exact Hnew. lia.
  - intros k. rewrite has_set. split.
    + intros H. apply orb_prop in H. destruct H as [H|H].
      * apply String.eqb_eq in H. exists (st_nestedindex st). split; [lia | auto].
      * apply Hkeys in H. destruct H as (i & Hi & Ei). exists i. split; [lia | auto].
    + intros (i & Hi & ->).
      destruct (Z.eq_dec i (st_nestedindex st)) as [->|Hne].
      * now rewrite String.eqb_refl.
      * apply orb_true_intro. right. apply Hkeys. exists i. split; [lia | auto].
Qed.

Lemma convertEntries_ordinals n l : forall st st',
  convertEntries n l st = Some st' ->
  1 <= st_nestedindex st ->
  ordinals_below (st_nestedindex st) (st_nestedschemaset st) ->
  ordinals_below (st_nestedindex st') (st_nestedschemaset st').
Proof.
  induction l as [|kv l IH]; intros st st' H Hone Hinv; simpl in H.
  - now injection H as <-.
  - destruct (convertEntry n st kv) as [st1|] eqn:E1; [|discriminate].
    apply (IH _ _ H).
    + destruct (convertEntry_index _ _ _ _ E1) as [I1 _]. rewrite I1.
      destruct (sparseObject n kv); lia.
    + eapply convertEntry_ordinals; eauto.
Qed.

Lemma has_comma_join x y r : has_comma (Str.join (x :: y :: r)) = true.
Proof.
  unfold Str.join.
  change (has_comma (x ++ "," ++ String.concat "," (y :: r)) = true).
  apply has_comma_app.
Qed.

(** A name with a comma is in no table whose names have none. *)
Lemma get_comma (A : Type) s (tbl : jsobj A) :
  forallb (fun k => negb (has_comma k)) (JsObj.keys tbl) = true ->
  has_comma s = true -> JsObj.get s tbl = None.
Proof.
  intros Ht Hs. destruct (JsObj.get s tbl) eqn:G; [|reflexivity].
  assert (Hin : In s (JsObj.keys tbl)) by (apply In_keys_get; congruence).
  rewrite forallb_forall in Ht. apply Ht in Hin. rewrite Hs in Hin. discriminate.
Qed.

(** The elements of the sink after a run of the converter. *)
Lemma convertSchema_ordinals
    (agg : jsobj Terark.Entry) (documentsCount : Z) (flat : jsobj Flat.Entry)
    (cols : jsobj Schema.column) (nss : jsobj Schema.NestedSchema) :
  Schema.convertSchema agg documentsCount [] flat = Some (cols, nss) ->
  List.length nss = SchemaWords.sparseObjects documentsCount agg
  /\ forall k,
       JsObj.has k nss = true
       <-> exists i,
             1 <= i <= Z.of_nat (SchemaWords.sparseObjects documentsCount agg)
             /\ k = Str.of_Z i.
Proof.
  unfold Schema.convertSchema.
  set (st0 := {| Schema.st_columns := []; Schema.st_nestedschemaset := [];
                 Schema.st_nestedindex := 1 |}).
  destruct (Schema.convertEntries documentsCount agg st0) as [st|] eqn:E; [|discriminate].
  intros H. injection H as _ <-.
  destruct (SchemaFacts.convertEntries_index _ _ _ _ E) as [I _].
  cbn [Schema.st_nestedindex st0] in I.
  assert (H0 : ordinals_below (Schema.st_nestedindex st0)
                 (Schema.st_nestedschemaset st0)).
  { split; [reflexivity|]. intros k. split; [discriminate|].
    intros (i & Hi & _). cbn in Hi. lia. }
  destruct (convertEntries_ordinals _ _ _ _ E (Z.le_refl 1) H0) as [Hlen Hkeys].
  rewrite I in Hlen, Hkeys. split; [lia|].
  intros k. rewrite Hkeys. split; intros (i & Hi & Ek); exists i; split; auto; lia.
Qed.

End OrdinalFacts.

(** X11: started on an empty sink, the converter leaves in the nested
    schema set one element for each entry seen in some documents only
    whose type set is the single name [Object], under the ordinals 1,
    2, ... up to their number, and under no other key. *)
Theorem nestedschemaset_ordinals
    (agg : jsobj Terark.Entry) (documentsCount : Z) (flat : jsobj Flat.Entry)
    (cols : jsobj Schema.column) (nss : jsobj Schema.NestedSchema) :
  Schema.convertSchema agg documentsCount [] flat = Some (cols, nss) ->
  List.length nss = SchemaWords.sparseObjects documentsCount agg
  /\ forall k,
       JsObj.has k nss = true
       <-> exists i,
             1 <= i <= Z.of_nat (SchemaWords.sparseObjects documentsCount agg)
             /\ k = Str.of_Z i.
Proof. apply OrdinalFacts.convertSchema_ordinals. Qed.

Lemma nestedschemaset_ordinals_witness :
  List.length [("1", SchemaWords.registered
                       [("Object",
                         Terark.STree
                           [("p", [("Object",
                                    Terark.STree [("q", [("Number", Terark.STrue)])])])])])]
  = SchemaWords.sparseObjects 2 [("n", Samples.entryN); ("a", Samples.entryA)]
  /\ forall k,
       JsObj.has k [("1", SchemaWords.registered
                            [("Object",
                              Terark.STree
                                [("p", [("Object",
                                         Terark.STree
                                           [("q", [("Number", Terark.STrue)])])])])])]
       = true
       <-> exists i,
             1 <= i <= Z.of_nat (SchemaWords.sparseObjects 2
                                   [("n", Samples.entryN); ("a", Samples.entryA)])
             /\ k = Str.of_Z i.
Proof.
  apply (nestedschemaset_ordinals [("n", Samples.entryN); ("a", Samples.entryA)] 2 []
           [("n", DenseWords.plainColumn ["Number"]); ("$$", Schema.carbin)]).
  reflexivity.
Defined.

(** X12: a key whose documents disagree on its type has no encoding:
    the joined names of two or more types are in neither table, so
    both [type] and [mongoType] of its column are undefined. *)
Theorem heterogeneous_unmapped (typeNames : list string) :
  (2 <= List.length typeNames)%nat ->
  Schema.getKeyType (Str.join typeNames) = None
  /\ Schema.getMongoType (Str.join typeNames) = None.
Proof.
  intros H. destruct typeNames as [|x [|y r]]; simpl in H; try lia.
  split; apply OrdinalFacts.get_comma; try reflexivity; apply OrdinalFacts.has_comma_join.
Qed.

Lemma heterogeneous_unmapped_witness :
  Schema.getKeyType (Str.join ["Number"; "String"]) = None
  /\ Schema.getMongoType (Str.join ["Number"; "String"]) = None.
Proof. apply (heterogeneous_unmapped ["Number"; "String"]). simpl. lia. Defined.

(** X13: of the names the classifier gives, only ["null"] has no
    encoding code (the table spells it ["Null"]), and only ["null"] and
    ["undefined"] have no domain name. *)
Theorem classified_encoding (v : jsval) :
  (Schema.getKeyType (varietyTypeOf v) = None <-> v = VNull)
  /\ (Schema.getMongoType (varietyTypeOf v) = None <-> v = VNull \/ v = VUndefined).
Proof.
  destruct v; cbv; repeat split; intros H; try discriminate; auto;
    try (destruct H; discriminate).
Qed.

(** X14: the converter never meets the [TypeError] of a missing
    snapshot on the aggregate of a scan: whatever the host, the
    configuration and the documents, when the shape-preserving scan
    returns, the converter returns on its aggregate, with any count of
    documents, any sink and any flat aggregate. *)
Theorem converter_accepts_scans
    (host : Host) (config : Config) (documents : list jsval) (agg : jsobj Terark.Entry)
    (documentsCount : Z) (sink : jsobj Schema.NestedSchema) (flat : jsobj Flat.Entry) :
  Script.reduce documents (Terark.reduceDocumentsterark host config) [] = Returns agg ->
  exists columns nestedschemaset,
    Schema.convertSchema agg documentsCount sink flat = Some (columns, nestedschemaset).
Proof.
  intros H. apply ScanFacts.scan_snapshots_present in H.
  unfold Schema.convertSchema.
  destruct (Schema.convertEntries documentsCount agg _) as [st|] eqn:E.
  - eexists. eexists. reflexivity.
  - exfalso. revert E. now apply SchemaTrees.convertEntries_total.
Qed.

Lemma converter_accepts_scans_witness :
  exists columns nestedschemaset,
    Schema.convertSchema [("n", Samples.entryN); ("a", Samples.entryA)] 2 [] []
    = Some (columns, nestedschemaset).
Proof.
  apply (converter_accepts_scans HostWords.shell Samples.config
           [Samples.docDeep; Samples.docN] [("n", Samples.entryN); ("a", Samples.entryA)]
           2 [] []).
  reflexivity.
Defined.

(** ** The script: the checks on the database, and the run that passes them *)

Module RunFacts.
Import Script ScriptWords RunWords.

Lemma indexOfFound_In x l : indexOfFound x l = true <-> In x l.
Proof.
  unfold indexOfFound. rewrite existsb_exists. split.
  - intros (y & Hy & E). apply String.eqb_eq in E. now subst.
  - intros H. exists x. split; [exact H | apply String.eqb_refl].
Qed.

Lemma preamble_quiet env : scans (preamble env) = 0%nat /\ printed (preamble env) = [].
Proof. unfold preamble. destruct (slaveOk env) as [[|]|]; split; reflexivity. Qed.

Lemma length_zero (A : Type) (l : list A) : Nat.eqb (List.length l) 0 = true <-> l = [].
Proof. destruct l; split; intros H; try reflexivity; discriminate. Qed.

(** The flat scan of documents without a field named [hasOwnProperty]
    returns, when the host has the two patterns. *)
Lemma flat_scan_returns host config documents :
  RegExp host (Flat.serializeSource config) <> None ->
  RegExp host (Flat.analyseSource config) <> None ->
  Forall (fun doc => FlatWords.callable doc = true) documents ->
  forall acc, exists r, reduce documents (Flat.reduceDocuments host config) acc = Returns r.
Proof.
  intros H1 H2 Hc. induction Hc as [|doc ds Hd _ IH]; intros acc.
  - eexists. reflexivity.
  - cbn [reduce]. unfold Flat.reduceDocuments at 1. unfold Flat.serializeDoc.
    destruct (RegExp host (Flat.serializeSource config)) as [re|]; [|contradiction].
    rewrite (FlatFacts.serialize_returns config (excludeSubkeys config) re doc Hd).
    unfold Flat.analyseDocument.
    destruct (RegExp host (Flat.analyseSource config)) as [re'|]; [|contradiction].
    apply IH.
Qed.

(** So does the shape-preserving scan. *)
Lemma terark_scan_returns host config documents :
  Forall (fun doc => FlatWords.callable doc = true) documents ->
  forall acc,
    exists agg, reduce documents (Terark.reduceDocumentsterark host config) acc = Returns agg.
Proof.
  intros Hc. induction Hc as [|doc ds Hd _ IH]; intros acc.
  - eexists. reflexivity.
  - cbn [reduce]. unfold Terark.reduceDocumentsterark at 1.
    rewrite ShallowFacts.serializeDocterark_spec.
    destruct (FlatFacts.entries_callable config doc Hd) as [-> _].
    apply IH.
Qed.

End RunFacts.

(** X15: the checks on the database.  They pass when the server's
    reply lists no databases at all, or lists the target database and
    the database has a collection.  Otherwise the run ends by throwing
    their message, after no scan and no print, and the message ends
    with the list of the known databases that have a collection. *)
Theorem database_checks (env : Script.Env) :
  (Script.checkDatabase env = None
   <-> Script.knownDatabases env = None
       \/ exists known,
            Script.knownDatabases env = Some known
            /\ In (Script.dbName env) known
            /\ Script.collectionNames env (Script.dbName env) <> [])
  /\ forall message,
       Script.checkDatabase env = Some message ->
       Script.run env = (RunWords.preamble env, Script.Thrown message)
       /\ ScriptWords.scans (fst (Script.run env)) = 0%nat
       /\ ScriptWords.printed (fst (Script.run env)) = []
       /\ exists known before,
            Script.knownDatabases env = Some known
            /\ message
               = before ++ "Possible database options are: "
                 ++ String.concat ", " (RunWords.nonEmptyDatabases env known) ++ ".".
Proof.
  split.
  - unfold Script.checkDatabase.
    destruct (Script.knownDatabases env) as [known|]; [|split; auto].
    destruct (Script.indexOfFound (Script.dbName env) (Script.emptyDbs env known)) eqn:E1.
    + split; [discriminate|]. intros [H|(k & H & Hin & Hne)]; [discriminate|].
      apply RunFacts.indexOfFound_In in E1. unfold Script.emptyDbs in E1.
      apply filter_In in E1. destruct E1 as [_ E1]. unfold Script.hasCollections in E1.
      rewrite negb_involutive in E1. apply RunFacts.length_zero in E1. contradiction.
    + destruct (Script.indexOfFound (Script.dbName env) (Script.dbs env known)) eqn:E2;
        cbn [negb].
      * split; [|reflexivity]. intros _. right. exists known.
        apply RunFacts.indexOfFound_In in E2. unfold Script.dbs in E2.
        apply filter_In in E2. destruct E2 as [Hin E2]. unfold Script.hasCollections in E2.
        repeat split; auto. intros Hc. rewrite Hc in E2. discriminate.
      * split; [discriminate|]. intros [H|(k & H & Hin & Hne)]; [discriminate|].
        injection H as <-. exfalso.
        assert (Hd : In (Script.dbName env) (Script.dbs env known)).
        { unfold Script.dbs. apply filter_In. split; [exact Hin|].
          unfold Script.hasCollections.
          destruct (Script.collectionNames env (Script.dbName env)); [contradiction|].
          reflexivity. }
        apply RunFacts.indexOfFound_In in Hd. congruence.
  - intros message H.
    assert (Hrun : Script.run env = (RunWords.preamble env, Script.Thrown message)).
    { unfold Script.run. rewrite H. reflexivity. }
    rewrite Hrun. cbn [fst]. destruct (RunFacts.preamble_quiet env) as [Hs Hp].
    repeat split; auto.
    unfold Script.checkDatabase in H.
    destruct (Script.knownDatabases env) as [known|]; [|discriminate].
    exists known.
    change (RunWords.nonEmptyDatabases env known) with (Script.dbs env known).
    destruct (Script.indexOfFound _ (Script.emptyDbs env known)).
    + injection H as <-.
      exists ("The database specified (" ++ Script.dbName env ++ ") is empty." ++ Script.nl).
      split; [reflexivity|]. unfold Script.joinNames.
      rewrite !StrFacts.append_assoc. reflexivity.
    + destruct (negb _); [|discriminate]. injection H as <-.
      exists ("The database specified (" ++ Script.dbName env ++ ") does not exist."
              ++ Script.nl).
      split; [reflexivity|]. unfold Script.joinNames.
      rewrite !StrFacts.append_assoc. reflexivity.
Qed.

Lemma database_checks_witness :
  Script.run RunWords.hiddenEnv
  = (RunWords.preamble RunWords.hiddenEnv,
     Script.Thrown ("The database specified (test) does not exist." ++ Script.nl
                    ++ "Possible database options are: admin."))
  /\ ScriptWords.scans (fst (Script.run RunWords.hiddenEnv)) = 0%nat
  /\ ScriptWords.printed (fst (Script.run RunWords.hiddenEnv)) = []
  /\ exists known before,
       Script.knownDatabases RunWords.hiddenEnv = Some known
       /\ "The database specified (test) does not exist." ++ Script.nl
          ++ "Possible database options are: admin."
          = before ++ "Possible database options are: "
            ++ String.concat ", " (RunWords.nonEmptyDatabases RunWords.hiddenEnv known) ++ ".".
Proof.
  apply (proj2 (database_checks RunWords.hiddenEnv)). reflexivity.
Defined.

(** X16: a run without plug-ins whose checks pass, in a host that has
    the three patterns of the escape, on documents none of which has a
    field named [hasOwnProperty] at any depth, makes its two scans,
    prints one document and ends.  The document has [CheckMongoType]
    true and a row schema with the entry ["$$"]; [TableIndex] is the
    translation of the collection's indexes, left out when there is
    none; [NestedSchemaSet] is left out exactly when no entry of the
    aggregate is seen in some documents only with the single type
    [Object]. *)
Theorem run_prints_once (env : Script.Env) (c : string) :
  Script.checkDatabase env = None ->
  given_collection (Script.context env) = Some c ->
  Script.count env (Some c) (VObject []) <> 0 ->
  Script.plugins env = None ->
  let config := readConfig (Script.count env) c (Script.context env) in
  RunWords.compiles (Script.shell env) config ->
  Forall (fun doc => FlatWords.callable doc = true) (Script.cursor env config) ->
  Forall (fun doc => FlatWords.callable doc = true) (Script.cursorterark env config) ->
  exists agg r,
    Script.reduce (Script.cursorterark env config)
      (Terark.reduceDocumentsterark (Script.shell env) config) []
    = Returns agg
    /\ Script.run env
       = ((RunWords.preamble env
             ++ [Script.Scan (Script.cursor env config);
                 Script.ScanTerark (Script.cursorterark env config);
                 Script.Print r])%list,
          Script.Finished)
    /\ Script.CheckMongoType r = true
    /\ JsObj.get "$$" (Script.RowSchema r) = Some Schema.carbin
    /\ Script.TableIndex r
       = match Script.indexes env config with
         | [] => None
         | ix :: ixs => Some (map (Index.translate (Script.shell env)) (ix :: ixs))
         end
    /\ (Script.NestedSchemaSet r = None
        <-> SchemaWords.sparseObjects (Script.cursorterarkSize env config) agg = 0%nat).
Proof.
  intros Hdb Hc Hn Hpl config (H1 & H2 & H3) Hflat Hter.
  destruct (RunFacts.flat_scan_returns (Script.shell env) config _ H1 H2 Hflat [])
    as (flat & Eflat).
  destruct (RunFacts.terark_scan_returns (Script.shell env) config _ Hter [])
    as (agg & Eagg).
  exists agg.
  unfold Script.run. rewrite Hdb.
  unfold Script.checkCollection. rewrite Hc.
  apply Z.eqb_neq in Hn. rewrite Hn.
  unfold Script.onConfig. rewrite Hpl. fold config. fold (RunWords.preamble env).
  destruct (RegExp (Script.shell env) (Script.filterSource config)) as [re|];
    [|contradiction].
  rewrite Eflat, Eagg. unfold Script.report.
  destruct (Schema.convertSchema agg (Script.cursorterarkSize env config) [] flat)
    as [[columns nestedschemaset]|] eqn:E.
  - eexists. split; [reflexivity|]. split; [reflexivity|].
    cbn [Script.CheckMongoType Script.RowSchema Script.TableIndex Script.NestedSchemaSet].
    split; [reflexivity|]. split.
    + unfold Schema.convertSchema in E.
      destruct (Schema.convertEntries _ _ _); [|discriminate].
      injection E as <- _. apply get_set_same.
    + split.
      * unfold Index.generateIndex. rewrite IndexFacts.generateIndex_from. cbn [app].
        destruct (Script.indexes env config); reflexivity.
      * destruct (OrdinalFacts.convertSchema_ordinals _ _ _ _ _ E) as [Hlen _].
        unfold JsObj.keys. rewrite length_map, Hlen.
        destruct (SchemaWords.sparseObjects _ _); cbn; split; intros H;
          try reflexivity; discriminate.
  - exfalso. unfold Schema.convertSchema in E.
    destruct (Schema.convertEntries _ _ _) eqn:E'; [discriminate|].
    revert E'. apply SchemaTrees.convertEntries_total.
    now apply (ScanFacts.scan_snapshots_present (Script.shell env) config
                 (Script.cursorterark env config)).
Qed.

Lemma run_prints_once_witness :
  exists agg r,
    Script.reduce (Script.cursorterark RunWords.sampleRun RunWords.sampleConfig)
      (Terark.reduceDocumentsterark (Script.shell RunWords.sampleRun) RunWords.sampleConfig) []
    = Returns agg
    /\ Script.run RunWords.sampleRun
       = ((RunWords.preamble RunWords.sampleRun
             ++ [Script.Scan (Script.cursor RunWords.sampleRun RunWords.sampleConfig);
                 Script.ScanTerark (Script.cursorterark RunWords.sampleRun RunWords.sampleConfig);
                 Script.Print r])%list,
          Script.Finished)
    /\ Script.CheckMongoType r = true
    /\ JsObj.get "$$" (Script.RowSchema r) = Some Schema.carbin
    /\ Script.TableIndex r
       = match Script.indexes RunWords.sampleRun RunWords.sampleConfig with
         | [] => None
         | ix :: ixs => Some (map (Index.translate (Script.shell RunWords.sampleRun)) (ix :: ixs))
         end
    /\ (Script.NestedSchemaSet r = None
        <-> SchemaWords.sparseObjects
              (Script.cursorterarkSize RunWords.sampleRun RunWords.sampleConfig) agg
            = 0%nat).
Proof.
  apply (run_prints_once RunWords.sampleRun "animals").
  - reflexivity.
  - reflexivity.
  - cbn. discriminate.
  - reflexivity.
  - repeat split; discriminate.
  - repeat constructor.
  - repeat constructor.
Defined.

(** A run on a document with a field named [hasOwnProperty] ends in
    the host's [TypeError] during its first scan, and prints nothing. *)
Example run_on_shadowed_document :
  Script.run (ScriptWords.sampleEnv (ScriptWords.givenCollection "animals") [Samples.docShadow])
  = ([Script.Scan [Samples.docShadow]], Script.Uncaught TypeError).
Proof. reflexivity. Qed.

(** ** The index translator on any key pattern *)

Module AnyIndexFacts.
Import Index RunWords.

Lemma choice_number host n :
  n <> 1 -> n <> -1 -> choice host (DirNumber n) = inherited host (Str.of_Z n).
Proof.
  intros H1 H2. unfold choice. cbn [JsObj.get].
  destruct (String.eqb "1" (Str.of_Z n)) eqn:E1.
  - apply String.eqb_eq in E1. change "1" with (Str.of_Z 1) in E1.
    apply SchemaFacts.of_Z_inj in E1. congruence.
  - destruct (String.eqb "-1" (Str.of_Z n)) eqn:E2; [|reflexivity].
    apply String.eqb_eq in E2. change "-1" with (Str.of_Z (-1)) in E2.
    apply SchemaFacts.of_Z_inj in E2. congruence.
Qed.

Lemma token_any host fd :
  (if isHashed (snd fd) then fst fd else concatChoice (choice host (snd fd)) (fst fd))
  = anyToken host fd.
Proof.
  destruct fd as [f [n|s]]; unfold anyToken; cbn [fst snd isHashed].
  - destruct (Z.eqb_spec n 1) as [->|H1]; [reflexivity|].
    destruct (Z.eqb_spec n (-1)) as [->|H2]; [reflexivity|].
    rewrite choice_number by assumption.
    destruct (inherited host (Str.of_Z n)); reflexivity.
  - destruct (String.eqb s "hashed"); [reflexivity|].
    unfold choice. cbn [JsObj.get]. rewrite (String.eqb_sym "1" s), (String.eqb_sym "-1" s).
    destruct (String.eqb s "1"); [reflexivity|].
    destruct (String.eqb s "-1"); [reflexivity|].
    destruct (inherited host s); reflexivity.
Qed.

Lemma fieldStep_any host key : forall part ord,
  fold_left (fieldStep host) key (part, ord)
  = ((part ++ map (anyToken host) key)%list,
     ord && forallb (fun fd => negb (isHashed (snd fd))) key).
Proof.
  induction key as [|fd key IH]; intros part ord.
  - cbn. now rewrite app_nil_r, andb_true_r.
  - cbn [fold_left map forallb]. unfold fieldStep at 2. cbn [fst snd].
    rewrite <- (token_any host fd).
    destruct (isHashed (snd fd)); rewrite IH, <- app_assoc; cbn [app negb andb].
    + now rewrite andb_false_r.
    + reflexivity.
Qed.

End AnyIndexFacts.

(** X17: for an index other than [_id_], whatever its key pattern and
    whatever the host: the descriptor's [fields] joins one token for
    each field in order (bare for a hashed field or a direction [1],
    with a minus sign for [-1]; for any other direction, such as [text]
    or [2dsphere], the word [undefined] before the name, or the text of
    the member when the direction is the name of a member that objects
    inherit); [ordered] is true exactly when no field is hashed. *)
Theorem translate_any_key (host : Host) (ix : Index.IndexSpec) :
  Index.name ix <> "_id_" ->
  Index.fields (Index.translate host ix)
  = String.concat "," (map (RunWords.anyToken host) (Index.key ix))
  /\ Index.ordered (Index.translate host ix)
     = forallb (fun fd => negb (Index.isHashed (snd fd))) (Index.key ix).
Proof.
  intros H. unfold Index.translate.
  destruct (String.eqb "_id_" (Index.name ix)) eqn:E.
  - apply String.eqb_eq in E. congruence.
  - cbn [negb]. rewrite AnyIndexFacts.fieldStep_any. split; reflexivity.
Qed.

Lemma translate_any_key_witness :
  Index.fields (Index.translate HostWords.shell RunWords.textIndex)
  = String.concat "," (map (RunWords.anyToken HostWords.shell) (Index.key RunWords.textIndex))
  /\ Index.ordered (Index.translate HostWords.shell RunWords.textIndex)
     = forallb (fun fd => negb (Index.isHashed (snd fd))) (Index.key RunWords.textIndex).
Proof. apply (translate_any_key HostWords.shell RunWords.textIndex). discriminate. Defined.

Example translate_text_index (host : Host) :
  inherited host "text" = None ->
  Index.translate host RunWords.textIndex
  = {| Index.fields := "undefinedtitle,-year"; Index.ordered := true; Index.uniq := false |}.
Proof.
  intros H. unfold Index.translate, RunWords.textIndex.
  cbn [Index.name Index.key Index.unique String.eqb Ascii.eqb Bool.eqb negb fold_left].
  unfold Index.fieldStep, Index.choice.
  cbn [fst snd Index.isHashed String.eqb Ascii.eqb Bool.eqb JsObj.get].
  rewrite H. reflexivity.
Qed.

(** ** The shape-preserving analyser: what the shared tree holds *)

Module SharedFacts.
Import Terark SharedWords.

Lemma recurresult_accumulates host document maxDepth :
  recurresult (analyseDocumentterark host document maxDepth) = accumulate maxDepth document.
Proof.
  unfold analyseDocumentterark, accumulate.
  assert (H : forall st,
             recurresult (fold_left (analyseField host maxDepth) document st)
             = fold_left
                 (fun r kv =>
                    if String.eqb (varietyTypeOf (snd kv)) "Object"
                    then serializeAValue (snd kv) maxDepth r
                    else r)
                 document (recurresult st)).
  { induction document as [|kv d IH]; intros st; [reflexivity|].
    cbn [fold_left]. rewrite IH. f_equal. unfold analyseField.
    destruct (String.eqb (varietyTypeOf (snd kv)) "Object"); reflexivity. }
  apply H.
Qed.

Lemma get_map_values (A B : Type) (f : A -> B) k (o : jsobj A) :
  JsObj.get k (map (fun kv => (fst kv, f (snd kv))) o) = option_map f (JsObj.get k o).
Proof.
  induction o as [|[k' v] o IH]; [reflexivity|].
  cbn [map JsObj.get fst snd]. destruct (String.eqb k' k); [reflexivity | exact IH].
Qed.

Lemma get_derefs a t (tm : jsobj slot) :
  JsObj.get t (map (fun ts => (fst ts, deref a (snd ts))) tm)
  = option_map (deref a) (JsObj.get t tm).
Proof. apply (get_map_values _ _ (deref a)). Qed.

Lemma get_view a k :
  JsObj.get k (view a)
  = option_map (map (fun ts => (fst ts, deref a (snd ts)))) (JsObj.get k (result a)).
Proof.
  unfold view.
  apply (get_map_values _ _ (map (fun ts => (fst ts, deref a (snd ts))))).
Qed.

End SharedFacts.

(** X18: whatever the host and the document, the tree its readers find
    under the type [Object] of any top-level key is the one tree in
    which the traversals of all the [Object]-typed fields of the
    document have been accumulated, in the order of the fields. *)
Theorem shared_tree_accumulates
    (host : Host) (document : jsobj jsval) (maxDepth : Z) (k : string)
    (tm : jsobj Terark.shape) (s : Terark.shape) :
  JsObj.get k (Terark.view (Terark.analyseDocumentterark host document maxDepth)) = Some tm ->
  JsObj.get "Object" tm = Some s ->
  s = Terark.STree (SharedWords.accumulate maxDepth document).
Proof.
  intros Hk Hs. rewrite SharedFacts.get_view in Hk.
  destruct (JsObj.get k (Terark.result (Terark.analyseDocumentterark host document maxDepth)))
    as [tm0|] eqn:G; [|discriminate].
  injection Hk as <-. rewrite SharedFacts.get_derefs in Hs.
  destruct (JsObj.get "Object" tm0) as [s0|] eqn:G0; [|discriminate].
  injection Hs as <-.
  destruct (AnalyseFacts.analyseDocumentterark_aliases host document maxDepth k k tm0 tm0 s0 s0
              G G0 G G0) as (_ & _ & Hd & _).
  rewrite Hd. now rewrite SharedFacts.recurresult_accumulates.
Qed.

Lemma shared_tree_accumulates_witness :
  Terark.STree [("x", [("Number", Terark.STrue)]); ("y", [("String", Terark.STrue)])]
  = Terark.STree
      (SharedWords.accumulate 99
         [("a", VObject [("x", VNumber 1)]); ("b", VObject [("y", VString "s")])]).
Proof.
  apply (shared_tree_accumulates HostWords.shell
           [("a", VObject [("x", VNumber 1)]); ("b", VObject [("y", VString "s")])] 99 "b"
           [("Object",
             Terark.STree [("x", [("Number", Terark.STrue)]); ("y", [("String", Terark.STrue)])])]);
    reflexivity.
Defined.

(** ** The plugin descriptors *)

Module PluginFacts.
Import Plugins PluginWords StrFacts.

Lemma substring_skip n m : forall a b,
  String.length a = n -> String.substring n m (a ++ b) = String.substring 0 m b.
Proof.
  induction n as [|n IH]; intros a b H.
  - destruct a; [reflexivity | discriminate].
  - destruct a as [|c a]; [discriminate|]. simpl. apply IH. now injection H.
Qed.

Lemma slice3_js val : slice3 (val ++ ".js") = ".js".
Proof.
  unfold slice3. rewrite length_append. cbn [String.length].
  replace (String.length val + 3 - 3)%nat with (String.length val) by lia.
  now rewrite substring_skip.
Qed.







End PluginFacts.

(** X19: [parsePath] gives a path that ends in [.js], and leaves such a
    path as it is: applied twice it gives what it gives applied once. *)
Theorem parsePath_js (val : string) :
  Plugins.slice3 (Plugins.parsePath val) = ".js"
  /\ Plugins.parsePath (Plugins.parsePath val) = Plugins.parsePath val.
Proof.
  assert (H : Plugins.slice3 (Plugins.parsePath val) = ".js").
  { unfold Plugins.parsePath.
    destruct (String.eqb (Plugins.slice3 val) ".js") eqn:E; cbn [negb].
    - now apply String.eqb_eq.
    - apply PluginFacts.slice3_js. }
  split; [exact H|].
  unfold Plugins.parsePath at 1. rewrite H. reflexivity.
Qed.



(** ** The shape-preserving analyser keeps to its depth *)

Module DepthFacts.
Import Terark DepthWords SharedWords.

(** The two loops of [serializeAValue] are one fold over what a
    [for..in] loop visits. *)
Lemma serializeAValue_eq value maxDepth pararesult :
  serializeAValue value maxDepth pararesult
  = fold_left (place maxDepth) (forin value) pararesult.
Proof.
  destruct value; cbn [serializeAValue forin]; try reflexivity.
  - (* an array *)
    generalize O as i. revert pararesult.
    induction elems as [|tempv es IH]; intros pararesult i; [reflexivity|].
    cbn [List.length seq map combine fold_left]. rewrite <- IH. reflexivity.
  - (* a record *)
    revert pararesult.
    induction fields as [|[key tempv] fs IH]; intros pararesult; [reflexivity|].
    cbn [fold_left]. rewrite <- IH. reflexivity.
Qed.

Lemma forin_ind (P : jsval -> Prop) :
  (forall v, (forall k c, In (k, c) (forin v) -> P c) -> P v) -> forall v, P v.
Proof.
  intros H. induction v using jsval_rect'; apply H; cbn [forin]; try (intros k c []).
  - intros k c Hin. apply in_combine_r in Hin. rewrite Forall_forall in H0. auto.
  - intros k c Hin. rewrite Forall_forall in H0. apply (H0 (k, c)). exact Hin.
Qed.

Lemma within_tree n t : within (S n) (STree t) = true <-> all_within n t.
Proof.
  cbn [within]. rewrite forallb_forall. split.
  - intros H k tm ty s Hin Hs. specialize (H (k, tm) Hin). cbn [snd] in H.
    rewrite forallb_forall in H. apply (H (ty, s) Hs).
  - intros H [k tm] Hin. cbn [snd]. apply forallb_forall. intros [ty s] Hs.
    cbn [snd]. eapply H; eauto.
Qed.

Lemma serializeAValue_within : forall value maxDepth m pararesult,
  maxDepth <= Z.of_nat (S m) ->
  all_within m pararesult ->
  all_within m (serializeAValue value maxDepth pararesult).
Proof.
  intros value. induction value as [v IH] using forin_ind.
  intros maxDepth m pararesult Hd Hp. rewrite serializeAValue_eq.
  assert (Hsub : forall kv, In kv (forin v) -> In kv (forin v)) by auto.
  revert pararesult Hp Hsub. generalize (forin v) at 1 3 as l.
  induction l as [|[key tempv] l IHl]; intros pararesult Hp Hsub; [exact Hp|].
  cbn [fold_left]. apply IHl; [|intros kv Hkv; apply Hsub; now right].
  unfold place. cbn [fst snd]. intros k tm ty s Hin Hs.
  apply In_set in Hin. destruct Hin as [Hin|Hin]; [|eapply Hp; eauto].
  injection Hin as -> ->. destruct Hs as [Hs|[]]. injection Hs as _ <-.
  destruct (String.eqb (varietyTypeOf tempv) "Object" && (1 <? maxDepth)) eqn:E;
    [|reflexivity].
  apply andb_prop in E. destruct E as [_ E]. apply Z.ltb_lt in E.
  destruct m as [|m]; [lia|].
  apply within_tree. apply (IH key tempv (Hsub _ (or_introl eq_refl))); [lia|].
  intros k' tm' ty' s' [].
Qed.

Lemma accumulate_within maxDepth m document :
  maxDepth <= Z.of_nat (S m) -> all_within m (accumulate maxDepth document).
Proof.
  intros Hd. unfold accumulate.
  assert (H : forall r, all_within m r ->
                        all_within m
                          (fold_left
                             (fun r kv =>
                                if String.eqb (varietyTypeOf (snd kv)) "Object"
                                then serializeAValue (snd kv) maxDepth r
                                else r)
                             document r)).
  { induction document as [|kv d IH]; intros r Hr; [exact Hr|].
    cbn [fold_left]. apply IH.
    destruct (String.eqb (varietyTypeOf (snd kv)) "Object"); [|exact Hr].
    now apply serializeAValue_within. }
  apply H. intros k tm ty s [].
Qed.

End DepthFacts.

(** X21: the shape-preserving analyser keeps to its depth budget, but
    never below one level: whatever the host, every shape read from its
    result has at most [maxDepth] levels of nested trees, and at most
    one when [maxDepth] is below one (the top-level call passes the
    budget on without taking one off, so a top-level object is always
    opened). *)
Theorem analysed_shapes_within
    (host : Host) (document : jsobj jsval) (maxDepth : Z) (k t : string)
    (tm : jsobj Terark.shape) (s : Terark.shape) :
  JsObj.get k (Terark.view (Terark.analyseDocumentterark host document maxDepth)) = Some tm ->
  JsObj.get t tm = Some s ->
  DepthWords.within (Z.to_nat (Z.max 1 maxDepth)) s = true.
Proof.
  intros Hk Hs. rewrite SharedFacts.get_view in Hk.
  destruct (JsObj.get k (Terark.result (Terark.analyseDocumentterark host document maxDepth)))
    as [tm0|]; [|discriminate].
  injection Hk as <-. rewrite SharedFacts.get_derefs in Hs.
  destruct (JsObj.get t tm0) as [[|]|]; [| |discriminate]; injection Hs as <-.
  - reflexivity.
  - cbn [Terark.deref]. rewrite SharedFacts.recurresult_accumulates.
    destruct (Z.to_nat (Z.max 1 maxDepth)) as [|m] eqn:E; [lia|].
    apply DepthFacts.within_tree. apply DepthFacts.accumulate_within. lia.
Qed.

Lemma analysed_shapes_within_witness :
  DepthWords.within (Z.to_nat (Z.max 1 1))
    (Terark.STree [("p", [("Object", Terark.STrue)])])
  = true.
Proof.
  apply (analysed_shapes_within HostWords.shell
           [("n", VNumber 1); ("a", VObject [("p", VObject [("q", VNumber 1)])])] 1
           "a" "Object"
           [("Object", Terark.STree [("p", [("Object", Terark.STrue)])])]);
    reflexivity.
Defined.

(** ** The ordinals of array elements are normalised away *)

Module OrdinalPathFacts.
Import FlatWords OrdinalPathWords StrFacts PruneFacts.

Lemma digitfree_app a b : digitfree (a ++ b) = digitfree a && digitfree b.
Proof.
  induction a as [|x a IH]; [reflexivity|].
  cbn [append digitfree]. now rewrite IH, andb_assoc.
Qed.

(** After a run of digits and the literal that follows it. *)
Lemma digits_then_run post ds :
  all_digits ds = true -> ds <> "" -> digitfree post = true ->
  Str.digits_then post (ds ++ post) = Some "".
Proof.
  intros Hd Hne Hp. induction ds as [|c ds IH]; [contradiction|].
  cbn [all_digits] in Hd. apply andb_prop in Hd. destruct Hd as [Hc Hd].
  cbn [append Str.digits_then]. rewrite Hc.
  destruct ds as [|c' ds'].
  - cbn [append]. rewrite (digits_then_digitfree post post Hp).
    rewrite <- (append_nil_r post) at 2. apply NormalFacts.strip_prefix_app.
  - rewrite IH; [reflexivity | exact Hd | discriminate].
Qed.

(** What is left of a text that starts with more than [e] characters
    without a digit, once [e] is taken off, starts without a digit. *)
Lemma strip_prefix_nondigit e : forall w x s1,
  digitfree w = true -> (String.length e < String.length w)%nat ->
  Str.strip_prefix e (w ++ x) = Some s1 ->
  exists c s', s1 = String c s' /\ Str.is_digit c = false.
Proof.
  induction e as [|a e IH]; intros w x s1 Hw Hlen H.
  - destruct w as [|b w]; [simpl in Hlen; lia|].
    cbn [Str.strip_prefix] in H. injection H as <-.
    cbn [digitfree] in Hw. apply andb_prop in Hw. destruct Hw as [Hb _].
    apply negb_true_iff in Hb. exists b, (w ++ x). split; [reflexivity | exact Hb].
  - destruct w as [|b w]; [simpl in Hlen; lia|].
    cbn [append Str.strip_prefix] in H. destruct (Ascii.eqb a b); [|discriminate].
    cbn [digitfree] in Hw. apply andb_prop in Hw. destruct Hw as [_ Hw].
    apply (IH w x s1 Hw); [simpl in Hlen; lia | exact H].
Qed.

(** No ordinal starts inside a path without a digit that is followed by
    a dot and the opening literal. *)
Lemma no_match_inside pre post c p x :
  digitfree (String c p) = true -> digitfree pre = true ->
  Str.match_ordinal pre post (String c p ++ String Str.dot pre ++ x) = None.
Proof.
  intros Hp Hpre. unfold Str.match_ordinal.
  cbn [append Str.strip_prefix].
  destruct (Ascii.eqb Str.dot c); [|reflexivity].
  destruct (Str.strip_prefix pre (p ++ String Str.dot (pre ++ x))) as [s1|] eqn:E;
    [|reflexivity].
  assert (Hw : digitfree (p ++ String Str.dot pre) = true).
  { cbn [digitfree] in Hp. apply andb_prop in Hp. destruct Hp as [_ Hp].
    rewrite digitfree_app. cbn [digitfree]. rewrite Hp, Hpre. reflexivity. }
  replace (p ++ String Str.dot (pre ++ x)) with ((p ++ String Str.dot pre) ++ x) in E
    by (rewrite append_assoc; reflexivity).
  destruct (strip_prefix_nondigit pre _ x s1 Hw) as (c' & s' & -> & Hc'); auto.
  - rewrite length_append. cbn [String.length]. lia.
  - cbn [Str.digits_then]. now rewrite Hc'.
Qed.

Lemma replace_from_skip pre post repl s : forall n,
  (String.length s <= n)%nat -> Str.replace_from pre post repl n s = "".
Proof.
  induction s as [|c s IH]; intros n H; [reflexivity|].
  destruct n as [|n]; [simpl in H; lia|].
  cbn [Str.replace_from]. apply IH. simpl in H. lia.
Qed.

(** A path without a digit followed by one ordinal: the ordinal is
    replaced, the path is kept. *)
Lemma replace_one_ordinal pre post repl ds p :
  digitfree p = true -> digitfree pre = true -> digitfree post = true ->
  all_digits ds = true -> ds <> "" ->
  Str.replace_ordinals pre post repl (p ++ String Str.dot pre ++ ds ++ post) = p ++ repl.
Proof.
  intros Hp Hpre Hpost Hds Hne. unfold Str.replace_ordinals.
  induction p as [|c p IH].
  - cbn [append Str.replace_from].
    assert (M : Str.match_ordinal pre post (String Str.dot (pre ++ ds ++ post)) = Some "").
    { unfold Str.match_ordinal.
      change (String Str.dot (pre ++ ds ++ post)) with (String Str.dot pre ++ ds ++ post).
      rewrite NormalFacts.strip_prefix_app. now apply digits_then_run. }
    rewrite M. cbn [String.length]. rewrite Nat.sub_0_r.
    rewrite replace_from_skip by lia. now rewrite append_nil_r.
  - change ((String c p) ++ String Str.dot pre ++ ds ++ post)
      with (String c (p ++ String Str.dot pre ++ ds ++ post)).
    cbn [Str.replace_from].
    pose proof (no_match_inside pre post c p (ds ++ post) Hp Hpre) as M.
    change (String c p ++ String Str.dot pre ++ ds ++ post)
      with (String c (p ++ String Str.dot pre ++ ds ++ post)) in M.
    rewrite M. cbn [append]. f_equal. apply IH.
    cbn [digitfree] in Hp. apply andb_prop in Hp. tauto.
Qed.

Lemma all_digits_uint d : all_digits (NilEmpty.string_of_uint d) = true.
Proof. induction d; simpl; auto. Qed.

Lemma of_nat_digits i : all_digits (Str.of_nat i) = true /\ Str.of_nat i <> "".
Proof.
  split; [apply all_digits_uint|]. unfold Str.of_nat.
  pose proof (DecimalNat.Unsigned.to_of (Nat.to_uint i)) as H.
  rewrite DecimalNat.Unsigned.of_to in H.
  pose proof (DecimalFacts.unorm_nonnil (Nat.to_uint i)) as Hn. rewrite <- H in Hn.
  destruct (Nat.to_uint i); [contradiction | discriminate ..].
Qed.

End OrdinalPathFacts.

(** X22: the elements of an array are analysed under one path.  In a
    host that reads the escape literally, with an escape without
    digits, the flat analyser returns, and every key [p.E<i>E] of the
    flattened document, the key of the element [i] of the array at the
    path [p] (a path without digits), marks the type of its value at
    the one path [p.E] (which is no name of a member that objects
    inherit). *)
Theorem array_ordinals_normalised
    (host : Host) (config : Config) (document : jsobj jsval) (p : string) (i : nat)
    (v : jsval) :
  HostWords.literal_analysis host config ->
  FlatWords.digitfree (arrayEscape config) = true ->
  FlatWords.digitfree p = true ->
  inherited host (p ++ "." ++ arrayEscape config) = None ->
  In (p ++ "." ++ Flat.escaped config i, v) document ->
  exists result,
    Flat.analyseDocument host config document = Returns result
    /\ AnalyseFlatWords.marked result (p ++ "." ++ arrayEscape config) (varietyTypeOf v).
Proof.
  intros (_ & Hre) He Hp Hi Hin. unfold Flat.analyseDocument. rewrite Hre.
  eexists. split; [reflexivity|].
  apply (AnalyseFlatFacts.fold_marked host config _ document _ _ []
           (AnalyseFlatFacts.own_nil host)).
  right. exists (p ++ "." ++ Flat.escaped config i), v.
  split; [exact Hin|]. split; [|split; [reflexivity | exact Hi]].
  destruct (OrdinalPathFacts.of_nat_digits i) as [Hd Hne].
  unfold Flat.normalizeKey, Str.replace, Flat.escaped.
  change (p ++ "." ++ arrayEscape config ++ Str.of_nat i ++ arrayEscape config)
    with (p ++ String Str.dot (arrayEscape config) ++ Str.of_nat i ++ arrayEscape config).
  now apply OrdinalPathFacts.replace_one_ordinal.
Qed.

Lemma array_ordinals_normalised_witness :
  exists result,
    Flat.analyseDocument HostWords.shell Samples.config
      [("a.XX0XX", VNumber 1); ("a.XX1XX", VString "s")]
    = Returns result
    /\ AnalyseFlatWords.marked result ("a" ++ "." ++ arrayEscape Samples.config)
         (varietyTypeOf (VString "s")).
Proof.
  apply (array_ordinals_normalised HostWords.shell Samples.config
           [("a.XX0XX", VNumber 1); ("a.XX1XX", VString "s")] "a" 1 (VString "s")).
  - repeat split; reflexivity.
  - reflexivity.
  - reflexivity.
  - reflexivity.
  - right. left. reflexivity.
Defined.
